(** * The PBaaS notarization protocol (src/pbaas/notarization.cpp)

    A shallow embedding of the notary-evidence signing functions, the
    transaction-decoding constructors, the proof-root constructor, the
    signature verification of finalizations and evidence, the accepted
    notarization builder and the launch transition of
    [CPBaaSNotarization::NextNotarizationInfo], with the properties the
    specification states about them; and of the signing and verification
    of a finalization through its output, the lookups of the last
    notarization and of unspent notary evidence, the validation of a
    finalization spend and the earned notarization builder, with the
    properties the code itself shows.

    Conventions.  [uint160], [uint256] and the fixed-width integers are [Z];
    where the source converts between signed and unsigned the conversion is
    written out.  [std::map] is [gmap], [std::set] is [gset], [std::vector]
    is [list].  Collaborators that live outside notarization.cpp (the key
    store, the identity index, the chain index, the import engine, the
    deserialisers) are section variables of the module that uses them. *)

From stdpp Require Import gmap list strings sorting.
From Stdlib Require Import ZArith Lia.

Local Open Scope Z_scope.

(** ** Primitive data *)

Abbreviation uint160 := Z (only parsing).
Abbreviation uint256 := Z (only parsing).
Abbreviation bytes := (list Z) (only parsing).

(** [uint256::IsNull]. *)
Definition IsNull (h : Z) : bool := h =? 0.

(** Conversion of a signed [int] to [uint32_t], as the usual arithmetic
    conversions do when the two meet in a comparison. *)
Definition to_uint32 (x : Z) : Z := x mod 2 ^ 32.

(** The evaluation codes notarization.cpp dispatches on. *)
Inductive EvalCode :=
| EVAL_NONE
| EVAL_EARNEDNOTARIZATION
| EVAL_ACCEPTEDNOTARIZATION
| EVAL_FINALIZE_NOTARIZATION
| EVAL_FINALIZE_EXPORT
| EVAL_NOTARY_EVIDENCE
| EVAL_OTHER.

#[global] Instance EvalCode_eq_dec : EqDecision EvalCode.
Proof. solve_decision. Defined.

(** The result of verifying or making an identity signature. *)
Inductive ESignatureVerification :=
| SIGNATURE_INVALID
| SIGNATURE_PARTIAL
| SIGNATURE_COMPLETE.

#[global] Instance ESignatureVerification_eq_dec : EqDecision ESignatureVerification.
Proof. solve_decision. Defined.

(** [COptCCParams]: what [IsPayToCryptoCondition] extracts from a script.
    [ccValid] is the value of [p.IsValid()]. *)
Record COptCCParams := {
  ccValid : bool;
  ccVersion : Z;
  evalCode : EvalCode;
  vData : list bytes
}.

Definition COptCCParams_default : COptCCParams :=
  {| ccValid := false; ccVersion := 0; evalCode := EVAL_NONE; vData := [] |}.

(** A script either carries crypto-condition parameters or it does not. *)
Inductive CScript :=
| ScriptPlain
| ScriptCC (p : COptCCParams).

(** [scriptPubKey.IsPayToCryptoCondition(p)]: the answer, and [p] after the
    call ([p] is left as it was when the answer is no). *)
Definition IsPayToCryptoCondition (s : CScript) (p : COptCCParams) : bool * COptCCParams :=
  match s with
  | ScriptCC q => (true, q)
  | ScriptPlain => (false, p)
  end.

Record CTxOut := {
  scriptPubKey : CScript;
  nValue : Z
}.

(** A transaction, with its hash ([GetHash()]) as a field. *)
Record CTransaction := {
  GetHash : uint256;
  vout : list CTxOut
}.

Record CUTXORef := {
  hash : uint256;
  n : Z
}.

(** [CUTXORef()]: the null reference, a null hash and the largest index. *)
Definition CUTXORef_default : CUTXORef := {| hash := 0; n := 2 ^ 32 - 1 |}.

(** [vec[i]] for an index held in a [Z]. *)
Definition at_index {A} (l : list A) (i : Z) : option A :=
  if i <? 0 then None else l !! Z.to_nat i.

(** [vec.size()]. *)
Definition vsize {A} (l : list A) : Z := Z.of_nat (length l).

(** ** Proof roots *)

Record CProofRoot := {
  pr_version : Z;
  pr_type : Z;
  pr_systemID : uint160;
  rootHeight : Z;
  stateRoot : uint256;
  blockHash : uint256;
  compactPower : uint256
}.

(** ** The notarization record (the fields the functions below touch) *)

(** The flag bits of a notarization, one field per accessor pair of the class. *)
Record NotarizationFlags := {
  fDefinitionNotarization : bool;
  fBlockOneNotarization : bool;
  fPreLaunch : bool;
  fLaunchCleared : bool;
  fRefunding : bool;
  fLaunchConfirmed : bool;
  fMirror : bool;
  fSameChain : bool
}.

Definition FLAGS_NONE : NotarizationFlags :=
  {| fDefinitionNotarization := false; fBlockOneNotarization := false;
     fPreLaunch := false; fLaunchCleared := false; fRefunding := false;
     fLaunchConfirmed := false; fMirror := false; fSameChain := false |}.

(** The flag bits of a currency state. *)
Record CurrencyStateFlags := {
  csPrelaunch : bool;
  csLaunchClear : bool;
  csRefunding : bool;
  csLaunchConfirmed : bool;
  csLaunchCompleteMarker : bool
}.

(** [CCoinbaseCurrencyState]: flags, supply, reserves and the two price
    vectors are what the launch transition reads and writes; [csRest] stands
    for every other field (fees, emitted amounts) and is only passed along. *)
Record CCoinbaseCurrencyState := {
  csValid : bool;
  csFlags : CurrencyStateFlags;
  supply : Z;
  reserves : list Z;
  conversionPrice : list Z;
  viaConversionPrice : list Z;
  csRest : Z
}.

Record CPBaaSNotarization := {
  nVersion : Z;
  flags : NotarizationFlags;
  currencyID : uint160;
  notarizationHeight : Z;
  currencyState : CCoinbaseCurrencyState;
  prevNotarization : CUTXORef;
  hashPrevNotarization : uint256;
  prevHeight : Z;
  currencyStates : gmap Z CCoinbaseCurrencyState;
  proofRoots : gmap Z CProofRoot
}.

(** ** Object finalizations *)

Record CObjectFinalization := {
  of_version : Z;
  finalizationType : Z;
  of_confirmed : bool;
  of_currencyID : uint160;
  output : CUTXORef;
  evidenceInputs : list Z;
  evidenceOutputs : list Z;
  minFinalizationHeight : Z
}.

(** * Decoding a notarization or a finalization out of a transaction *)

Module TxDecode.
Section Constructors.

(** [CPBaaSNotarization::VERSION_INVALID] and helpers of the headers. *)
Variable VERSION_INVALID : Z.
Variable CCoinbaseCurrencyState_default : CCoinbaseCurrencyState.
(** [::FromVector(vch, obj)]: [obj] after deserialising [vch] into it. *)
Variable FromVector : bytes -> CPBaaSNotarization -> CPBaaSNotarization.

(** The member initialisers of both [CPBaaSNotarization] constructors. *)
Definition CPBaaSNotarization_init : CPBaaSNotarization :=
  {| nVersion := VERSION_INVALID;
     flags := FLAGS_NONE;
     currencyID := 0;
     notarizationHeight := 0;
     currencyState := CCoinbaseCurrencyState_default;
     prevNotarization := CUTXORef_default;
     hashPrevNotarization := 0;
     prevHeight := 0;
     currencyStates := ∅;
     proofRoots := ∅ |}.

(** The test both constructors apply to an output: a valid crypto-condition
    carrying an earned or accepted notarization with some data. *)
Definition isNotarizationParams (p : COptCCParams) : bool :=
  ccValid p
  && (bool_decide (evalCode p = EVAL_ACCEPTEDNOTARIZATION)
      || bool_decide (evalCode p = EVAL_EARNEDNOTARIZATION))
  && negb (vsize (vData p) =? 0).

Definition isNotarizationOut (o : CTxOut) : bool :=
  let '(isCC, p) := IsPayToCryptoCondition (scriptPubKey o) COptCCParams_default in
  isCC && isNotarizationParams p.

Definition firstData (p : COptCCParams) : bytes := hd [] (vData p).

Definition invalidate (nz : CPBaaSNotarization) : CPBaaSNotarization :=
  {| nVersion := VERSION_INVALID;
     flags := flags nz;
     currencyID := currencyID nz;
     notarizationHeight := notarizationHeight nz;
     currencyState := currencyState nz;
     prevNotarization := prevNotarization nz;
     hashPrevNotarization := hashPrevNotarization nz;
     prevHeight := prevHeight nz;
     currencyStates := currencyStates nz;
     proofRoots := ∅ |}.

(** [CPBaaSNotarization(const CScript &)]. *)
Definition CPBaaSNotarization_of_script (s : CScript) : CPBaaSNotarization :=
  let '(isCC, p) := IsPayToCryptoCondition s COptCCParams_default in
  if isCC && isNotarizationParams p
  then FromVector (firstData p) CPBaaSNotarization_init
  else CPBaaSNotarization_init.

(** The loop of the constructor of [CPBaaSNotarization] from a transaction, from
    output [i] on: the object, [found] and [outIdx] are the loop state. *)
Fixpoint notarization_loop (outs : list CTxOut) (i : Z) (found : bool)
         (outIdx : Z) (this : CPBaaSNotarization) : CPBaaSNotarization * Z :=
  match outs with
  | [] => (this, outIdx)
  | o :: rest =>
      let '(isCC, p) := IsPayToCryptoCondition (scriptPubKey o) COptCCParams_default in
      if isCC && isNotarizationParams p then
        if found then (invalidate this, outIdx)
        else notarization_loop rest (i + 1) true i (FromVector (firstData p) this)
      else notarization_loop rest (i + 1) found outIdx this
  end.

(** The constructor of [CPBaaSNotarization] from a transaction; [outIdx0] is
    what the caller's output index held before the call. *)
Definition CPBaaSNotarization_of_tx (tx : CTransaction) (outIdx0 : Z)
  : CPBaaSNotarization * Z :=
  notarization_loop (vout tx) 0 false outIdx0 CPBaaSNotarization_init.

(** The default-constructed finalization the transaction constructor starts
    from, and [CObjectFinalization::VERSION_INVALID]. *)
Variable CObjectFinalization_default : CObjectFinalization.
Variable FINALIZATION_VERSION_INVALID : Z.

Definition isFinalizationOut (o : CTxOut) : option EvalCode :=
  let '(isCC, p) := IsPayToCryptoCondition (scriptPubKey o) COptCCParams_default in
  if isCC && ccValid p
     && (bool_decide (evalCode p = EVAL_FINALIZE_NOTARIZATION)
         || bool_decide (evalCode p = EVAL_FINALIZE_EXPORT))
  then Some (evalCode p) else None.

Definition invalidate_finalization (f : CObjectFinalization) : CObjectFinalization :=
  {| of_version := FINALIZATION_VERSION_INVALID;
     finalizationType := finalizationType f;
     of_confirmed := of_confirmed f;
     of_currencyID := of_currencyID f;
     output := output f;
     evidenceInputs := evidenceInputs f;
     evidenceOutputs := evidenceOutputs f;
     minFinalizationHeight := minFinalizationHeight f |}.

(** The loop of the constructor of [CObjectFinalization] from a transaction. *)
Fixpoint finalization_loop (outs : list CTxOut) (i : Z) (this : CObjectFinalization)
         (ecode : option EvalCode) (finalizeOutNum : Z)
  : CObjectFinalization * option EvalCode * Z :=
  match outs with
  | [] => (this, ecode, finalizeOutNum)
  | o :: rest =>
      match isFinalizationOut o with
      | Some code =>
          if negb (finalizeOutNum =? -1)
          then (invalidate_finalization this, ecode, -1)
          else finalization_loop rest (i + 1) this (Some code) i
      | None => finalization_loop rest (i + 1) this ecode finalizeOutNum
      end
  end.

(** The constructor: the object, the reported evaluation code ([None] while
    never written) and the reported finalization output index. *)
Definition CObjectFinalization_of_tx (tx : CTransaction)
  : CObjectFinalization * option EvalCode * Z :=
  finalization_loop (vout tx) 0 CObjectFinalization_default None (-1).

(** How many outputs pass a test. *)
Definition count_outs (f : CTxOut -> bool) (outs : list CTxOut) : nat :=
  length (List.filter f outs).

Definition isFinalizationOutb (o : CTxOut) : bool :=
  match isFinalizationOut o with Some _ => true | None => false end.

(** *** Uniqueness of the decoded object *)

Definition invalidated (r : CPBaaSNotarization * Z) : Prop :=
  nVersion r.1 = VERSION_INVALID ∧ proofRoots r.1 = ∅.

Lemma count_outs_cons f o rest :
  count_outs f (o :: rest) = if f o then S (count_outs f rest) else count_outs f rest.
Proof. unfold count_outs. cbn. destruct (f o); reflexivity. Qed.

Lemma notarization_loop_cons o rest i found outIdx this :
  notarization_loop (o :: rest) i found outIdx this =
  if isNotarizationOut o then
    if found then (invalidate this, outIdx)
    else notarization_loop rest (i + 1) true i
           (FromVector (firstData (IsPayToCryptoCondition (scriptPubKey o) COptCCParams_default).2) this)
  else notarization_loop rest (i + 1) found outIdx this.
Proof.
  cbn [notarization_loop]. unfold isNotarizationOut.
  destruct (IsPayToCryptoCondition (scriptPubKey o) COptCCParams_default) as [isCC p].
  reflexivity.
Qed.

Lemma notarization_loop_second outs i outIdx this :
  (1 <= count_outs isNotarizationOut outs)%nat ->
  invalidated (notarization_loop outs i true outIdx this).
Proof.
  revert i outIdx this.
  induction outs as [|o rest IH]; intros i outIdx this Hc; [cbn in Hc; lia|].
  rewrite notarization_loop_cons. rewrite count_outs_cons in Hc.
  destruct (isNotarizationOut o).
  - split; reflexivity.
  - apply IH. exact Hc.
Qed.

Lemma notarization_loop_first outs i outIdx this :
  (2 <= count_outs isNotarizationOut outs)%nat ->
  invalidated (notarization_loop outs i false outIdx this).
Proof.
  revert i outIdx this.
  induction outs as [|o rest IH]; intros i outIdx this Hc; [cbn in Hc; lia|].
  rewrite notarization_loop_cons. rewrite count_outs_cons in Hc.
  destruct (isNotarizationOut o).
  - apply notarization_loop_second. lia.
  - apply IH. exact Hc.
Qed.

Definition finalization_rejected (r : CObjectFinalization * option EvalCode * Z) : Prop :=
  of_version r.1.1 = FINALIZATION_VERSION_INVALID ∧ r.2 = -1.

Lemma finalization_loop_second outs i this ecode num :
  num <> -1 ->
  (1 <= count_outs isFinalizationOutb outs)%nat ->
  finalization_rejected (finalization_loop outs i this ecode num).
Proof.
  revert i ecode.
  induction outs as [|o rest IH]; intros i ecode Hnum Hc; [cbn in Hc; lia|].
  cbn [finalization_loop]. rewrite count_outs_cons in Hc.
  unfold isFinalizationOutb in Hc at 1.
  destruct (isFinalizationOut o) as [code|].
  - destruct (Z.eqb_spec num (-1)) as [->|_]; [contradiction|].
    split; reflexivity.
  - apply IH; assumption.
Qed.

Lemma finalization_loop_first outs i this ecode :
  0 <= i ->
  (2 <= count_outs isFinalizationOutb outs)%nat ->
  finalization_rejected (finalization_loop outs i this ecode (-1)).
Proof.
  revert i ecode.
  induction outs as [|o rest IH]; intros i ecode Hi Hc; [cbn in Hc; lia|].
  cbn [finalization_loop]. rewrite count_outs_cons in Hc.
  unfold isFinalizationOutb in Hc at 1.
  destruct (isFinalizationOut o) as [code|].
  - replace (-1 =? -1) with true by reflexivity. cbn [negb].
    apply finalization_loop_second; lia.
  - apply IH; [lia | exact Hc].
Qed.

(** C10.  A transaction with more than one earned- or accepted-notarization
    output decodes to a notarization whose version is [VERSION_INVALID] and
    whose proof roots are cleared; a transaction with more than one
    finalize-notarization or finalize-export output decodes to a finalization
    whose version is [VERSION_INVALID] and whose reported output index is
    reset to -1. *)
Theorem decoding_constructors_enforce_uniqueness (tx : CTransaction) (outIdx0 : Z) :
  ((2 <= count_outs isNotarizationOut (vout tx))%nat ->
     nVersion (CPBaaSNotarization_of_tx tx outIdx0).1 = VERSION_INVALID
     ∧ proofRoots (CPBaaSNotarization_of_tx tx outIdx0).1 = ∅)
  ∧ ((2 <= count_outs isFinalizationOutb (vout tx))%nat ->
     of_version (CObjectFinalization_of_tx tx).1.1 = FINALIZATION_VERSION_INVALID
     ∧ (CObjectFinalization_of_tx tx).2 = -1).
Proof.
  split; intros Hc.
  - apply (notarization_loop_first (vout tx) 0 outIdx0 CPBaaSNotarization_init Hc).
  - apply (finalization_loop_first (vout tx) 0 CObjectFinalization_default None); [lia | exact Hc].
Qed.

(** *** The one object a transaction carries *)

Lemma notarization_loop_none outs i found outIdx this :
  count_outs isNotarizationOut outs = 0%nat ->
  notarization_loop outs i found outIdx this = (this, outIdx).
Proof.
  revert i. induction outs as [|o rest IH]; intros i Hc; [reflexivity|].
  rewrite notarization_loop_cons. rewrite count_outs_cons in Hc.
  destruct (isNotarizationOut o); [discriminate|]. apply IH. exact Hc.
Qed.

Lemma notarization_loop_skip pre rest i found outIdx this :
  count_outs isNotarizationOut pre = 0%nat ->
  notarization_loop (pre ++ rest) i found outIdx this
  = notarization_loop rest (i + vsize pre) found outIdx this.
Proof.
  revert i. induction pre as [|o pre' IH]; intros i Hc.
  - cbn [app]. unfold vsize. cbn. rewrite Z.add_0_r. reflexivity.
  - cbn [app]. rewrite notarization_loop_cons. rewrite count_outs_cons in Hc.
    destruct (isNotarizationOut o); [discriminate|].
    rewrite (IH (i + 1) Hc). f_equal. unfold vsize. cbn [length]. lia.
Qed.

Lemma CPBaaSNotarization_of_script_out o :
  isNotarizationOut o = true ->
  CPBaaSNotarization_of_script (scriptPubKey o)
  = FromVector (firstData (IsPayToCryptoCondition (scriptPubKey o) COptCCParams_default).2)
      CPBaaSNotarization_init.
Proof.
  unfold isNotarizationOut, CPBaaSNotarization_of_script.
  destruct (IsPayToCryptoCondition (scriptPubKey o) COptCCParams_default) as [isCC p].
  intros ->. reflexivity.
Qed.

(** X16.  A transaction without any notarization output decodes to the
    object the constructor starts from, of version [VERSION_INVALID], and
    leaves the caller's output index as it was.  A transaction with exactly
    one earned- or accepted-notarization output decodes to what the script
    constructor makes of that output, and the output index reported is the
    position of that output. *)
Theorem CPBaaSNotarization_of_tx_single (tx : CTransaction) (outIdx0 : Z) :
  (count_outs isNotarizationOut (vout tx) = 0%nat ->
   CPBaaSNotarization_of_tx tx outIdx0 = (CPBaaSNotarization_init, outIdx0))
  ∧ (forall pre o post,
       vout tx = pre ++ o :: post ->
       count_outs isNotarizationOut pre = 0%nat ->
       isNotarizationOut o = true ->
       count_outs isNotarizationOut post = 0%nat ->
       CPBaaSNotarization_of_tx tx outIdx0
       = (CPBaaSNotarization_of_script (scriptPubKey o), vsize pre)).
Proof.
  unfold CPBaaSNotarization_of_tx. split.
  - intros Hc. apply notarization_loop_none. exact Hc.
  - intros pre o post -> Hpre Ho Hpost.
    rewrite (notarization_loop_skip pre (o :: post) 0 false outIdx0 _ Hpre).
    rewrite notarization_loop_cons, Ho.
    rewrite (notarization_loop_none post _ true _ _ Hpost).
    rewrite (CPBaaSNotarization_of_script_out o Ho). reflexivity.
Qed.

Lemma finalization_loop_none outs i this ecode num :
  count_outs isFinalizationOutb outs = 0%nat ->
  finalization_loop outs i this ecode num = (this, ecode, num).
Proof.
  revert i. induction outs as [|o rest IH]; intros i Hc; [reflexivity|].
  cbn [finalization_loop]. rewrite count_outs_cons in Hc.
  unfold isFinalizationOutb in Hc at 1.
  destruct (isFinalizationOut o); [discriminate|]. apply IH. exact Hc.
Qed.

Lemma finalization_loop_skip pre rest i this ecode num :
  count_outs isFinalizationOutb pre = 0%nat ->
  finalization_loop (pre ++ rest) i this ecode num
  = finalization_loop rest (i + vsize pre) this ecode num.
Proof.
  revert i. induction pre as [|o pre' IH]; intros i Hc.
  - cbn [app]. unfold vsize. cbn. rewrite Z.add_0_r. reflexivity.
  - cbn [app finalization_loop]. rewrite count_outs_cons in Hc.
    unfold isFinalizationOutb in Hc at 1.
    destruct (isFinalizationOut o); [discriminate|].
    rewrite (IH (i + 1) Hc). f_equal. unfold vsize. cbn [length]. lia.
Qed.

Lemma finalization_loop_object outs i this ecode num :
  (finalization_loop outs i this ecode num).1.1 = this
  ∨ (finalization_loop outs i this ecode num).1.1 = invalidate_finalization this.
Proof.
  revert i ecode num. induction outs as [|o rest IH]; intros i ecode num; [left; reflexivity|].
  cbn [finalization_loop].
  destruct (isFinalizationOut o) as [code|]; [|apply IH].
  destruct (negb (num =? -1)); [right; reflexivity | apply IH].
Qed.

(** X17.  The constructor of a finalization from a transaction never reads
    the finalization it finds: the object it makes is the default one, or
    the default one with its version invalidated.  For a transaction without
    a finalization output the index reported is -1 and no evaluation code
    is written; for one with exactly one finalize-notarization or
    finalize-export output, the index reported is the position of that
    output and the code its evaluation code. *)
Theorem CObjectFinalization_of_tx_single (tx : CTransaction) :
  ((CObjectFinalization_of_tx tx).1.1 = CObjectFinalization_default
   ∨ (CObjectFinalization_of_tx tx).1.1 = invalidate_finalization CObjectFinalization_default)
  ∧ (count_outs isFinalizationOutb (vout tx) = 0%nat ->
     CObjectFinalization_of_tx tx = (CObjectFinalization_default, None, -1))
  ∧ (forall pre o post code,
       vout tx = pre ++ o :: post ->
       count_outs isFinalizationOutb pre = 0%nat ->
       isFinalizationOut o = Some code ->
       count_outs isFinalizationOutb post = 0%nat ->
       CObjectFinalization_of_tx tx = (CObjectFinalization_default, Some code, vsize pre)).
Proof.
  unfold CObjectFinalization_of_tx. split; [apply finalization_loop_object|]. split.
  - intros Hc. apply finalization_loop_none. exact Hc.
  - intros pre o post code -> Hpre Ho Hpost.
    rewrite (finalization_loop_skip pre (o :: post) 0 _ None (-1) Hpre).
    cbn [finalization_loop]. rewrite Ho.
    replace (negb (-1 =? -1)) with false by reflexivity.
    rewrite (finalization_loop_none post _ _ (Some code) _ Hpost). reflexivity.
Qed.

End Constructors.

(** A transaction carrying two accepted notarizations and two finalizations. *)
Definition ccOut (code : EvalCode) (data : bytes) : CTxOut :=
  {| scriptPubKey := ScriptCC {| ccValid := true; ccVersion := 3; evalCode := code; vData := [data] |};
     nValue := 0 |}.

Definition doubled_tx : CTransaction :=
  {| GetHash := 7;
     vout := [ccOut EVAL_ACCEPTEDNOTARIZATION [1]; ccOut EVAL_FINALIZE_NOTARIZATION [2];
              ccOut EVAL_EARNEDNOTARIZATION [3]; ccOut EVAL_FINALIZE_EXPORT [4]] |}.

Definition plain_state : CCoinbaseCurrencyState :=
  {| csValid := true;
     csFlags := {| csPrelaunch := false; csLaunchClear := false; csRefunding := false;
                   csLaunchConfirmed := false; csLaunchCompleteMarker := false |};
     supply := 0; reserves := []; conversionPrice := []; viaConversionPrice := [];
     csRest := 0 |}.

Definition plain_finalization : CObjectFinalization :=
  {| of_version := 1; finalizationType := 1; of_confirmed := false; of_currencyID := 0;
     output := CUTXORef_default; evidenceInputs := []; evidenceOutputs := [];
     minFinalizationHeight := 0 |}.

Lemma decoding_constructors_enforce_uniqueness_witness :
  (2 <= count_outs isNotarizationOut (vout doubled_tx))%nat
  ∧ (2 <= count_outs isFinalizationOutb (vout doubled_tx))%nat
  ∧ nVersion (CPBaaSNotarization_of_tx 0 plain_state (fun _ nz => nz) doubled_tx 5).1 = 0
  ∧ (CObjectFinalization_of_tx plain_finalization 0 doubled_tx).2 = -1.
Proof.
  pose proof (decoding_constructors_enforce_uniqueness 0 plain_state (fun _ nz => nz)
                plain_finalization 0 doubled_tx 5) as [Hn Hf].
  assert (H1 : (2 <= count_outs isNotarizationOut (vout doubled_tx))%nat) by (vm_compute; lia).
  assert (H2 : (2 <= count_outs isFinalizationOutb (vout doubled_tx))%nat) by (vm_compute; lia).
  split; [exact H1|]. split; [exact H2|].
  split; [exact (proj1 (Hn H1)) | exact (proj2 (Hf H2))].
Defined.

(** A transaction with a plain output, one earned notarization and one
    finalization, and a deserialiser that keeps the first byte of the data
    as the height. *)
Definition plain_out : CTxOut := {| scriptPubKey := ScriptPlain; nValue := 5 |}.

Definition single_tx : CTransaction :=
  {| GetHash := 8;
     vout := [plain_out; ccOut EVAL_EARNEDNOTARIZATION [33];
              ccOut EVAL_FINALIZE_NOTARIZATION [2]] |}.

Definition height_of_data (vch : list Z) (nz : CPBaaSNotarization) : CPBaaSNotarization :=
  {| nVersion := 1; flags := flags nz; currencyID := currencyID nz;
     notarizationHeight := hd 0 vch; currencyState := currencyState nz;
     prevNotarization := prevNotarization nz; hashPrevNotarization := hashPrevNotarization nz;
     prevHeight := prevHeight nz; currencyStates := currencyStates nz;
     proofRoots := proofRoots nz |}.

Lemma CPBaaSNotarization_of_tx_single_witness :
  vout single_tx = [plain_out] ++ ccOut EVAL_EARNEDNOTARIZATION [33]
                     :: [ccOut EVAL_FINALIZE_NOTARIZATION [2]]
  ∧ (CPBaaSNotarization_of_tx 0 plain_state height_of_data single_tx 5).2 = 1
  ∧ notarizationHeight (CPBaaSNotarization_of_tx 0 plain_state height_of_data single_tx 5).1
    = 33.
Proof.
  assert (Hv : vout single_tx = [plain_out] ++ ccOut EVAL_EARNEDNOTARIZATION [33]
                                  :: [ccOut EVAL_FINALIZE_NOTARIZATION [2]]) by reflexivity.
  split; [exact Hv|].
  destruct (CPBaaSNotarization_of_tx_single 0 plain_state height_of_data single_tx 5)
    as [_ Hone].
  rewrite (Hone _ _ _ Hv); [split; reflexivity | reflexivity..].
Defined.

Lemma CObjectFinalization_of_tx_single_witness :
  vout single_tx = [plain_out; ccOut EVAL_EARNEDNOTARIZATION [33]]
                     ++ ccOut EVAL_FINALIZE_NOTARIZATION [2] :: []
  ∧ CObjectFinalization_of_tx plain_finalization 0 single_tx
    = (plain_finalization, Some EVAL_FINALIZE_NOTARIZATION, 2).
Proof.
  assert (Hv : vout single_tx = [plain_out; ccOut EVAL_EARNEDNOTARIZATION [33]]
                                  ++ ccOut EVAL_FINALIZE_NOTARIZATION [2] :: [])
    by reflexivity.
  split; [exact Hv|].
  destruct (CObjectFinalization_of_tx_single plain_finalization 0 single_tx) as (_ & _ & Hone).
  rewrite (Hone _ _ _ EVAL_FINALIZE_NOTARIZATION Hv); reflexivity.
Defined.

End TxDecode.

(** * The active chain and [CProofRoot::GetProofRoot] *)

Module ProofRoot.

Record CBlockIndex := {
  GetBlockHash : uint256;
  CompactChainPower : uint256
}.

(** [CChain]: the vector of block indexes, genesis first. *)
Record CChain := {
  vChain : list CBlockIndex
}.

(** [CChain::Height()], an [int]: -1 for a chain without blocks. *)
Definition Height (c : CChain) : Z := vsize (vChain c) - 1.

(** [chainActive[nHeight]] for an [int] height: [None] is the null pointer. *)
Definition block_at (c : CChain) (nHeight : Z) : option CBlockIndex :=
  at_index (vChain c) nHeight.

(** Conversion of a [uint32_t] to [int] (two's complement). *)
Definition to_int32 (x : Z) : Z :=
  if x mod 2 ^ 32 <? 2 ^ 31 then x mod 2 ^ 32 else x mod 2 ^ 32 - 2 ^ 32.

Section GetProofRoot.

(** The Merkle mountain range of the chain and its views. *)
Variable MMR : Type.
(** [mmv.GetRoot()] for a view of [sz] elements over [m]. *)
Variable MMVRoot : MMR -> Z -> uint256.

(** A view: the range it looks at and how many elements it shows. *)
Record MMView := {
  view_mmr : MMR;
  view_size : Z
}.

(** [chainActive.GetMMV()]. *)
Variable GetMMV : CChain -> MMView.

Definition resize (v : MMView) (newSize : Z) : MMView :=
  {| view_mmr := view_mmr v; view_size := newSize |}.

Definition GetRoot (v : MMView) : uint256 := MMVRoot (view_mmr v) (view_size v).

Variable ASSETCHAINS_CHAINID : uint160.
(** [CProofRoot()] and the defaulted version and type of the other constructor. *)
Variable CProofRoot_default : CProofRoot.
Variable VERSION_CURRENT : Z.
Variable TYPE_PBAAS : Z.

Definition mkProofRoot (sys : uint160) (h : Z) (root bh power : uint256) : CProofRoot :=
  {| pr_version := VERSION_CURRENT; pr_type := TYPE_PBAAS; pr_systemID := sys;
     rootHeight := h; stateRoot := root; blockHash := bh; compactPower := power |}.

(** [CProofRoot::GetProofRoot(uint32_t blockHeight)].  The comparison is
    between a [uint32_t] and an [int], so the height of the chain is
    converted to [uint32_t].  [None] is the dereference of a null block
    pointer. *)
Definition GetProofRoot (chainActive : CChain) (blockHeight : Z) : option CProofRoot :=
  if to_uint32 (Height chainActive) <? blockHeight then Some CProofRoot_default
  else
    let mmv := resize (GetMMV chainActive) blockHeight in
    match block_at chainActive (to_int32 blockHeight) with
    | None => None
    | Some blk =>
        Some (mkProofRoot ASSETCHAINS_CHAINID blockHeight (GetRoot mmv)
                (GetBlockHash blk) (CompactChainPower blk))
    end.

(** A chain that has a genesis block and whose height fits an [int]. *)
Definition chain_ok (c : CChain) : Prop := 0 <= Height c < 2 ^ 31.

Lemma to_uint32_small x : 0 <= x < 2 ^ 32 -> to_uint32 x = x.
Proof. intros H. unfold to_uint32. apply Z.mod_small. exact H. Qed.

Lemma to_int32_small x : 0 <= x < 2 ^ 31 -> to_int32 x = x.
Proof.
  intros H. unfold to_int32.
  rewrite Z.mod_small by lia.
  destruct (Z.ltb_spec x (2 ^ 31)); lia.
Qed.

Lemma block_at_in_range c h :
  0 <= h <= Height c -> exists blk, block_at c h = Some blk.
Proof.
  intros [H0 H1]. unfold block_at, at_index, Height, vsize in *.
  destruct (Z.ltb_spec h 0); [lia|].
  destruct (lookup_lt_is_Some_2 (vChain c) (Z.to_nat h)) as [blk Hb]; [lia|].
  exists blk. exact Hb.
Qed.

(** C8.  On a chain with a genesis block, for every [uint32_t] height [h]:
    above the height of the active chain the result is the empty proof root;
    otherwise it is the proof root at height [h] whose state root is the
    root of the view resized to exactly [h] elements and whose block hash and
    compact power are those of the active chain's block at [h]. *)
Theorem GetProofRoot_spec (c : CChain) (h : Z) :
  chain_ok c ->
  0 <= h < 2 ^ 32 ->
  (Height c < h -> GetProofRoot c h = Some CProofRoot_default)
  ∧ (h <= Height c ->
     exists blk r,
       block_at c h = Some blk
       ∧ GetProofRoot c h = Some r
       ∧ rootHeight r = h
       ∧ pr_systemID r = ASSETCHAINS_CHAINID
       ∧ stateRoot r = GetRoot (resize (GetMMV c) h)
       ∧ view_size (resize (GetMMV c) h) = h
       ∧ blockHash r = GetBlockHash blk
       ∧ compactPower r = CompactChainPower blk).
Proof.
  intros Hc Hh. unfold chain_ok in Hc. unfold GetProofRoot.
  rewrite to_uint32_small by lia.
  split; intros Hcmp.
  - destruct (Z.ltb_spec (Height c) h); [reflexivity | lia].
  - destruct (Z.ltb_spec (Height c) h); [lia|].
    rewrite to_int32_small by lia.
    destruct (block_at_in_range c h) as [blk Hb]; [lia|].
    rewrite Hb. eexists blk, _. repeat split; reflexivity || exact Hb.
Qed.

(** Without a genesis block the height is -1, which the comparison reads as
    the largest [uint32_t]: no height is rejected and the block pointer
    that is dereferenced is null. *)
Remark GetProofRoot_no_genesis (h : Z) :
  0 <= h < 2 ^ 32 -> GetProofRoot {| vChain := [] |} h = None.
Proof.
  intros Hh. unfold GetProofRoot, Height, vsize. cbn [vChain length].
  change (to_uint32 (Z.of_nat 0 - 1)) with (2 ^ 32 - 1).
  destruct (Z.ltb_spec (2 ^ 32 - 1) h); [lia|].
  unfold block_at, at_index. cbn [vChain].
  destruct (to_int32 h <? 0); reflexivity.
Qed.

End GetProofRoot.

Definition three_blocks : CChain :=
  {| vChain := [ {| GetBlockHash := 100; CompactChainPower := 1 |};
                 {| GetBlockHash := 101; CompactChainPower := 2 |};
                 {| GetBlockHash := 102; CompactChainPower := 3 |} ] |}.

Definition empty_root : CProofRoot :=
  {| pr_version := 0; pr_type := 0; pr_systemID := 0; rootHeight := 0;
     stateRoot := 0; blockHash := 0; compactPower := 0 |}.

(** The view of a chain over all of its blocks. *)
Definition whole_view (c : CChain) : MMView CChain :=
  {| view_mmr := c; view_size := vsize (vChain c) |}.

Lemma GetProofRoot_spec_witness :
  chain_ok three_blocks
  ∧ GetProofRoot CChain (fun c sz => sz + 1000) whole_view 9 empty_root 1 1 three_blocks 5
    = Some empty_root
  ∧ exists r, GetProofRoot CChain (fun c sz => sz + 1000) whole_view 9 empty_root 1 1
                three_blocks 1 = Some r
              ∧ stateRoot r = 1001 ∧ blockHash r = 101.
Proof.
  assert (Hc : chain_ok three_blocks) by (unfold chain_ok, Height, vsize; cbn; lia).
  split; [exact Hc|]. split.
  - apply (GetProofRoot_spec CChain (fun c sz => sz + 1000) whole_view 9 empty_root 1 1
             three_blocks 5 Hc); [lia | unfold Height, vsize; cbn; lia].
  - destruct (GetProofRoot_spec CChain (fun c sz => sz + 1000) whole_view 9 empty_root 1 1
                three_blocks 1 Hc) as [_ H]; [lia|].
    destruct H as (blk & r & Hb & Hr & _ & _ & Hs & _ & Hh & _); [unfold Height, vsize; cbn; lia|].
    exists r. split; [exact Hr|].
    split; [rewrite Hs; reflexivity|].
    rewrite Hh. vm_compute in Hb. injection Hb as <-. reflexivity.
Defined.

End ProofRoot.

(** * Notary evidence: [SignConfirmed] and [SignRejected] *)

(** [CIdentitySignature]: the height signed at and the raw signatures, in the
    order the set iterates them. *)
Record CIdentitySignature := {
  sig_version : Z;
  sig_blockHeight : Z;
  sig_signatures : list bytes
}.

Record CNotaryEvidence := {
  ev_version : Z;
  ev_type : Z;
  ev_systemID : uint160;
  ev_output : CUTXORef;
  confirmed : bool;
  signatures : gmap Z CIdentitySignature;
  evidence : list Z
}.

(** [signatures.insert(std::make_pair(id, sig))]: an existing entry is kept. *)
Definition map_insert_new {V} (k : Z) (v : V) (m : gmap Z V) : gmap Z V :=
  match m !! k with
  | Some _ => m
  | None => <[k := v]> m
  end.

Definition add_signature (ev : CNotaryEvidence) (id : Z) (sig : CIdentitySignature)
  : CNotaryEvidence :=
  {| ev_version := ev_version ev;
     ev_type := ev_type ev;
     ev_systemID := ev_systemID ev;
     ev_output := ev_output ev;
     confirmed := confirmed ev;
     signatures := map_insert_new id sig (signatures ev);
     evidence := evidence ev |}.

(** [map.size()]. *)
Definition msize {V} (m : gmap Z V) : Z := Z.of_nat (size m).

Module NotaryEvidence.
Section Signing.

(** The wallet side: the key store, what it knows of an identity, and the
    signing capability of [CIdentitySignature::NewSignature]. *)
Variable CKeyStore : Type.
Variable CIdentityMapKey : Type.
Variable CIdentityMapValue : Type.
(** [keyStore.GetIdentity(id, keyAndIdentity, height)]: the answer and
    [keyAndIdentity] after the call. *)
Variable GetIdentity : CKeyStore -> Z -> Z -> bool * (CIdentityMapKey * CIdentityMapValue).
Variable CanSign : CIdentityMapKey -> bool.
(** [idSignature.NewSignature(identity, vdxfCodes, statements, systemID,
    height, prefix, msgHash, &keyStore)]: the verdict and [idSignature]. *)
Variable NewSignature :
  CIdentityMapValue -> list Z -> list Z -> Z -> Z -> string -> Z -> CKeyStore ->
  ESignatureVerification * CIdentitySignature.
Variable NotaryConfirmedKey : uint160.
Variable NotaryRejectedKey : uint160.
(** The hash writer of [CMMRNode] applied to a byte string. *)
Variable HashBytes : bytes -> uint256.

(** The object both functions sign: [vData[0]] of the referenced output, when
    the transaction is the referenced one and the output is a crypto-condition
    with data and an evaluation code. *)
Definition signable_object (txToConfirm : CTransaction) (out : CUTXORef) : option bytes :=
  if negb (GetHash txToConfirm =? hash out) then None
  else if vsize (vout txToConfirm) <=? n out then None
  else match at_index (vout txToConfirm) (n out) with
       | None => None
       | Some o =>
           let '(isCC, p) := IsPayToCryptoCondition (scriptPubKey o) COptCCParams_default in
           if negb isCC then None
           else match vData p with
                | [] => None
                | d :: _ =>
                    if vsize d =? 0 then None
                    else if bool_decide (evalCode p = EVAL_NONE) then None
                    else Some d
                end
       end.

(** The tail both functions share: sign under a purpose key and record the
    signature unless the verdict is invalid. *)
Definition sign_under (purpose : uint160) (ev : CNotaryEvidence) (keyStore : CKeyStore)
           (txToConfirm : CTransaction) (signWithID : Z) (height : Z)
  : ESignatureVerification * CNotaryEvidence :=
  let '(found, (key, identity)) := GetIdentity keyStore signWithID height in
  if negb found && CanSign key then (SIGNATURE_INVALID, ev)
  else match signable_object txToConfirm (ev_output ev) with
       | None => (SIGNATURE_INVALID, ev)
       | Some d =>
           let objHash := HashBytes d in
           let '(sigResult, idSignature) :=
             NewSignature identity [purpose] [] (ev_systemID ev) height "" objHash keyStore in
           if bool_decide (sigResult = SIGNATURE_INVALID) then (sigResult, ev)
           else (sigResult, add_signature ev signWithID idSignature)
       end.

(** [CNotaryEvidence::SignConfirmed]: the verdict and the evidence object after the call. *)
Definition SignConfirmed (ev : CNotaryEvidence) (keyStore : CKeyStore)
           (txToConfirm : CTransaction) (signWithID : Z) (height : Z)
  : ESignatureVerification * CNotaryEvidence :=
  if negb (msize (signatures ev) =? 0) && negb (confirmed ev) then (SIGNATURE_INVALID, ev)
  else sign_under NotaryConfirmedKey ev keyStore txToConfirm signWithID height.

(** [CNotaryEvidence::SignRejected]. *)
Definition SignRejected (ev : CNotaryEvidence) (keyStore : CKeyStore)
           (txToConfirm : CTransaction) (signWithID : Z) (height : Z)
  : ESignatureVerification * CNotaryEvidence :=
  if negb (msize (signatures ev) =? 0) && confirmed ev then (SIGNATURE_INVALID, ev)
  else sign_under NotaryRejectedKey ev keyStore txToConfirm signWithID height.

(** *** Polarity *)

Lemma sign_under_keeps_polarity purpose ev ks tx id h :
  confirmed (sign_under purpose ev ks tx id h).2 = confirmed ev.
Proof.
  unfold sign_under.
  destruct (GetIdentity ks id h) as [found [key identity]].
  destruct (negb found && CanSign key); [reflexivity|].
  destruct (signable_object tx (ev_output ev)) as [d|]; [|reflexivity].
  destruct (NewSignature identity [purpose] [] (ev_systemID ev) h "" (HashBytes d) ks)
    as [sigResult idSignature].
  destruct (bool_decide (sigResult = SIGNATURE_INVALID)); reflexivity.
Qed.

(** Neither function ever writes the [confirmed] field. *)
Lemma signing_keeps_polarity ev ks tx id h :
  confirmed (SignConfirmed ev ks tx id h).2 = confirmed ev
  ∧ confirmed (SignRejected ev ks tx id h).2 = confirmed ev.
Proof.
  unfold SignConfirmed, SignRejected.
  split.
  - destruct (negb (msize (signatures ev) =? 0) && negb (confirmed ev)); [reflexivity|].
    apply sign_under_keeps_polarity.
  - destruct (negb (msize (signatures ev) =? 0) && confirmed ev); [reflexivity|].
    apply sign_under_keeps_polarity.
Qed.

(** The guard of lines 65 and 114, which reads the [confirmed] field: on
    evidence that holds a signature and whose field says rejecting,
    [SignConfirmed] returns [SIGNATURE_INVALID] and leaves the evidence as it
    was, and so does [SignRejected] when the field says confirming. *)
Theorem polarity_cannot_change (ev : CNotaryEvidence) (ks : CKeyStore)
        (tx : CTransaction) (id h : Z) :
  msize (signatures ev) <> 0 ->
  (confirmed ev = false -> SignConfirmed ev ks tx id h = (SIGNATURE_INVALID, ev))
  ∧ (confirmed ev = true -> SignRejected ev ks tx id h = (SIGNATURE_INVALID, ev)).
Proof.
  intros Hsz. unfold SignConfirmed, SignRejected.
  destruct (Z.eqb_spec (msize (signatures ev)) 0) as [E|_]; [contradiction|].
  split; intros ->; reflexivity.
Qed.

(** The guard reads a field that no signer writes.  Once [SignRejected] has
    run on evidence whose field says confirming, whatever it recorded, the
    guard of [SignConfirmed] lets every later call through to the signing
    itself; and the other way round. *)
Lemma polarity_guard_passes_after_signing ev ks tx a h ks' tx' b h' :
  (confirmed ev = true ->
   SignConfirmed (SignRejected ev ks tx a h).2 ks' tx' b h'
   = sign_under NotaryConfirmedKey (SignRejected ev ks tx a h).2 ks' tx' b h')
  ∧ (confirmed ev = false ->
     SignRejected (SignConfirmed ev ks tx a h).2 ks' tx' b h'
     = sign_under NotaryRejectedKey (SignConfirmed ev ks tx a h).2 ks' tx' b h').
Proof.
  destruct (signing_keeps_polarity ev ks tx a h) as [Hc Hr].
  split; intros Hp.
  - unfold SignConfirmed at 1. rewrite Hr, Hp. cbn [negb]. rewrite andb_false_r. reflexivity.
  - unfold SignRejected at 1. rewrite Hc, Hp. rewrite andb_false_r. reflexivity.
Qed.

(** *** The check of who controls the identity *)

(** What the check at the head of [sign_under] lets through: whenever the key
    the store hands back cannot sign, whether or not the identity was found,
    the function goes on to sign and its verdict is that of [NewSignature]. *)
Lemma sign_under_without_control purpose ev ks tx id h d :
  CanSign (GetIdentity ks id h).2.1 = false ->
  signable_object tx (ev_output ev) = Some d ->
  let r := NewSignature (GetIdentity ks id h).2.2 [purpose] [] (ev_systemID ev) h ""
             (HashBytes d) ks in
  sign_under purpose ev ks tx id h =
    (r.1, if bool_decide (r.1 = SIGNATURE_INVALID) then ev else add_signature ev id r.2).
Proof.
  intros Hcs Hobj r. subst r. unfold sign_under. rewrite Hobj.
  destruct (GetIdentity ks id h) as [found [key identity]]. cbn in Hcs |- *.
  rewrite Hcs, andb_false_r.
  destruct (NewSignature identity [purpose] [] (ev_systemID ev) h "" (HashBytes d) ks)
    as [sigResult idSignature]. cbn.
  destruct (bool_decide (sigResult = SIGNATURE_INVALID)); reflexivity.
Qed.

(** *** What a call can do to the evidence *)

Lemma map_insert_new_subseteq {V} (k : Z) (v : V) (m : gmap Z V) :
  m ⊆ map_insert_new k v m.
Proof.
  unfold map_insert_new. destruct (m !! k) eqn:E; [reflexivity|].
  apply insert_subseteq. exact E.
Qed.

Lemma map_insert_new_delete {V} (k : Z) (v : V) (m : gmap Z V) :
  delete k (map_insert_new k v m) = delete k m.
Proof.
  unfold map_insert_new. destruct (m !! k); [reflexivity|]. apply delete_insert_eq.
Qed.

Lemma map_insert_new_present {V} (k : Z) (v : V) (m : gmap Z V) :
  is_Some (m !! k) -> map_insert_new k v m = m.
Proof. intros [x Hx]. unfold map_insert_new. rewrite Hx. reflexivity. Qed.

(** [ev'] is [ev] with, at most, a signature of [id] added: every other
    field is the same, every signature of [ev] is still there as it was, and
    no key but [id] is new. *)
Definition adds_at_most (id : Z) (ev ev' : CNotaryEvidence) : Prop :=
  ev_version ev' = ev_version ev ∧ ev_type ev' = ev_type ev
  ∧ ev_systemID ev' = ev_systemID ev ∧ ev_output ev' = ev_output ev
  ∧ confirmed ev' = confirmed ev ∧ evidence ev' = evidence ev
  ∧ signatures ev ⊆ signatures ev'
  ∧ delete id (signatures ev') = delete id (signatures ev).

Lemma adds_at_most_refl id ev : adds_at_most id ev ev.
Proof. repeat split; reflexivity. Qed.

Lemma adds_at_most_add_signature id ev sig : adds_at_most id ev (add_signature ev id sig).
Proof.
  unfold adds_at_most, add_signature. cbn.
  repeat split; [apply map_insert_new_subseteq | apply map_insert_new_delete].
Qed.

(** The two ways out of a signing function: the invalid verdict with the
    evidence as it was, or a verdict other than invalid over a signable
    object, with the new signature filed under [id] if [id] had none. *)
Definition signing_outcome (ev : CNotaryEvidence) (tx : CTransaction) (id : Z)
           (r : ESignatureVerification * CNotaryEvidence) : Prop :=
  r = (SIGNATURE_INVALID, ev)
  ∨ exists d sig, signable_object tx (ev_output ev) = Some d
                  ∧ r.1 <> SIGNATURE_INVALID
                  ∧ r.2 = add_signature ev id sig.

Lemma sign_under_outcome purpose ev ks tx id h :
  signing_outcome ev tx id (sign_under purpose ev ks tx id h).
Proof.
  unfold sign_under, signing_outcome.
  destruct (GetIdentity ks id h) as [found [key identity]].
  destruct (negb found && CanSign key); [left; reflexivity|].
  destruct (signable_object tx (ev_output ev)) as [d|]; [|left; reflexivity].
  destruct (NewSignature identity [purpose] [] (ev_systemID ev) h "" (HashBytes d) ks)
    as [sigResult idSignature].
  destruct (bool_decide (sigResult = SIGNATURE_INVALID)) eqn:Ei.
  - apply bool_decide_eq_true in Ei. subst sigResult. left. reflexivity.
  - apply bool_decide_eq_false in Ei. right. exists d, idSignature. auto.
Qed.

Lemma SignConfirmed_outcome ev ks tx id h :
  signing_outcome ev tx id (SignConfirmed ev ks tx id h).
Proof.
  unfold SignConfirmed.
  destruct (negb (msize (signatures ev) =? 0) && negb (confirmed ev));
    [left; reflexivity | apply sign_under_outcome].
Qed.

Lemma SignRejected_outcome ev ks tx id h :
  signing_outcome ev tx id (SignRejected ev ks tx id h).
Proof.
  unfold SignRejected.
  destruct (negb (msize (signatures ev) =? 0) && confirmed ev);
    [left; reflexivity | apply sign_under_outcome].
Qed.

Lemma signing_outcome_adds ev tx id r : signing_outcome ev tx id r -> adds_at_most id ev r.2.
Proof.
  intros [->|(d & sig & _ & _ & ->)];
    [apply adds_at_most_refl | apply adds_at_most_add_signature].
Qed.

(** X1.  Whatever the key store, the transaction and the verdict, the
    evidence after [SignConfirmed] or [SignRejected] is the evidence before
    with at most a signature of the signing identity added: system, output
    reference, polarity and proofs are untouched, every signature that was
    there is still there unchanged, and no other identity gains one. *)
Theorem signing_only_adds_a_signature ev ks tx id h :
  adds_at_most id ev (SignConfirmed ev ks tx id h).2
  ∧ adds_at_most id ev (SignRejected ev ks tx id h).2.
Proof.
  split; apply (signing_outcome_adds ev tx id);
    [apply SignConfirmed_outcome | apply SignRejected_outcome].
Qed.

Lemma signing_outcome_invalid ev tx id r :
  signing_outcome ev tx id r -> r.1 = SIGNATURE_INVALID -> r.2 = ev.
Proof.
  intros [->|(d & sig & _ & Hne & _)] Hv; [reflexivity | contradiction].
Qed.

(** X2.  A call that returns [SIGNATURE_INVALID], for whatever reason,
    leaves the evidence object exactly as it was. *)
Theorem invalid_signing_inserts_nothing ev ks tx id h :
  ((SignConfirmed ev ks tx id h).1 = SIGNATURE_INVALID -> (SignConfirmed ev ks tx id h).2 = ev)
  ∧ ((SignRejected ev ks tx id h).1 = SIGNATURE_INVALID -> (SignRejected ev ks tx id h).2 = ev).
Proof.
  split; apply (signing_outcome_invalid ev tx id);
    [apply SignConfirmed_outcome | apply SignRejected_outcome].
Qed.

Lemma add_signature_present ev id sig :
  is_Some (signatures ev !! id) -> add_signature ev id sig = ev.
Proof.
  intros Hs. unfold add_signature. rewrite (map_insert_new_present _ _ _ Hs).
  destruct ev; reflexivity.
Qed.

Lemma signing_outcome_again ev tx id r :
  signing_outcome ev tx id r -> is_Some (signatures ev !! id) -> r.2 = ev.
Proof.
  intros [->|(d & sig & _ & _ & ->)] Hs; [reflexivity | apply add_signature_present; exact Hs].
Qed.

(** X3.  Signing with an identity whose signature the evidence already
    holds never replaces that signature: the evidence comes back as it was,
    also when the verdict of the new signature is partial or complete. *)
Theorem signing_twice_keeps_first_signature ev ks tx id h :
  is_Some (signatures ev !! id) ->
  (SignConfirmed ev ks tx id h).2 = ev ∧ (SignRejected ev ks tx id h).2 = ev.
Proof.
  intros Hs. split; apply (signing_outcome_again ev tx id); try exact Hs;
    [apply SignConfirmed_outcome | apply SignRejected_outcome].
Qed.

(** The condition of lines 80-85 and 129-134 on the object to sign. *)
Definition not_signable (tx : CTransaction) (out : CUTXORef) : Prop :=
  GetHash tx <> hash out
  ∨ vsize (vout tx) <= n out
  ∨ exists o, at_index (vout tx) (n out) = Some o
              ∧ (scriptPubKey o = ScriptPlain
                 ∨ exists q, scriptPubKey o = ScriptCC q
                             ∧ (vData q = [] ∨ hd [] (vData q) = [] ∨ evalCode q = EVAL_NONE)).

Lemma not_signable_object tx out : not_signable tx out -> signable_object tx out = None.
Proof.
  unfold signable_object.
  intros [Hh|[Hn|(o & Ho & Hs)]].
  - destruct (Z.eqb_spec (GetHash tx) (hash out)); [contradiction | reflexivity].
  - destruct (negb (GetHash tx =? hash out)); [reflexivity|].
    destruct (Z.leb_spec (vsize (vout tx)) (n out)); [reflexivity | lia].
  - destruct (negb (GetHash tx =? hash out)); [reflexivity|].
    destruct (vsize (vout tx) <=? n out); [reflexivity|].
    rewrite Ho. destruct Hs as [->|(q & -> & Hq)]; [reflexivity|]. cbn.
    destruct Hq as [->|[Hd| ->]]; [reflexivity| |].
    + destruct (vData q) as [|d rest]; [reflexivity|]. cbn in Hd. subst d. reflexivity.
    + destruct (vData q) as [|d rest]; [reflexivity|].
      destruct (vsize d =? 0); reflexivity.
Qed.

Lemma signing_outcome_no_object ev tx id r :
  signing_outcome ev tx id r -> signable_object tx (ev_output ev) = None ->
  r = (SIGNATURE_INVALID, ev).
Proof.
  intros [->|(d & sig & Hd & _)] Hn; [reflexivity | congruence].
Qed.

(** X4.  When the transaction handed in is not the one the evidence refers
    to, or the referenced output does not exist, is no crypto-condition,
    carries no data or empty data, or has evaluation code [EVAL_NONE], both
    functions return [SIGNATURE_INVALID] and insert nothing, whatever the key
    store holds. *)
Theorem signing_needs_the_referenced_object ev ks tx id h :
  not_signable tx (ev_output ev) ->
  SignConfirmed ev ks tx id h = (SIGNATURE_INVALID, ev)
  ∧ SignRejected ev ks tx id h = (SIGNATURE_INVALID, ev).
Proof.
  intros Hn. apply not_signable_object in Hn.
  split; apply (signing_outcome_no_object ev tx id); try exact Hn;
    [apply SignConfirmed_outcome | apply SignRejected_outcome].
Qed.

(** *** An identity the key store does not control *)





End Signing.

(** A wallet that is a list of the identities it holds, each with whether it
    can sign for it; its map key is that bit and its map value the
    identity's number.  A failed lookup leaves the default key and value. *)
Definition wallet_GetIdentity (ks : list (Z * bool)) (id h : Z) : bool * (bool * Z) :=
  match list_find (fun e : Z * bool => e.1 = id) ks with
  | Some (_, (_, canSign)) => (true, (canSign, id))
  | None => (false, (false, 0))
  end.

Definition wallet_CanSign (key : bool) : bool := key.

Definition one_signature : CIdentitySignature :=
  {| sig_version := 1; sig_blockHeight := 100; sig_signatures := [[1; 2; 3]] |}.

(** A signing capability that signs for the identities the wallet can sign for. *)
Definition wallet_NewSignature (identity : Z) (vdxfCodes statements : list Z)
           (systemID height : Z) (prefix : string) (msgHash : Z) (ks : list (Z * bool))
  : ESignatureVerification * CIdentitySignature :=
  if bool_decide ((identity, true) ∈ ks) then (SIGNATURE_COMPLETE, one_signature)
  else (SIGNATURE_INVALID, one_signature).

(** The transaction whose output 0 carries an earned notarization. *)
Definition target_tx : CTransaction :=
  {| GetHash := 7;
     vout := [ {| scriptPubKey :=
                    ScriptCC {| ccValid := true; ccVersion := 3;
                                evalCode := EVAL_EARNEDNOTARIZATION; vData := [[5; 6]] |};
                  nValue := 0 |} ] |}.

Definition fresh_evidence (polarity : bool) : CNotaryEvidence :=
  {| ev_version := 1; ev_type := 1; ev_systemID := 9;
     ev_output := {| hash := 7; n := 0 |};
     confirmed := polarity; signatures := ∅; evidence := [] |}.

Definition signed_evidence (polarity : bool) : CNotaryEvidence :=
  add_signature (fresh_evidence polarity) 42 one_signature.

Lemma polarity_cannot_change_witness :
  msize (signatures (signed_evidence false)) <> 0
  ∧ SignConfirmed (list (Z * bool)) bool Z wallet_GetIdentity wallet_CanSign
      wallet_NewSignature 1 (fun d => 0) (signed_evidence false) [(43, true)] target_tx 43 100
    = (SIGNATURE_INVALID, signed_evidence false)
  ∧ msize (signatures (signed_evidence true)) <> 0
  ∧ SignRejected (list (Z * bool)) bool Z wallet_GetIdentity wallet_CanSign
      wallet_NewSignature 2 (fun d => 0) (signed_evidence true) [(43, true)] target_tx 43 100
    = (SIGNATURE_INVALID, signed_evidence true).
Proof.
  assert (H1 : msize (signatures (signed_evidence false)) <> 0) by (vm_compute; discriminate).
  assert (H2 : msize (signatures (signed_evidence true)) <> 0) by (vm_compute; discriminate).
  split; [exact H1|]. split.
  - apply (polarity_cannot_change (list (Z * bool)) bool Z wallet_GetIdentity wallet_CanSign
             wallet_NewSignature 1 2 (fun d => 0) (signed_evidence false) [(43, true)]
             target_tx 43 100 H1).
    reflexivity.
  - split; [exact H2|].
    apply (polarity_cannot_change (list (Z * bool)) bool Z wallet_GetIdentity wallet_CanSign
             wallet_NewSignature 1 2 (fun d => 0) (signed_evidence true) [(43, true)]
             target_tx 43 100 H2).
    reflexivity.
Defined.

(** Signing on a fresh object with the other polarity goes through: the
    rejection above is the polarity check and nothing else. *)
Example sign_fresh_evidence :
  SignConfirmed (list (Z * bool)) bool Z wallet_GetIdentity wallet_CanSign
    wallet_NewSignature 1 (fun d => 0) (fresh_evidence false) [(43, true)] target_tx 43 100
  = (SIGNATURE_COMPLETE, add_signature (fresh_evidence false) 43 one_signature).
Proof. vm_compute. reflexivity. Qed.

(** What a call returns once it is past the control check: the verdict [r]
    of [NewSignature], and the evidence with its signature unless the
    verdict is invalid. *)
Definition signed_with (r : ESignatureVerification * CIdentitySignature)
           (ev : CNotaryEvidence) (id : Z) : ESignatureVerification * CNotaryEvidence :=
  (r.1, if bool_decide (r.1 = SIGNATURE_INVALID) then ev else add_signature ev id r.2).

(** The check of lines 72 and 121 on its own.  The first wallet holds no
    identity, so
    [GetIdentity] fails for identity 42 and leaves a key that cannot sign;
    the second holds identity 42 without being able to sign for it.  In
    neither case does [SignConfirmed] or [SignRejected] return at the control
    check: each goes on to [NewSignature], whatever that capability is,
    returns its verdict, and records its signature when the verdict is not
    invalid. *)
Theorem signing_without_control_reaches_NewSignature
        (NewSignature : Z -> list Z -> list Z -> Z -> Z -> string -> Z -> list (Z * bool) ->
                        ESignatureVerification * CIdentitySignature)
        (confirmedKey rejectedKey : Z) (HashBytes : list Z -> Z) :
  let Confirm := SignConfirmed (list (Z * bool)) bool Z wallet_GetIdentity wallet_CanSign
                   NewSignature confirmedKey HashBytes in
  let Reject := SignRejected (list (Z * bool)) bool Z wallet_GetIdentity wallet_CanSign
                  NewSignature rejectedKey HashBytes in
  let sign := fun identity key ks => NewSignature identity [key] [] 9 100 "" (HashBytes [5; 6]) ks in
  (wallet_GetIdentity [] 42 100 = (false, (false, 0))
   ∧ Confirm (fresh_evidence true) [] target_tx 42 100
     = signed_with (sign 0 confirmedKey []) (fresh_evidence true) 42
   ∧ Reject (fresh_evidence false) [] target_tx 42 100
     = signed_with (sign 0 rejectedKey []) (fresh_evidence false) 42)
  ∧ (wallet_GetIdentity [(42, false)] 42 100 = (true, (false, 42))
     ∧ Confirm (fresh_evidence true) [(42, false)] target_tx 42 100
       = signed_with (sign 42 confirmedKey [(42, false)]) (fresh_evidence true) 42
     ∧ Reject (fresh_evidence false) [(42, false)] target_tx 42 100
       = signed_with (sign 42 rejectedKey [(42, false)]) (fresh_evidence false) 42).
Proof.
  intros Confirm Reject sign. subst Confirm Reject sign.
  unfold SignConfirmed, SignRejected, signed_with.
  replace (msize (signatures (fresh_evidence true)) =? 0) with true by reflexivity.
  replace (msize (signatures (fresh_evidence false)) =? 0) with true by reflexivity.
  cbn [negb andb].
  repeat split;
    lazymatch goal with
    | |- sign_under _ _ _ _ _ _ _ ?key ?ev ?ks _ _ _ = _ =>
        apply (sign_under_without_control (list (Z * bool)) bool Z wallet_GetIdentity
                 wallet_CanSign NewSignature HashBytes key ev ks target_tx 42 100 [5; 6]);
        reflexivity
    end.
Qed.

(** With a signing capability that does not itself look at who controls the
    identity, the signature of the identity the wallet does not hold is
    accepted and recorded. *)
Example signing_without_control_accepted :
  SignConfirmed (list (Z * bool)) bool Z wallet_GetIdentity wallet_CanSign
    (fun _ _ _ _ _ _ _ _ => (SIGNATURE_COMPLETE, one_signature)) 1 (fun d => 0)
    (fresh_evidence true) [] target_tx 42 100
  = (SIGNATURE_COMPLETE, add_signature (fresh_evidence true) 42 one_signature).
Proof. vm_compute. reflexivity. Qed.

(** The check as it was meant, for comparison: a wallet that can sign for
    the identity signs, and the verdict for one that cannot is invalid when
    the signing capability refuses, which is the only place left to refuse. *)
Example signing_refused_by_NewSignature :
  SignConfirmed (list (Z * bool)) bool Z wallet_GetIdentity wallet_CanSign
    wallet_NewSignature 1 (fun d => 0) (fresh_evidence true) [(42, false)] target_tx 42 100
  = (SIGNATURE_INVALID, fresh_evidence true).
Proof. vm_compute. reflexivity. Qed.

(** A signing capability whose signatures are made at height 200, so that
    they differ from [one_signature]. *)
Definition later_signature : CIdentitySignature :=
  {| sig_version := 1; sig_blockHeight := 200; sig_signatures := [[7; 8; 9]] |}.

Definition later_NewSignature (identity : Z) (vdxfCodes statements : list Z)
           (systemID height : Z) (prefix : string) (msgHash : Z) (ks : list (Z * bool))
  : ESignatureVerification * CIdentitySignature :=
  (SIGNATURE_COMPLETE, later_signature).

(** Transaction 9 with the outputs of [target_tx]: not the transaction the
    evidence refers to. *)
Definition other_tx : CTransaction := {| GetHash := 9; vout := vout target_tx |}.

Lemma invalid_signing_inserts_nothing_witness :
  (SignConfirmed (list (Z * bool)) bool Z wallet_GetIdentity wallet_CanSign
     wallet_NewSignature 1 (fun d => 0) (fresh_evidence true) [(42, false)] target_tx 42 100).1
  = SIGNATURE_INVALID
  ∧ (SignConfirmed (list (Z * bool)) bool Z wallet_GetIdentity wallet_CanSign
       wallet_NewSignature 1 (fun d => 0) (fresh_evidence true) [(42, false)] target_tx 42 100).2
    = fresh_evidence true.
Proof.
  assert (H : (SignConfirmed (list (Z * bool)) bool Z wallet_GetIdentity wallet_CanSign
                 wallet_NewSignature 1 (fun d => 0) (fresh_evidence true) [(42, false)]
                 target_tx 42 100).1 = SIGNATURE_INVALID) by (vm_compute; reflexivity).
  split; [exact H|].
  exact (proj1 (invalid_signing_inserts_nothing (list (Z * bool)) bool Z wallet_GetIdentity
                  wallet_CanSign wallet_NewSignature 1 2 (fun d => 0) (fresh_evidence true)
                  [(42, false)] target_tx 42 100) H).
Defined.

Lemma signing_twice_keeps_first_signature_witness :
  is_Some (signatures (signed_evidence true) !! 42)
  ∧ (SignConfirmed (list (Z * bool)) bool Z wallet_GetIdentity wallet_CanSign
       later_NewSignature 1 (fun d => 0) (signed_evidence true) [(42, true)] target_tx 42 100).1
    = SIGNATURE_COMPLETE
  ∧ (SignConfirmed (list (Z * bool)) bool Z wallet_GetIdentity wallet_CanSign
       later_NewSignature 1 (fun d => 0) (signed_evidence true) [(42, true)] target_tx 42 100).2
    = signed_evidence true.
Proof.
  assert (H : is_Some (signatures (signed_evidence true) !! 42))
    by (exists one_signature; reflexivity).
  split; [exact H|]. split; [vm_compute; reflexivity|].
  exact (proj1 (signing_twice_keeps_first_signature (list (Z * bool)) bool Z wallet_GetIdentity
                  wallet_CanSign later_NewSignature 1 2 (fun d => 0) (signed_evidence true)
                  [(42, true)] target_tx 42 100 H)).
Defined.

Lemma signing_needs_the_referenced_object_witness :
  not_signable other_tx (ev_output (fresh_evidence true))
  ∧ SignConfirmed (list (Z * bool)) bool Z wallet_GetIdentity wallet_CanSign
      wallet_NewSignature 1 (fun d => 0) (fresh_evidence true) [(42, true)] other_tx 42 100
    = (SIGNATURE_INVALID, fresh_evidence true).
Proof.
  assert (H : not_signable other_tx (ev_output (fresh_evidence true)))
    by (left; cbn; discriminate).
  split; [exact H|].
  exact (proj1 (signing_needs_the_referenced_object (list (Z * bool)) bool Z wallet_GetIdentity
                  wallet_CanSign wallet_NewSignature 1 2 (fun d => 0) (fresh_evidence true)
                  [(42, true)] other_tx 42 100 H)).
Defined.


(** A signing capability that signs for the identities the wallet can sign
    for and writes the purpose key it was given into the signature, so that
    a signature shows whether it confirms (key 1) or rejects (key 2). *)
Definition purpose_NewSignature (identity : Z) (vdxfCodes statements : list Z)
           (systemID height : Z) (prefix : string) (msgHash : Z) (ks : list (Z * bool))
  : ESignatureVerification * CIdentitySignature :=
  if bool_decide ((identity, true) ∈ ks)
  then (SIGNATURE_COMPLETE,
        {| sig_version := 1; sig_blockHeight := height; sig_signatures := [vdxfCodes] |})
  else (SIGNATURE_INVALID, one_signature).

Definition signature_under (purpose : Z) : CIdentitySignature :=
  {| sig_version := 1; sig_blockHeight := 100; sig_signatures := [[purpose]] |}.

(** C3, what the code does.  A wallet controls the notaries 42 and 43.  On
    evidence without signatures whose [confirmed] field is true,
    [SignRejected] by 42 is accepted and records a rejecting signature; the
    field stays true, so [SignConfirmed] by 43 on that evidence is accepted
    too, and the evidence then holds a rejecting and a confirming signature.
    On evidence whose field is false the same happens in the other order. *)
Theorem both_polarities_are_recorded :
  let Confirm := SignConfirmed (list (Z * bool)) bool Z wallet_GetIdentity wallet_CanSign
                   purpose_NewSignature 1 (fun d => 0) in
  let Reject := SignRejected (list (Z * bool)) bool Z wallet_GetIdentity wallet_CanSign
                  purpose_NewSignature 2 (fun d => 0) in
  let wallet := [(42, true); (43, true)] in
  let rejected := add_signature (fresh_evidence true) 42 (signature_under 2) in
  let confirming := add_signature (fresh_evidence false) 42 (signature_under 1) in
  (Reject (fresh_evidence true) wallet target_tx 42 100 = (SIGNATURE_COMPLETE, rejected)
   ∧ Confirm rejected wallet target_tx 43 100
     = (SIGNATURE_COMPLETE, add_signature rejected 43 (signature_under 1)))
  ∧ (Confirm (fresh_evidence false) wallet target_tx 42 100 = (SIGNATURE_COMPLETE, confirming)
     ∧ Reject confirming wallet target_tx 43 100
       = (SIGNATURE_COMPLETE, add_signature confirming 43 (signature_under 2)))
  ∧ msize (signatures rejected) <> 0
  ∧ msize (signatures confirming) <> 0.
Proof.
  cbv zeta. split; [split; vm_compute; reflexivity|].
  split; [split; vm_compute; reflexivity|].
  split; vm_compute; discriminate.
Qed.

End NotaryEvidence.

(** * Identities, currencies and the verification of notary signatures *)

(** The address kinds of [COptCCParams] that a [CTxDestination] can hold. *)
Inductive AddrType :=
| ADDRTYPE_INVALID
| ADDRTYPE_PK
| ADDRTYPE_PKH
| ADDRTYPE_SH
| ADDRTYPE_ID
| ADDRTYPE_INDEX
| ADDRTYPE_QUANTUM.

#[global] Instance AddrType_eq_dec : EqDecision AddrType.
Proof. solve_decision. Defined.

(** A destination: the alternative it holds and its 160-bit identifier. *)
Record CTxDestination := {
  which : AddrType;
  GetDestinationID : uint160
}.

(** [CIdentity]: [idValid] is [IsValid()], [idValidUnrevoked] is [IsValidUnrevoked()]. *)
Record CIdentity := {
  idValid : bool;
  idValidUnrevoked : bool;
  idName : string;
  primaryAddresses : list CTxDestination;
  minSigs : Z
}.

(** [CCurrencyDefinition], the fields notarization.cpp reads. *)
Record CCurrencyDefinition := {
  cdValid : bool;
  GetID : uint160;
  cdName : string;
  systemID : uint160;
  launchSystemID : uint160;
  startBlock : Z;
  notarizationProtocol : Z;
  notaries : list Z;
  minNotariesConfirm : Z;
  currencies : list Z;
  minPreconvert : list Z;
  maxPreconvert : list Z;
  contributions : list Z;
  IsFractional : bool
}.

(** Conversion of a signed integer to [size_t] where it meets a [size()]. *)
Definition to_size_t (x : Z) : Z := x mod 2 ^ 64.

(** [set.size()]. *)
Definition ssize (s : gset Z) : Z := Z.of_nat (size s).

(** * A small world to run the functions in

    Currency 5 has three notaries, 10, 11 and 12, and confirms with two of
    them.  Each notary identity is valid, has one pay-to-public-key-hash
    primary address (110, 111, 112) and needs one signature.  A raw
    signature is one byte string whose first byte names the address it
    recovers to.  Currency 6 has the single notary 20, an identity without
    any primary address. *)

Module Scenario.

Definition notary_identity (addr : Z) : CIdentity :=
  {| idValid := true; idValidUnrevoked := true; idName := "notary";
     primaryAddresses := [ {| which := ADDRTYPE_PKH; GetDestinationID := addr |} ];
     minSigs := 1 |}.

Definition no_identity : CIdentity :=
  {| idValid := false; idValidUnrevoked := false; idName := "";
     primaryAddresses := []; minSigs := 0 |}.

(** Identity 20 is valid, has no primary address and needs no signature. *)
Definition bare_identity : CIdentity :=
  {| idValid := true; idValidUnrevoked := true; idName := "bare";
     primaryAddresses := []; minSigs := 0 |}.

Definition LookupIdentity (id height : Z) : CIdentity :=
  if id =? 20 then bare_identity
  else if bool_decide (id ∈ [10; 11; 12]) then notary_identity (id + 100)
  else no_identity.

Definition currency5 : CCurrencyDefinition :=
  {| cdValid := true; GetID := 5; cdName := "five"; systemID := 5; launchSystemID := 1;
     startBlock := 50; notarizationProtocol := 1;
     notaries := [10; 11; 12]; minNotariesConfirm := 2;
     currencies := []; minPreconvert := []; maxPreconvert := []; contributions := [];
     IsFractional := false |}.

Definition no_currency : CCurrencyDefinition :=
  {| cdValid := false; GetID := 0; cdName := ""; systemID := 0; launchSystemID := 0;
     startBlock := 0; notarizationProtocol := 0;
     notaries := []; minNotariesConfirm := 0;
     currencies := []; minPreconvert := []; maxPreconvert := []; contributions := [];
     IsFractional := false |}.

(** Currency 6 confirms with one of the notaries it is given. *)
Definition currency6 (notaryList : list Z) : CCurrencyDefinition :=
  {| cdValid := true; GetID := 6; cdName := "six"; systemID := 6; launchSystemID := 1;
     startBlock := 50; notarizationProtocol := 1;
     notaries := notaryList; minNotariesConfirm := 1;
     currencies := []; minPreconvert := []; maxPreconvert := []; contributions := [];
     IsFractional := false |}.

Definition GetCurrencyDefinition (id : Z) : bool * CCurrencyDefinition :=
  if id =? 5 then (true, currency5)
  else if id =? 6 then (true, currency6 [20])
  else (false, no_currency).

Definition GetConditionID (currency key txid outNum : Z) : Z :=
  currency + key + txid + outNum.

Definition HashBytes (bs : list Z) : Z := foldr Z.add 1 bs.

Definition IdentitySignatureHash (sig : CIdentitySignature) (vdxfCodes statements : list Z)
           (system height id : Z) (prefix : string) (msgHash : Z) : Z :=
  foldr Z.add (system + id + msgHash) vdxfCodes.

Definition RecoverID (sigHash : Z) (sig : list Z) : Z := hd 0 sig.

(** The signature of the notary whose address is [addr]. *)
Definition signature_of (addr : Z) : CIdentitySignature :=
  {| sig_version := 1; sig_blockHeight := 100; sig_signatures := [[addr; 1; 2]] |}.

(** Evidence for output 0 of transaction 7, signed by notaries 10 and 11. *)
Definition two_of_three : CNotaryEvidence :=
  {| ev_version := 1; ev_type := 1; ev_systemID := 5;
     ev_output := {| hash := 7; n := 0 |};
     confirmed := true;
     signatures := <[10 := signature_of 110]> (<[11 := signature_of 111]> ∅);
     evidence := [] |}.

Definition notarization_params : COptCCParams :=
  {| ccValid := true; ccVersion := 3; evalCode := EVAL_EARNEDNOTARIZATION; vData := [[5; 6]] |}.

Definition notarization_tx : CTransaction :=
  {| GetHash := 7; vout := [ {| scriptPubKey := ScriptCC notarization_params; nValue := 0 |} ] |}.

Definition pending_finalization : CObjectFinalization :=
  {| of_version := 1; finalizationType := 1; of_confirmed := false; of_currencyID := 5;
     output := {| hash := 7; n := 0 |}; evidenceInputs := []; evidenceOutputs := [];
     minFinalizationHeight := 115 |}.

End Scenario.

Module Finalization.
Section Verify.

Variable VERSION_V3 : Z.
(** [GetCurrencyDefinition(id, curDef, &defHeight)]: the answer and [curDef]. *)
Variable GetCurrencyDefinition : Z -> bool * CCurrencyDefinition.
(** [CCrossChainRPCData::GetConditionID(currencyID, key, txid, n)]. *)
Variable GetConditionID : Z -> Z -> Z -> Z -> Z.
Variable NotarySignatureKey : uint160.
Variable HashBytes : bytes -> uint256.
(** [sig.IdentitySignatureHash(vdxfCodes, statements, systemID, height, id, prefix, msgHash)]. *)
Variable IdentitySignatureHash :
  CIdentitySignature -> list Z -> list Z -> Z -> Z -> Z -> string -> Z -> Z.
(** [CIdentity::LookupIdentity(id, height)]. *)
Variable LookupIdentity : Z -> Z -> CIdentity.
(** [pubKey.RecoverCompact(sigHash, sig)] followed by [pubKey.GetID()]. *)
Variable RecoverID : Z -> bytes -> Z.

(** The loop over [signer.primaryAddresses]; [None] is the early return. *)
Fixpoint collect_addresses (addrs : list CTxDestination) (idAddresses : gset Z)
  : option (gset Z) :=
  match addrs with
  | [] => Some idAddresses
  | oneAddress :: rest =>
      if negb (bool_decide (which oneAddress = ADDRTYPE_PK))
         || negb (bool_decide (which oneAddress = ADDRTYPE_PKH))
      then None
      else collect_addresses rest ({[GetDestinationID oneAddress]} ∪ idAddresses)
  end.

(** The loop over one identity's raw signatures; [None] is the early return. *)
Fixpoint recover_signatures (sigHash : Z) (sigs : list bytes)
         (idAddresses verifiedSignatures : gset Z) : option (gset Z) :=
  match sigs with
  | [] => Some verifiedSignatures
  | oneSig :: rest =>
      let id := RecoverID sigHash oneSig in
      if bool_decide (id ∈ idAddresses)
      then recover_signatures sigHash rest idAddresses ({[id]} ∪ verifiedSignatures)
      else None
  end.

(** The body of the loop over [curDef.notaries] for one notary. *)
Definition check_notary (fin : CObjectFinalization) (vdxfCodes : list Z) (msgHash : Z)
           (sigs : gmap Z CIdentitySignature) (height : Z) (authorizedNotary : Z)
           (completed partial : gset Z) : option (gset Z * gset Z) :=
  match sigs !! authorizedNotary with
  | None => Some (completed, partial)
  | Some oneIDSig =>
      let sigHash := IdentitySignatureHash oneIDSig vdxfCodes [] (of_currencyID fin) height
                       authorizedNotary "" msgHash in
      let signer := LookupIdentity authorizedNotary height in
      if idValid signer then
        match collect_addresses (primaryAddresses signer) ∅ with
        | None => None
        | Some idAddresses =>
            match recover_signatures sigHash (sig_signatures oneIDSig) idAddresses ∅ with
            | None => None
            | Some verifiedSignatures =>
                if to_size_t (minSigs signer) <=? ssize verifiedSignatures
                then Some ({[authorizedNotary]} ∪ completed, partial)
                else Some (completed, {[authorizedNotary]} ∪ partial)
            end
        end
      else None
  end.

Fixpoint notary_loop (fin : CObjectFinalization) (vdxfCodes : list Z) (msgHash : Z)
         (sigs : gmap Z CIdentitySignature) (height : Z) (notaryList : list Z)
         (completed partial : gset Z) : option (gset Z * gset Z) :=
  match notaryList with
  | [] => Some (completed, partial)
  | authorizedNotary :: rest =>
      match check_notary fin vdxfCodes msgHash sigs height authorizedNotary completed partial with
      | None => None
      | Some (completed', partial') =>
          notary_loop fin vdxfCodes msgHash sigs height rest completed' partial'
      end
  end.

(** [CObjectFinalization::VerifyOutputSignature(initialTx, signature, p, height)]. *)
Definition VerifyOutputSignature (fin : CObjectFinalization) (initialTx : CTransaction)
           (signature : CNotaryEvidence) (p : COptCCParams) (height : Z)
  : ESignatureVerification :=
  let '(haveDef, curDef) := GetCurrencyDefinition (of_currencyID fin) in
  if ccValid p && (VERSION_V3 <=? ccVersion p) && negb (vsize (vData p) =? 0)
     && haveDef && cdValid curDef
  then
    let txId := if IsNull (hash (output fin)) then GetHash initialTx else hash (output fin) in
    let vdxfCodes :=
      [GetConditionID (of_currencyID fin) NotarySignatureKey txId (n (output fin))] in
    let msgHash := HashBytes (hd [] (vData p)) in
    match notary_loop fin vdxfCodes msgHash (signatures signature) height (notaries curDef) ∅ ∅ with
    | None => SIGNATURE_INVALID
    | Some (completedSignatures, partialSignatures) =>
        if ssize partialSignatures + ssize completedSignatures <? msize (signatures signature)
        then SIGNATURE_INVALID
        else if to_size_t (minNotariesConfirm curDef) <=? ssize completedSignatures
        then SIGNATURE_COMPLETE
        else if negb (ssize completedSignatures =? 0) || negb (ssize partialSignatures =? 0)
        then SIGNATURE_PARTIAL
        else SIGNATURE_INVALID
    end
  else SIGNATURE_INVALID.

(** *** What the specification asks of the verdict *)

(** The identifiers of an identity's primary addresses. *)
Definition primary_ids (signer : CIdentity) : gset Z :=
  list_to_set (GetDestinationID <$> primaryAddresses signer).

(** As the specification words it: an identity's contribution is complete
    when every signature recovers to one of its primary addresses and the
    distinct recovered addresses number at least its own [minSigs]. *)
Definition spec_identity_complete (fin : CObjectFinalization) (vdxfCodes : list Z)
           (msgHash height : Z) (sigs : gmap Z CIdentitySignature) (notary : Z) : bool :=
  match sigs !! notary with
  | None => false
  | Some oneIDSig =>
      let signer := LookupIdentity notary height in
      let sigHash := IdentitySignatureHash oneIDSig vdxfCodes [] (of_currencyID fin) height
                       notary "" msgHash in
      let recovered : gset Z := list_to_set (RecoverID sigHash <$> sig_signatures oneIDSig) in
      idValid signer
      && bool_decide (recovered ⊆ primary_ids signer)
      && (minSigs signer <=? ssize recovered)
  end.

(** As the specification words it: how many distinct authorized notaries are complete. *)
Definition spec_complete_count (fin : CObjectFinalization) (initialTx : CTransaction)
           (signature : CNotaryEvidence) (p : COptCCParams) (height : Z) : Z :=
  let curDef := (GetCurrencyDefinition (of_currencyID fin)).2 in
  let txId := if IsNull (hash (output fin)) then GetHash initialTx else hash (output fin) in
  let vdxfCodes :=
    [GetConditionID (of_currencyID fin) NotarySignatureKey txId (n (output fin))] in
  let msgHash := HashBytes (hd [] (vData p)) in
  ssize (list_to_set
           (List.filter (spec_identity_complete fin vdxfCodes msgHash height (signatures signature))
                        (notaries curDef))).

(** *** The address-kind test *)

(** No destination passes the test of the address loop: its kind would have to
    be both [ADDRTYPE_PK] and [ADDRTYPE_PKH]. *)
Lemma collect_addresses_rejects addrs idAddresses :
  addrs <> [] -> collect_addresses addrs idAddresses = None.
Proof.
  destruct addrs as [|a rest]; [congruence|]. intros _. cbn [collect_addresses].
  destruct (which a); reflexivity.
Qed.

Lemma check_notary_addressed fin vdxfCodes msgHash sigs height notary completed partial :
  is_Some (sigs !! notary) ->
  primaryAddresses (LookupIdentity notary height) <> [] ->
  check_notary fin vdxfCodes msgHash sigs height notary completed partial = None.
Proof.
  intros [s Hs] Haddr. unfold check_notary. rewrite Hs.
  destruct (idValid (LookupIdentity notary height)); [|reflexivity].
  rewrite collect_addresses_rejects by exact Haddr. reflexivity.
Qed.

Lemma notary_loop_addressed fin vdxfCodes msgHash sigs height notaryList completed partial notary :
  notary ∈ notaryList ->
  is_Some (sigs !! notary) ->
  primaryAddresses (LookupIdentity notary height) <> [] ->
  notary_loop fin vdxfCodes msgHash sigs height notaryList completed partial = None.
Proof.
  intros Hin Hs Haddr. revert completed partial.
  induction notaryList as [|x rest IH]; intros completed partial.
  - apply elem_of_nil in Hin. contradiction.
  - cbn [notary_loop]. apply elem_of_cons in Hin as [<-|Hin].
    + rewrite check_notary_addressed by assumption. reflexivity.
    + destruct (check_notary fin vdxfCodes msgHash sigs height x completed partial)
        as [[c' p']|]; [|reflexivity].
      apply IH. exact Hin.
Qed.

(** Whatever else holds, a signature set from an authorized notary whose
    identity has a primary address makes the verdict [SIGNATURE_INVALID]. *)
Lemma VerifyOutputSignature_addressed_signer fin initialTx signature p height notary :
  notary ∈ notaries (GetCurrencyDefinition (of_currencyID fin)).2 ->
  is_Some (signatures signature !! notary) ->
  primaryAddresses (LookupIdentity notary height) <> [] ->
  VerifyOutputSignature fin initialTx signature p height = SIGNATURE_INVALID.
Proof.
  intros Hin Hs Haddr. unfold VerifyOutputSignature.
  destruct (GetCurrencyDefinition (of_currencyID fin)) as [haveDef curDef]. cbn [snd] in Hin.
  destruct (ccValid p && (VERSION_V3 <=? ccVersion p) && negb (vsize (vData p) =? 0)
            && haveDef && cdValid curDef); [|reflexivity].
  rewrite (notary_loop_addressed _ _ _ _ _ _ _ _ notary) by assumption.
  reflexivity.
Qed.

(** *** Strangers and raw signatures *)

(** Whether the loop files a notary under the completed signatures. *)
Definition completes (fin : CObjectFinalization) (vdxfCodes : list Z) (msgHash : Z)
           (sigs : gmap Z CIdentitySignature) (height : Z) (y : Z) : bool :=
  match check_notary fin vdxfCodes msgHash sigs height y ∅ ∅ with
  | Some (c, _) => bool_decide (y ∈ c)
  | None => false
  end.

Lemma check_notary_cases fin vdxfCodes msgHash sigs height y c p c' p' :
  check_notary fin vdxfCodes msgHash sigs height y c p = Some (c', p') ->
  (sigs !! y = None ∧ c' = c ∧ p' = p)
  ∨ (is_Some (sigs !! y) ∧ completes fin vdxfCodes msgHash sigs height y = true
     ∧ c' = {[y]} ∪ c ∧ p' = p)
  ∨ (is_Some (sigs !! y) ∧ completes fin vdxfCodes msgHash sigs height y = false
     ∧ c' = c ∧ p' = {[y]} ∪ p).
Proof.
  unfold completes, check_notary.
  destruct (sigs !! y) as [s|] eqn:Es; [|intros [= <- <-]; left; auto].
  destruct (idValid (LookupIdentity y height)); [|discriminate].
  destruct (collect_addresses (primaryAddresses (LookupIdentity y height)) ∅) as [idA|];
    [|discriminate].
  destruct (recover_signatures _ (sig_signatures s) idA ∅) as [ver|]; [|discriminate].
  destruct (to_size_t (minSigs (LookupIdentity y height)) <=? ssize ver).
  - intros [= <- <-]. right. left. split; [eauto|]. split; [|split; reflexivity].
    apply bool_decide_eq_true. set_solver.
  - intros [= <- <-]. right. right. split; [eauto|]. split; [|split; reflexivity].
    apply bool_decide_eq_false. set_solver.
Qed.

(** What the two sets hold at any point of the loop: notaries that signed,
    the completed ones apart from the partial ones. *)
Definition accounted (fin : CObjectFinalization) (vdxfCodes : list Z) (msgHash : Z)
           (sigs : gmap Z CIdentitySignature) (height : Z) (notaryList : list Z)
           (c p : gset Z) : Prop :=
  (forall y, y ∈ c -> completes fin vdxfCodes msgHash sigs height y = true
                      ∧ y ∈ notaryList ∧ is_Some (sigs !! y))
  ∧ (forall y, y ∈ p -> completes fin vdxfCodes msgHash sigs height y = false
                        ∧ y ∈ notaryList ∧ is_Some (sigs !! y)).

Lemma notary_loop_accounted fin vdxfCodes msgHash sigs height allNotaries notaryList c p c' p' :
  (forall y, y ∈ notaryList -> y ∈ allNotaries) ->
  accounted fin vdxfCodes msgHash sigs height allNotaries c p ->
  notary_loop fin vdxfCodes msgHash sigs height notaryList c p = Some (c', p') ->
  accounted fin vdxfCodes msgHash sigs height allNotaries c' p'.
Proof.
  revert c p. induction notaryList as [|y rest IH]; intros c p Hsub Hacc.
  - cbn. intros [= <- <-]. exact Hacc.
  - cbn [notary_loop].
    destruct (check_notary fin vdxfCodes msgHash sigs height y c p) as [[c1 p1]|] eqn:Ec;
      [|discriminate].
    apply IH; [intros z Hz; apply Hsub; apply elem_of_cons; right; exact Hz|].
    assert (Hy : y ∈ allNotaries) by (apply Hsub; apply elem_of_cons; left; reflexivity).
    destruct Hacc as [Hc Hp].
    apply check_notary_cases in Ec
      as [(_ & -> & ->)|[(Hs & Hk & -> & ->)|(Hs & Hk & -> & ->)]].
    + split; assumption.
    + split; [|exact Hp]. intros z Hz. apply elem_of_union in Hz as [Hz|Hz]; [|auto].
      apply elem_of_singleton in Hz as ->. auto.
    + split; [exact Hc|]. intros z Hz. apply elem_of_union in Hz as [Hz|Hz]; [|auto].
      apply elem_of_singleton in Hz as ->. auto.
Qed.

Lemma accounted_size fin vdxfCodes msgHash sigs height allNotaries c p x :
  accounted fin vdxfCodes msgHash sigs height allNotaries c p ->
  is_Some (sigs !! x) ->
  x ∉ allNotaries ->
  ssize p + ssize c < msize sigs.
Proof.
  intros [Hc Hp] Hx Hout.
  assert (Hdisj : c ## p).
  { intros y Hyc Hyp. destruct (Hc y Hyc) as [H1 _]. destruct (Hp y Hyp) as [H2 _]. congruence. }
  assert (Hsub : c ∪ p ⊆ dom sigs ∖ {[x]}).
  { intros y Hy. apply elem_of_difference. split.
    - apply elem_of_dom. apply elem_of_union in Hy as [Hy|Hy];
        [apply (Hc y Hy) | apply (Hp y Hy)].
    - intros Hyx. apply elem_of_singleton in Hyx as ->.
      apply elem_of_union in Hy as [Hy|Hy]; [apply Hc in Hy | apply Hp in Hy]; tauto. }
  apply subseteq_size in Hsub.
  rewrite size_union in Hsub by exact Hdisj.
  rewrite size_difference in Hsub
    by (apply singleton_subseteq_l; apply elem_of_dom; exact Hx).
  assert (Hpos : (0 < size (dom sigs))%nat).
  { assert (Hne : size (dom sigs) <> 0%nat); [|lia].
    apply size_non_empty_iff. intros He. apply elem_of_dom in Hx.
    rewrite He in Hx. apply elem_of_empty in Hx. exact Hx. }
  rewrite size_singleton in Hsub. rewrite size_dom in Hsub, Hpos.
  unfold ssize, msize. lia.
Qed.

(** A signature set keyed by an identity that is no notary of the currency
    makes the verdict invalid. *)
Lemma VerifyOutputSignature_stranger fin initialTx signature p height x :
  is_Some (signatures signature !! x) ->
  x ∉ notaries (GetCurrencyDefinition (of_currencyID fin)).2 ->
  VerifyOutputSignature fin initialTx signature p height = SIGNATURE_INVALID.
Proof.
  intros Hx Hout. unfold VerifyOutputSignature.
  destruct (GetCurrencyDefinition (of_currencyID fin)) as [haveDef curDef]. cbn [snd] in Hout.
  destruct (ccValid p && (VERSION_V3 <=? ccVersion p) && negb (vsize (vData p) =? 0)
            && haveDef && cdValid curDef); [|reflexivity].
  destruct (notary_loop _ _ _ _ _ (notaries curDef) ∅ ∅) as [[c' p']|] eqn:El; [|reflexivity].
  apply (notary_loop_accounted _ _ _ _ _ (notaries curDef)) in El;
    [|auto|split; intros y Hy; apply elem_of_empty in Hy; contradiction].
  pose proof (accounted_size _ _ _ _ _ _ _ _ x El Hx Hout) as Hlt.
  destruct (Z.ltb_spec (ssize p' + ssize c') (msize (signatures signature))); [reflexivity|lia].
Qed.

Lemma check_notary_raw_signature fin vdxfCodes msgHash sigs height y s c p :
  sigs !! y = Some s ->
  sig_signatures s <> [] ->
  check_notary fin vdxfCodes msgHash sigs height y c p = None.
Proof.
  intros Hs Hraw. unfold check_notary. rewrite Hs.
  destruct (idValid (LookupIdentity y height)); [|reflexivity].
  destruct (primaryAddresses (LookupIdentity y height)) as [|a rest] eqn:Ea.
  - cbn [collect_addresses].
    destruct (sig_signatures s) as [|oneSig more]; [congruence|].
    cbn [recover_signatures]. rewrite bool_decide_eq_false_2; [reflexivity|].
    apply not_elem_of_empty.
  - rewrite collect_addresses_rejects by discriminate. reflexivity.
Qed.

Lemma notary_loop_raw_signature fin vdxfCodes msgHash sigs height notaryList c p y s :
  y ∈ notaryList ->
  sigs !! y = Some s ->
  sig_signatures s <> [] ->
  notary_loop fin vdxfCodes msgHash sigs height notaryList c p = None.
Proof.
  intros Hin Hs Hraw. revert c p.
  induction notaryList as [|z rest IH]; intros c p.
  - apply elem_of_nil in Hin. contradiction.
  - cbn [notary_loop]. apply elem_of_cons in Hin as [<-|Hin].
    + rewrite (check_notary_raw_signature _ _ _ _ _ _ s) by assumption. reflexivity.
    + destruct (check_notary fin vdxfCodes msgHash sigs height z c p) as [[c1 p1]|];
        [|reflexivity].
      apply IH. exact Hin.
Qed.

(** No evidence that holds a raw signature, whoever made it and whatever it
    recovers to, gets a verdict other than invalid.  In particular a
    signature that recovers to an address outside the primary addresses of
    its identity makes the verdict invalid. *)
Lemma VerifyOutputSignature_raw_signature fin initialTx signature p height x s :
  signatures signature !! x = Some s ->
  sig_signatures s <> [] ->
  VerifyOutputSignature fin initialTx signature p height = SIGNATURE_INVALID.
Proof.
  intros Hs Hraw.
  destruct (decide (x ∈ notaries (GetCurrencyDefinition (of_currencyID fin)).2)) as [Hin|Hout].
  - unfold VerifyOutputSignature.
    destruct (GetCurrencyDefinition (of_currencyID fin)) as [haveDef curDef]. cbn [snd] in Hin.
    destruct (ccValid p && (VERSION_V3 <=? ccVersion p) && negb (vsize (vData p) =? 0)
              && haveDef && cdValid curDef); [|reflexivity].
    rewrite (notary_loop_raw_signature _ _ _ _ _ _ _ _ x s) by assumption.
    reflexivity.
  - apply (VerifyOutputSignature_stranger _ _ _ _ _ x); [eauto | exact Hout].
Qed.

(** *** What a verdict other than invalid takes *)

Lemma check_notary_invalid_identity fin vdxfCodes msgHash sigs height y c p :
  is_Some (sigs !! y) ->
  idValid (LookupIdentity y height) = false ->
  check_notary fin vdxfCodes msgHash sigs height y c p = None.
Proof.
  intros [s Hs] Hv. unfold check_notary. rewrite Hs, Hv. reflexivity.
Qed.

Lemma notary_loop_stops fin vdxfCodes msgHash sigs height notaryList c p y :
  y ∈ notaryList ->
  (forall c1 p1, check_notary fin vdxfCodes msgHash sigs height y c1 p1 = None) ->
  notary_loop fin vdxfCodes msgHash sigs height notaryList c p = None.
Proof.
  intros Hin Hstop. revert c p.
  induction notaryList as [|z rest IH]; intros c p.
  - apply elem_of_nil in Hin. contradiction.
  - cbn [notary_loop]. apply elem_of_cons in Hin as [<-|Hin].
    + rewrite Hstop. reflexivity.
    + destruct (check_notary fin vdxfCodes msgHash sigs height z c p) as [[c1 p1]|];
        [|reflexivity].
      apply IH. exact Hin.
Qed.

Lemma VerifyOutputSignature_invalid_identity fin initialTx signature p height x :
  is_Some (signatures signature !! x) ->
  idValid (LookupIdentity x height) = false ->
  VerifyOutputSignature fin initialTx signature p height = SIGNATURE_INVALID.
Proof.
  intros Hs Hv.
  destruct (decide (x ∈ notaries (GetCurrencyDefinition (of_currencyID fin)).2)) as [Hin|Hout].
  - unfold VerifyOutputSignature.
    destruct (GetCurrencyDefinition (of_currencyID fin)) as [haveDef curDef]. cbn [snd] in Hin.
    destruct (ccValid p && (VERSION_V3 <=? ccVersion p) && negb (vsize (vData p) =? 0)
              && haveDef && cdValid curDef); [|reflexivity].
    rewrite (notary_loop_stops _ _ _ _ _ _ _ _ x Hin); [reflexivity|].
    intros c1 p1. apply check_notary_invalid_identity; assumption.
  - apply (VerifyOutputSignature_stranger _ _ _ _ _ x); assumption.
Qed.

(** The conditions of lines 1836-1840. *)
Definition verifiable (fin : CObjectFinalization) (p : COptCCParams) : Prop :=
  ccValid p = true ∧ VERSION_V3 <= ccVersion p ∧ vData p <> []
  ∧ (GetCurrencyDefinition (of_currencyID fin)).1 = true
  ∧ cdValid (GetCurrencyDefinition (of_currencyID fin)).2 = true.

Lemma VerifyOutputSignature_verifiable fin initialTx signature p height :
  VerifyOutputSignature fin initialTx signature p height <> SIGNATURE_INVALID ->
  verifiable fin p.
Proof.
  unfold VerifyOutputSignature, verifiable.
  destruct (GetCurrencyDefinition (of_currencyID fin)) as [haveDef curDef]. cbn [fst snd].
  destruct (ccValid p); [|cbn; intros Hne; exfalso; apply Hne; reflexivity].
  destruct (Z.leb_spec VERSION_V3 (ccVersion p));
    [|cbn; intros Hne; exfalso; apply Hne; reflexivity].
  destruct (vData p) as [|d rest]; [cbn; intros Hne; exfalso; apply Hne; reflexivity|].
  destruct haveDef; [|cbn; intros Hne; exfalso; apply Hne; reflexivity].
  destruct (cdValid curDef); [|cbn; intros Hne; exfalso; apply Hne; reflexivity].
  intros _. repeat split; [assumption | discriminate].
Qed.

(** X5.  A verdict other than [SIGNATURE_INVALID] is only given when the
    parameters are valid, of version 3 or later and carry data, the currency
    of the finalization is known and valid, and every identity that signed
    is a notary of that currency whose identity is valid, has no primary
    address at all, and whose signature set holds no raw signature. *)
Theorem VerifyOutputSignature_verdict_needs fin initialTx signature p height :
  VerifyOutputSignature fin initialTx signature p height <> SIGNATURE_INVALID ->
  verifiable fin p
  ∧ forall x s, signatures signature !! x = Some s ->
      x ∈ notaries (GetCurrencyDefinition (of_currencyID fin)).2
      ∧ idValid (LookupIdentity x height) = true
      ∧ primaryAddresses (LookupIdentity x height) = []
      ∧ sig_signatures s = [].
Proof.
  intros Hv. split; [exact (VerifyOutputSignature_verifiable _ _ _ _ _ Hv)|].
  intros x s Hs.
  assert (Hin : x ∈ notaries (GetCurrencyDefinition (of_currencyID fin)).2).
  { destruct (decide (x ∈ notaries (GetCurrencyDefinition (of_currencyID fin)).2)) as [Hin|Hout];
      [exact Hin|].
    exfalso. apply Hv. apply (VerifyOutputSignature_stranger _ _ _ _ _ x); eauto. }
  split; [exact Hin|]. split; [|split].
  - destruct (idValid (LookupIdentity x height)) eqn:Ev; [reflexivity|].
    exfalso. apply Hv. apply (VerifyOutputSignature_invalid_identity _ _ _ _ _ x); eauto.
  - destruct (primaryAddresses (LookupIdentity x height)) as [|a rest] eqn:Ea; [reflexivity|].
    exfalso. apply Hv. apply (VerifyOutputSignature_addressed_signer _ _ _ _ _ x); eauto.
    rewrite Ea. discriminate.
  - destruct (sig_signatures s) as [|raw rest] eqn:Er; [reflexivity|].
    exfalso. apply Hv. apply (VerifyOutputSignature_raw_signature _ _ _ _ _ x s); [exact Hs|].
    rewrite Er. discriminate.
Qed.

Lemma accounted_within fin vdxfCodes msgHash sigs height allNotaries c p :
  accounted fin vdxfCodes msgHash sigs height allNotaries c p ->
  ssize c <= msize sigs.
Proof.
  intros [Hc _].
  assert (Hsub : c ⊆ dom sigs).
  { intros y Hy. apply elem_of_dom. apply (Hc y Hy). }
  apply subseteq_size in Hsub. rewrite size_dom in Hsub.
  unfold ssize, msize. lia.
Qed.

(** X6.  The verdict is [SIGNATURE_COMPLETE] only when the number of
    identities that signed reaches the currency's [minNotariesConfirm] (read
    as the unsigned number the comparison makes of it). *)
Theorem VerifyOutputSignature_complete_needs_threshold fin initialTx signature p height :
  VerifyOutputSignature fin initialTx signature p height = SIGNATURE_COMPLETE ->
  to_size_t (minNotariesConfirm (GetCurrencyDefinition (of_currencyID fin)).2)
  <= msize (signatures signature).
Proof.
  unfold VerifyOutputSignature.
  destruct (GetCurrencyDefinition (of_currencyID fin)) as [haveDef curDef]. cbn [snd].
  destruct (ccValid p && (VERSION_V3 <=? ccVersion p) && negb (vsize (vData p) =? 0)
            && haveDef && cdValid curDef); [|discriminate].
  destruct (notary_loop _ _ _ _ _ (notaries curDef) ∅ ∅) as [[c' p']|] eqn:El; [|discriminate].
  apply (notary_loop_accounted _ _ _ _ _ (notaries curDef)) in El;
    [|auto|split; intros y Hy; apply elem_of_empty in Hy; contradiction].
  apply accounted_within in El.
  destruct (ssize p' + ssize c' <? msize (signatures signature)); [discriminate|].
  destruct (Z.leb_spec (to_size_t (minNotariesConfirm curDef)) (ssize c')); [intros _; lia|].
  destruct (negb (ssize c' =? 0) || negb (ssize p' =? 0)); discriminate.
Qed.

Lemma notary_loop_no_signatures fin vdxfCodes msgHash height notaryList c p :
  notary_loop fin vdxfCodes msgHash ∅ height notaryList c p = Some (c, p).
Proof.
  induction notaryList as [|y rest IH]; [reflexivity|].
  cbn [notary_loop]. unfold check_notary. rewrite lookup_empty. exact IH.
Qed.

(** X7.  Evidence that holds no signature at all never verifies as
    partial; it verifies as complete exactly when the parameters and the
    currency are in order and the currency's [minNotariesConfirm] is 0, and
    as invalid otherwise. *)
Theorem VerifyOutputSignature_without_signatures fin initialTx signature p height :
  signatures signature = ∅ ->
  VerifyOutputSignature fin initialTx signature p height =
    if ccValid p && (VERSION_V3 <=? ccVersion p) && negb (vsize (vData p) =? 0)
       && (GetCurrencyDefinition (of_currencyID fin)).1
       && cdValid (GetCurrencyDefinition (of_currencyID fin)).2
       && (to_size_t (minNotariesConfirm (GetCurrencyDefinition (of_currencyID fin)).2) =? 0)
    then SIGNATURE_COMPLETE else SIGNATURE_INVALID.
Proof.
  intros He. unfold VerifyOutputSignature. rewrite He.
  destruct (GetCurrencyDefinition (of_currencyID fin)) as [haveDef curDef]. cbn [fst snd].
  destruct (ccValid p && (VERSION_V3 <=? ccVersion p) && negb (vsize (vData p) =? 0)
            && haveDef && cdValid curDef); [|reflexivity].
  rewrite notary_loop_no_signatures.
  replace (ssize ∅) with 0 by reflexivity. replace (msize ∅) with 0 by reflexivity.
  cbn [andb orb negb Z.add Z.ltb Z.compare Z.eqb].
  assert (Hpos : 0 <= to_size_t (minNotariesConfirm curDef)).
  { unfold to_size_t. apply Z.mod_pos_bound. lia. }
  destruct (Z.leb_spec (to_size_t (minNotariesConfirm curDef)) 0) as [Hle|Hgt];
    destruct (Z.eqb_spec (to_size_t (minNotariesConfirm curDef)) 0) as [Hz|Hnz];
    try reflexivity; lia.
Qed.

End Verify.

(** C1, what the code does.  In the scenario two of the three notaries of
    currency 5 have signed, each with one signature that recovers to its own
    primary address, and the currency confirms with two: the specification's
    count of complete identities is 2, which meets [minNotariesConfirm], yet
    the verdict is [SIGNATURE_INVALID], because the address loop rejects the
    first primary address it meets. *)
Theorem VerifyOutputSignature_rejects_a_quorum :
  spec_complete_count Scenario.GetCurrencyDefinition Scenario.GetConditionID 1
    Scenario.HashBytes Scenario.IdentitySignatureHash Scenario.LookupIdentity Scenario.RecoverID
    Scenario.pending_finalization Scenario.notarization_tx Scenario.two_of_three
    Scenario.notarization_params 100 = 2
  ∧ minNotariesConfirm Scenario.currency5 = 2
  ∧ VerifyOutputSignature 3 Scenario.GetCurrencyDefinition Scenario.GetConditionID 1
      Scenario.HashBytes Scenario.IdentitySignatureHash Scenario.LookupIdentity Scenario.RecoverID
      Scenario.pending_finalization Scenario.notarization_tx Scenario.two_of_three
      Scenario.notarization_params 100 = SIGNATURE_INVALID.
Proof.
  split; [vm_compute; reflexivity|]. split; [reflexivity|].
  apply (VerifyOutputSignature_addressed_signer 3 Scenario.GetCurrencyDefinition
           Scenario.GetConditionID 1 Scenario.HashBytes Scenario.IdentitySignatureHash
           Scenario.LookupIdentity Scenario.RecoverID _ _ _ _ _ 10).
  - cbn. set_solver.
  - exists (Scenario.signature_of 110). reflexivity.
  - discriminate.
Qed.

(** The one way to a complete verdict: a notary without any primary address
    and without any raw signature, whose own [minSigs] is 0. *)
Example VerifyOutputSignature_without_addresses :
  VerifyOutputSignature 3 Scenario.GetCurrencyDefinition Scenario.GetConditionID 1
    Scenario.HashBytes Scenario.IdentitySignatureHash Scenario.LookupIdentity Scenario.RecoverID
    {| of_version := 1; finalizationType := 1; of_confirmed := false; of_currencyID := 6;
       output := {| hash := 7; n := 0 |}; evidenceInputs := []; evidenceOutputs := [];
       minFinalizationHeight := 115 |}
    Scenario.notarization_tx
    {| ev_version := 1; ev_type := 1; ev_systemID := 6; ev_output := {| hash := 7; n := 0 |};
       confirmed := true;
       signatures := {[ 20 := {| sig_version := 1; sig_blockHeight := 100;
                                 sig_signatures := [] |} ]};
       evidence := [] |}
    Scenario.notarization_params 100
  = SIGNATURE_COMPLETE.
Proof. vm_compute. reflexivity. Qed.

(** A pending finalization of currency 6 for output 0 of transaction 7, the
    evidence notary 20 signs for it without any raw signature, and evidence
    for the same output that nobody has signed. *)
Definition finalization6 : CObjectFinalization :=
  {| of_version := 1; finalizationType := 1; of_confirmed := false; of_currencyID := 6;
     output := {| hash := 7; n := 0 |}; evidenceInputs := []; evidenceOutputs := [];
     minFinalizationHeight := 115 |}.

Definition bare_signature : CIdentitySignature :=
  {| sig_version := 1; sig_blockHeight := 100; sig_signatures := [] |}.

Definition bare_evidence : CNotaryEvidence :=
  {| ev_version := 1; ev_type := 1; ev_systemID := 6; ev_output := {| hash := 7; n := 0 |};
     confirmed := true; signatures := {[ 20 := bare_signature ]}; evidence := [] |}.

Definition unsigned_evidence : CNotaryEvidence :=
  {| ev_version := 1; ev_type := 1; ev_systemID := 6; ev_output := {| hash := 7; n := 0 |};
     confirmed := true; signatures := ∅; evidence := [] |}.

(** The four-argument verification in the scenario. *)
Definition verify_in_scenario (fin : CObjectFinalization) (signature : CNotaryEvidence)
  : ESignatureVerification :=
  VerifyOutputSignature 3 Scenario.GetCurrencyDefinition Scenario.GetConditionID 1
    Scenario.HashBytes Scenario.IdentitySignatureHash Scenario.LookupIdentity Scenario.RecoverID
    fin Scenario.notarization_tx signature Scenario.notarization_params 100.

Lemma VerifyOutputSignature_verdict_needs_witness :
  verify_in_scenario finalization6 bare_evidence <> SIGNATURE_INVALID
  ∧ (20 ∈ notaries (Scenario.currency6 [20]))
  ∧ primaryAddresses (Scenario.LookupIdentity 20 100) = [].
Proof.
  assert (H : verify_in_scenario finalization6 bare_evidence <> SIGNATURE_INVALID)
    by (vm_compute; discriminate).
  split; [exact H|].
  destruct (VerifyOutputSignature_verdict_needs 3 Scenario.GetCurrencyDefinition
              Scenario.GetConditionID 1 Scenario.HashBytes Scenario.IdentitySignatureHash
              Scenario.LookupIdentity Scenario.RecoverID finalization6 Scenario.notarization_tx
              bare_evidence Scenario.notarization_params 100 H) as [_ Hall].
  assert (Hs : signatures bare_evidence !! 20 = Some bare_signature) by reflexivity.
  destruct (Hall 20 bare_signature Hs) as (Hin & _ & Ha & _).
  split; [exact Hin | exact Ha].
Defined.

Lemma VerifyOutputSignature_complete_needs_threshold_witness :
  verify_in_scenario finalization6 bare_evidence = SIGNATURE_COMPLETE
  ∧ to_size_t (minNotariesConfirm (Scenario.currency6 [20])) <= msize (signatures bare_evidence).
Proof.
  assert (H : verify_in_scenario finalization6 bare_evidence = SIGNATURE_COMPLETE)
    by (vm_compute; reflexivity).
  split; [exact H|].
  exact (VerifyOutputSignature_complete_needs_threshold 3 Scenario.GetCurrencyDefinition
           Scenario.GetConditionID 1 Scenario.HashBytes Scenario.IdentitySignatureHash
           Scenario.LookupIdentity Scenario.RecoverID finalization6 Scenario.notarization_tx
           bare_evidence Scenario.notarization_params 100 H).
Defined.

Lemma VerifyOutputSignature_without_signatures_witness :
  signatures unsigned_evidence = ∅
  ∧ verify_in_scenario finalization6 unsigned_evidence = SIGNATURE_INVALID.
Proof.
  assert (H : signatures unsigned_evidence = ∅) by reflexivity.
  split; [exact H|].
  unfold verify_in_scenario.
  rewrite (VerifyOutputSignature_without_signatures 3 Scenario.GetCurrencyDefinition
             Scenario.GetConditionID 1 Scenario.HashBytes Scenario.IdentitySignatureHash
             Scenario.LookupIdentity Scenario.RecoverID finalization6 Scenario.notarization_tx
             unsigned_evidence Scenario.notarization_params 100 H).
  reflexivity.
Defined.

End Finalization.

(** * [ValidateNotarizationEvidence] *)

(** What a validation function leaves in [CValidationState]. *)
Inductive Verdict :=
| Valid
| Error (msg : string).

Module Evidence.
Section Validate.

Variable VERSION_V3 : Z.
(** The deserialising constructors and the [IsValid] of each class. *)
Variable DecodeEvidence : bytes -> CNotaryEvidence.
Variable EvidenceIsValid : CNotaryEvidence -> bool.
Variable DecodeFinalization : bytes -> CObjectFinalization.
Variable FinalizationIsValid : CObjectFinalization -> bool.
Variable IsNotarizationFinalization : CObjectFinalization -> bool.
Variable DecodeNotarization : bytes -> CPBaaSNotarization.
Variable NotarizationIsValid : CPBaaSNotarization -> bool.
(** The default-constructed locals [of] and [notarization]. *)
Variable CObjectFinalization_default : CObjectFinalization.
Variable CPBaaSNotarization_default : CPBaaSNotarization.
(** [ConnectedChains.GetCachedCurrency(id)]. *)
Variable GetCachedCurrency : Z -> CCurrencyDefinition.
(** [myGetTransaction(hash, tx, blockHash)]: the transaction when found. *)
Variable myGetTransaction : Z -> option CTransaction.
Variable GetConditionID : Z -> Z -> Z -> Z -> Z.
Variable NotarySignatureKey : uint160.
Variable HashBytes : bytes -> uint256.
Variable IdentitySignatureHash :
  CIdentitySignature -> list Z -> list Z -> Z -> Z -> Z -> string -> Z -> Z.
Variable LookupIdentity : Z -> Z -> CIdentity.
Variable RecoverID : Z -> bytes -> Z.

(** The locals the reference walk writes. *)
Record Walk := {
  nTx : CTransaction;
  p : COptCCParams;
  fin : CObjectFinalization;
  notarizationTxId : uint256;
  notarization : CPBaaSNotarization
}.

Definition set_nTx (w : Walk) (t : CTransaction) : Walk :=
  {| nTx := t; p := p w; fin := fin w; notarizationTxId := notarizationTxId w;
     notarization := notarization w |}.
Definition set_p (w : Walk) (q : COptCCParams) : Walk :=
  {| nTx := nTx w; p := q; fin := fin w; notarizationTxId := notarizationTxId w;
     notarization := notarization w |}.
Definition set_fin (w : Walk) (f : CObjectFinalization) : Walk :=
  {| nTx := nTx w; p := p w; fin := f; notarizationTxId := notarizationTxId w;
     notarization := notarization w |}.
Definition set_txid (w : Walk) (h : Z) : Walk :=
  {| nTx := nTx w; p := p w; fin := fin w; notarizationTxId := h;
     notarization := notarization w |}.
Definition set_notarization (w : Walk) (nz : CPBaaSNotarization) : Walk :=
  {| nTx := nTx w; p := p w; fin := fin w; notarizationTxId := notarizationTxId w;
     notarization := nz |}.

(** [nTx.vout.size() > ref.n && nTx.vout[ref.n].scriptPubKey.IsPayToCryptoCondition(p)]. *)
Definition output_params (w : Walk) (outNum : Z) : bool * Walk :=
  if vsize (vout (nTx w)) <=? outNum then (false, w)
  else match at_index (vout (nTx w)) outNum with
       | None => (false, w)
       | Some o =>
           let '(isCC, q) := IsPayToCryptoCondition (scriptPubKey o) (p w) in
           (isCC, set_p w q)
       end.

(** The conjunction that stands between the first [:] and the second [?] of
    the condition: fetch the transaction the evidence refers to, decode its
    output as a notarization finalization, and ask whether that finalization
    refers to the transaction at hand.  The answer and the locals after it. *)
Definition finalization_hop (notarySig : CNotaryEvidence) (w : Walk) : bool * Walk :=
  match myGetTransaction (hash (ev_output notarySig)) with
  | None => (false, w)
  | Some t =>
      let w := set_nTx w t in
      let '(isCC, w) := output_params w (n (ev_output notarySig)) in
      if negb isCC then (false, w)
      else if negb (ccValid (p w)) then (false, w)
      else if negb (bool_decide (evalCode (p w) = EVAL_FINALIZE_NOTARIZATION)) then (false, w)
      else if vsize (vData (p w)) =? 0 then (false, w)
      else
        let w := set_fin w (DecodeFinalization (hd [] (vData (p w)))) in
        if negb (FinalizationIsValid (fin w)) then (false, w)
        else if negb (IsNotarizationFinalization (fin w)) then (false, w)
        else (IsNull (hash (output (fin w))), w)
  end.

(** The conjunction after the second [:]: fetch the transaction the
    finalization refers to and decode its output as a notarization that has
    a proof root for the evidence's system. *)
Definition notarization_hop (notarySig : CNotaryEvidence) (w : Walk) : bool * Walk :=
  match myGetTransaction (hash (output (fin w))) with
  | None => (false, w)
  | Some t =>
      let w := set_nTx w t in
      let w := set_txid w (GetHash (nTx w)) in
      if IsNull (notarizationTxId w) then (false, w)
      else
        let '(isCC, w) := output_params w (n (output (fin w))) in
        if negb isCC then (false, w)
        else if negb (ccValid (p w)) then (false, w)
        else if negb (bool_decide (evalCode (p w) = EVAL_EARNEDNOTARIZATION)
                      || bool_decide (evalCode (p w) = EVAL_ACCEPTEDNOTARIZATION))
        then (false, w)
        else if vsize (vData (p w)) =? 0 then (false, w)
        else
          let w := set_notarization w (DecodeNotarization (hd [] (vData (p w)))) in
          if negb (NotarizationIsValid (notarization w)) then (false, w)
          else (bool_decide (is_Some (proofRoots (notarization w) !! ev_systemID notarySig)), w)
  end.

(** The whole condition, as C++ groups it: a conditional whose else-branch is
    again a conditional, [a ? (nTx = tx, true) : (b ? (nTx = tx, true) : c)]. *)
Definition reference_walk (tx : CTransaction) (notarySig : CNotaryEvidence) (w : Walk)
  : bool * Walk :=
  if IsNull (hash (ev_output notarySig)) then (true, set_nTx w tx)
  else
    let '(b, w) := finalization_hop notarySig w in
    if b then (true, set_nTx w tx)
    else notarization_hop notarySig w.

(** The loop over [signer.primaryAddresses]. *)
Fixpoint collect_addresses (addrs : list CTxDestination) (idAddresses : gset Z)
  : string + gset Z :=
  match addrs with
  | [] => inr idAddresses
  | oneAddress :: rest =>
      if negb (bool_decide (which oneAddress = ADDRTYPE_PK))
         || negb (bool_decide (which oneAddress = ADDRTYPE_PKH))
      then inl "Unsupported signature type"
      else collect_addresses rest ({[GetDestinationID oneAddress]} ∪ idAddresses)
  end.

(** The loop over one notary's raw signatures. *)
Fixpoint recover_signatures (sigHash : Z) (sigs : list bytes)
         (idAddresses verifiedSignatures : gset Z) : string + gset Z :=
  match sigs with
  | [] => inr verifiedSignatures
  | oneSig :: rest =>
      let pkID := RecoverID sigHash oneSig in
      if negb (bool_decide (pkID ∈ idAddresses))
      then inl "Mismatched pubkey and ID in signature"
      else if bool_decide (pkID ∈ verifiedSignatures)
      then inl "Duplicate key use in ID signature"
      else recover_signatures sigHash rest idAddresses ({[pkID]} ∪ verifiedSignatures)
  end.

(** The body of the loop over [curDef.notaries]: an error, or the new count. *)
Definition check_notary (notarySig : CNotaryEvidence) (w : Walk) (vdxfCodes : list Z)
           (msgHash height : Z) (authorizedNotary : Z) (confirmedCount : Z) : string + Z :=
  match signatures notarySig !! authorizedNotary with
  | Some sig =>
      let signer := LookupIdentity authorizedNotary height in
      let sigHash := IdentitySignatureHash sig vdxfCodes [] (of_currencyID (fin w)) height
                       authorizedNotary "" msgHash in
      if idValid signer then
        match collect_addresses (primaryAddresses signer) ∅ with
        | inl e => inl e
        | inr idAddresses =>
            match recover_signatures sigHash (sig_signatures sig) idAddresses ∅ with
            | inl e => inl e
            | inr verifiedSignatures =>
                if to_size_t (minSigs signer) <=? ssize verifiedSignatures
                then inr (confirmedCount + 1)
                else inl ("Insufficient signatures on behalf of ID: " +:+ idName signer)
            end
        end
      else inl "Invalid notary identity or corrupt local state"
  | None => inl "Unauthorized notary"
  end.

(** The loop: the verdict so far and [confirmedCount] as the loop leaves it. *)
Fixpoint notary_loop (notarySig : CNotaryEvidence) (w : Walk) (vdxfCodes : list Z)
         (msgHash height : Z) (notaryList : list Z) (confirmedCount : Z) : Verdict * Z :=
  match notaryList with
  | [] => (Valid, confirmedCount)
  | authorizedNotary :: rest =>
      match check_notary notarySig w vdxfCodes msgHash height authorizedNotary confirmedCount with
      | inl e => (Error e, confirmedCount)
      | inr c => notary_loop notarySig w vdxfCodes msgHash height rest c
      end
  end.

(** [ValidateNotarizationEvidence(tx, outNum, state, height, confirmedCount,
    provenFalse)]: the verdict and the two out-parameters.  [None] is a read
    of [tx.vout] out of range. *)
Definition ValidateNotarizationEvidence (tx : CTransaction) (outNum : Z) (height : Z)
  : option (Verdict * Z * bool) :=
  match at_index (vout tx) outNum with
  | None => None
  | Some o =>
      let '(isCC, p0) := IsPayToCryptoCondition (scriptPubKey o) COptCCParams_default in
      let notarySig := DecodeEvidence (hd [] (vData p0)) in
      let curDef := GetCachedCurrency (ev_systemID notarySig) in
      if isCC && ccValid p0 && (VERSION_V3 <=? ccVersion p0) && negb (vsize (vData p0) =? 0)
         && EvidenceIsValid notarySig && cdValid curDef
      then
        let w0 := {| nTx := tx; p := p0; fin := CObjectFinalization_default;
                     notarizationTxId := 0; notarization := CPBaaSNotarization_default |} in
        let '(found, w) := reference_walk tx notarySig w0 in
        if found then
          let vdxfCodes := [GetConditionID (ev_systemID notarySig) NotarySignatureKey
                              (notarizationTxId w) (n (output (fin w)))] in
          let msgHash := HashBytes (hd [] (vData (p w))) in
          let '(v, confirmedCount) :=
            notary_loop notarySig w vdxfCodes msgHash height (notaries curDef) 0 in
          match v with
          | Error e => Some (Error e, confirmedCount, false)
          | Valid =>
              if confirmedCount =? 0 then Some (Error "No evidence present", confirmedCount, false)
              else Some (Valid, confirmedCount, false)
          end
        else Some (Error "Invalid notarization reference", 0, false)
      else Some (Error "Invalid or non-evidence output", 0, false)
  end.

(** *** The address-kind test, again *)

Lemma evidence_collect_addresses_rejects addrs idAddresses :
  addrs <> [] -> collect_addresses addrs idAddresses = inl "Unsupported signature type".
Proof.
  destruct addrs as [|a rest]; [congruence|]. intros _. cbn [collect_addresses].
  destruct (which a); reflexivity.
Qed.

Lemma evidence_check_notary_addressed notarySig w vdxfCodes msgHash height notary c :
  primaryAddresses (LookupIdentity notary height) <> [] ->
  exists e, check_notary notarySig w vdxfCodes msgHash height notary c = inl e.
Proof.
  intros Haddr. unfold check_notary.
  destruct (signatures notarySig !! notary) as [sig|]; [|eauto].
  destruct (idValid (LookupIdentity notary height)); [|eauto].
  rewrite evidence_collect_addresses_rejects by exact Haddr. eauto.
Qed.

Lemma evidence_notary_loop_addressed notarySig w vdxfCodes msgHash height notaryList c :
  notaryList <> [] ->
  (forall id, id ∈ notaryList -> primaryAddresses (LookupIdentity id height) <> []) ->
  exists e, notary_loop notarySig w vdxfCodes msgHash height notaryList c = (Error e, c).
Proof.
  destruct notaryList as [|x rest]; [congruence|]. intros _ Haddr.
  cbn [notary_loop].
  destruct (evidence_check_notary_addressed notarySig w vdxfCodes msgHash height x c) as [e He].
  { apply Haddr. apply elem_of_cons. left. reflexivity. }
  rewrite He. eauto.
Qed.

(** As long as every identity has a primary address, no evidence validates:
    the call returns an error, and the count it reports is 0. *)
Lemma ValidateNotarizationEvidence_addressed tx outNum height r :
  (forall id, primaryAddresses (LookupIdentity id height) <> []) ->
  ValidateNotarizationEvidence tx outNum height = Some r ->
  exists e, r = (Error e, 0, false).
Proof.
  intros Haddr. unfold ValidateNotarizationEvidence.
  destruct (at_index (vout tx) outNum) as [o|]; [|discriminate].
  destruct (IsPayToCryptoCondition (scriptPubKey o) COptCCParams_default) as [isCC p0].
  set (notarySig := DecodeEvidence (hd [] (vData p0))).
  set (curDef := GetCachedCurrency (ev_systemID notarySig)).
  destruct (isCC && ccValid p0 && (VERSION_V3 <=? ccVersion p0) && negb (vsize (vData p0) =? 0)
            && EvidenceIsValid notarySig && cdValid curDef); [|intros [= <-]; eauto].
  destruct (reference_walk tx notarySig _) as [found w].
  destruct found; [|intros [= <-]; eauto].
  destruct (notaries curDef) as [|x rest] eqn:En.
  - cbn. intros [= <-]. eauto.
  - destruct (evidence_notary_loop_addressed notarySig w
                [GetConditionID (ev_systemID notarySig) NotarySignatureKey
                   (notarizationTxId w) (n (output (fin w)))]
                (HashBytes (hd [] (vData (p w)))) height (x :: rest) 0) as [e He];
      [congruence | intros; apply Haddr |].
    rewrite He. intros [= <-]. eauto.
Qed.

(** *** Identities that have an address *)




(** *** What a successful validation takes *)

Lemma evidence_collect_addresses_ok addrs idAddresses s :
  collect_addresses addrs idAddresses = inr s -> addrs = [] ∧ s = idAddresses.
Proof.
  destruct addrs as [|a rest]; [intros [= <-]; auto|].
  rewrite evidence_collect_addresses_rejects by discriminate. discriminate.
Qed.

Lemma evidence_recover_signatures_none sigHash sigs ver s :
  recover_signatures sigHash sigs ∅ ver = inr s -> sigs = [].
Proof.
  destruct sigs as [|oneSig rest]; [reflexivity|]. cbn [recover_signatures].
  rewrite bool_decide_eq_false_2 by apply not_elem_of_empty. discriminate.
Qed.

(** A notary that has signed, whose identity is valid and has no primary
    address, and whose signature set holds no raw signature. *)
Definition signed_bare (notarySig : CNotaryEvidence) (height notary : Z) : Prop :=
  exists s, signatures notarySig !! notary = Some s
            ∧ idValid (LookupIdentity notary height) = true
            ∧ primaryAddresses (LookupIdentity notary height) = []
            ∧ sig_signatures s = [].

Lemma evidence_check_notary_ok notarySig w vdxfCodes msgHash height notary c c' :
  check_notary notarySig w vdxfCodes msgHash height notary c = inr c' ->
  c' = c + 1 ∧ signed_bare notarySig height notary.
Proof.
  unfold check_notary, signed_bare.
  destruct (signatures notarySig !! notary) as [s|]; [|discriminate].
  destruct (idValid (LookupIdentity notary height)); [|discriminate].
  destruct (collect_addresses (primaryAddresses (LookupIdentity notary height)) ∅)
    as [e|idAddresses] eqn:Ec; [discriminate|].
  apply evidence_collect_addresses_ok in Ec as [Ha ->].
  destruct (recover_signatures _ (sig_signatures s) ∅ ∅) as [e|ver] eqn:Er; [discriminate|].
  apply evidence_recover_signatures_none in Er.
  destruct (to_size_t (minSigs (LookupIdentity notary height)) <=? ssize ver); [|discriminate].
  intros [= <-]. split; [reflexivity|]. exists s. auto.
Qed.

Lemma evidence_notary_loop_ok notarySig w vdxfCodes msgHash height notaryList c c' :
  notary_loop notarySig w vdxfCodes msgHash height notaryList c = (Valid, c') ->
  c' = c + vsize notaryList ∧ Forall (signed_bare notarySig height) notaryList.
Proof.
  revert c. induction notaryList as [|x rest IH]; intros c.
  - cbn. intros [= <-]. split; [unfold vsize; cbn; lia | constructor].
  - cbn [notary_loop].
    destruct (check_notary notarySig w vdxfCodes msgHash height x c) as [e|c1] eqn:Ec;
      [discriminate|].
    apply evidence_check_notary_ok in Ec as [-> Hx].
    intros Hl. apply IH in Hl as [-> Hrest].
    split; [unfold vsize; cbn [length]; lia | constructor; assumption].
Qed.

(** X8.  The call succeeds only on a crypto-condition output whose evidence
    is signed by every notary of the evidence's system, not by a quorum of
    them: each notary of the currency has a signature in the evidence, a
    valid identity without any primary address and no raw signature; the
    count reported is the number of notaries, which is not 0, and
    [provenFalse] is false. *)
Theorem ValidateNotarizationEvidence_needs_every_notary tx outNum height c pf :
  ValidateNotarizationEvidence tx outNum height = Some (Valid, c, pf) ->
  exists o p0,
    at_index (vout tx) outNum = Some o ∧ scriptPubKey o = ScriptCC p0
    ∧ pf = false
    ∧ c = vsize (notaries (GetCachedCurrency (ev_systemID (DecodeEvidence (hd [] (vData p0))))))
    ∧ 0 < c
    ∧ Forall (signed_bare (DecodeEvidence (hd [] (vData p0))) height)
             (notaries (GetCachedCurrency (ev_systemID (DecodeEvidence (hd [] (vData p0)))))).
Proof.
  unfold ValidateNotarizationEvidence.
  destruct (at_index (vout tx) outNum) as [o|]; [|discriminate].
  destruct (scriptPubKey o) as [|q] eqn:Es; cbn [IsPayToCryptoCondition].
  { cbn. discriminate. }
  set (notarySig := DecodeEvidence (hd [] (vData q))).
  set (curDef := GetCachedCurrency (ev_systemID notarySig)).
  destruct (true && ccValid q && (VERSION_V3 <=? ccVersion q) && negb (vsize (vData q) =? 0)
            && EvidenceIsValid notarySig && cdValid curDef); [|discriminate].
  destruct (reference_walk tx notarySig _) as [found w].
  destruct found; [|discriminate].
  destruct (notary_loop notarySig w _ _ height (notaries curDef) 0) as [v c0] eqn:El.
  destruct v as [|e]; [|discriminate].
  apply evidence_notary_loop_ok in El as [-> Hall].
  destruct (Z.eqb_spec (0 + vsize (notaries curDef)) 0) as [Hz|Hnz]; [discriminate|].
  intros [= <- <-]. exists o, q.
  split; [reflexivity|]. split; [exact Es|]. split; [reflexivity|].
  split; [subst curDef notarySig; lia|].
  split; [unfold vsize in *; lia | exact Hall].
Qed.

End Validate.

(** Evidence of system 6 that refers to output 0 of its own transaction (the
    hash of the reference is null) and is signed by notary 20, with no raw
    signature, and by identity 66, which is no notary of currency 6. *)
Definition stray_evidence : CNotaryEvidence :=
  {| ev_version := 1; ev_type := 1; ev_systemID := 6;
     ev_output := {| hash := 0; n := 0 |};
     confirmed := true;
     signatures :=
       <[20 := {| sig_version := 1; sig_blockHeight := 100; sig_signatures := [] |}]>
         (<[66 := Scenario.signature_of 110]> ∅);
     evidence := [] |}.

Definition stray_tx : CTransaction :=
  {| GetHash := 8;
     vout := [ {| scriptPubKey :=
                    ScriptCC {| ccValid := true; ccVersion := 3;
                                evalCode := EVAL_NOTARY_EVIDENCE; vData := [[4]] |};
                  nValue := 0 |} ] |}.

Definition empty_notarization : CPBaaSNotarization :=
  {| nVersion := 0; flags := FLAGS_NONE; currencyID := 0; notarizationHeight := 0;
     currencyState := TxDecode.plain_state; prevNotarization := CUTXORef_default;
     hashPrevNotarization := 0; prevHeight := 0; currencyStates := ∅; proofRoots := ∅ |}.

Definition empty_finalization : CObjectFinalization :=
  {| of_version := 0; finalizationType := 0; of_confirmed := false; of_currencyID := 0;
     output := CUTXORef_default; evidenceInputs := []; evidenceOutputs := [];
     minFinalizationHeight := 0 |}.

(** The evaluation code of an output of a transaction. *)
Definition eval_code_at (tx : CTransaction) (i : Z) : option EvalCode :=
  match at_index (vout tx) i with
  | Some o => match scriptPubKey o with
              | ScriptCC q => Some (evalCode q)
              | ScriptPlain => None
              end
  | None => None
  end.

(** The function in the scenario, the notaries of currency 6 left open. *)
Definition validate_in_scenario (notaryList : list Z) (tx : CTransaction) (outNum height : Z)
  : option (Verdict * Z * bool) :=
  ValidateNotarizationEvidence 3
    (fun _ => stray_evidence) (fun ev => negb (ev_version ev =? 0))
    (fun _ => empty_finalization) (fun f => negb (of_version f =? 0))
    (fun f => finalizationType f =? 1)
    (fun _ => empty_notarization) (fun nz => negb (nVersion nz =? 0))
    empty_finalization empty_notarization
    (fun _ => Scenario.currency6 notaryList) (fun _ => None)
    Scenario.GetConditionID 1 Scenario.HashBytes Scenario.IdentitySignatureHash
    Scenario.LookupIdentity Scenario.RecoverID tx outNum height.

(** With an identity that is valid and has no primary address.  The
    evidence refers to an output that is no
    finalization (it is the evidence output itself) and one of its signers,
    66, is not a notary of the currency; the call succeeds all the same, with
    one confirmed unit: a null reference hash ends the reference walk before
    any hop is decoded, and the loop runs over the notaries of the currency,
    never over the signers of the evidence. *)
Theorem ValidateNotarizationEvidence_accepts_stray_evidence :
  validate_in_scenario [20] stray_tx 0 100 = Some (Valid, 1, false)
  ∧ is_Some (signatures stray_evidence !! 66)
  ∧ (66 ∉ notaries (Scenario.currency6 [20]))
  ∧ eval_code_at stray_tx 0 = Some EVAL_NOTARY_EVIDENCE.
Proof.
  split; [vm_compute; reflexivity|].
  split; [exists (Scenario.signature_of 110); reflexivity|].
  split; [|reflexivity].
  cbn. intros Hin. apply list_elem_of_singleton in Hin. discriminate.
Qed.

(** With a second notary, 10, that has not signed, the call fails at that
    notary (the message names the absent notary unauthorized), and the count
    handed back still holds the unit of the first. *)
Example ValidateNotarizationEvidence_partial_count :
  validate_in_scenario [20; 10] stray_tx 0 100
  = Some (Error "Unauthorized notary", 1, false).
Proof. vm_compute. reflexivity. Qed.

Lemma ValidateNotarizationEvidence_needs_every_notary_witness :
  validate_in_scenario [20] stray_tx 0 100 = Some (Valid, 1, false)
  ∧ Forall (signed_bare Scenario.LookupIdentity stray_evidence 100) [20].
Proof.
  assert (H : validate_in_scenario [20] stray_tx 0 100 = Some (Valid, 1, false))
    by (vm_compute; reflexivity).
  split; [exact H|].
  unfold validate_in_scenario in H.
  apply ValidateNotarizationEvidence_needs_every_notary in H
    as (o & p0 & _ & _ & _ & _ & _ & Hall).
  exact Hall.
Defined.

(** The identities of the scenario that have an address: the notaries 10,
    11 and 12 of currency 5. *)
Definition addressed_LookupIdentity (id height : Z) : CIdentity :=
  if bool_decide (id ∈ [10; 11; 12]) then Scenario.notary_identity (id + 100)
  else Scenario.no_identity.

(** Evidence of system 5 for an output of the transaction it is on, signed
    by the notaries 10 and 11 and by identity 66, which is no notary. *)
Definition signed_evidence : CNotaryEvidence :=
  {| ev_version := 1; ev_type := 1; ev_systemID := 5;
     ev_output := {| hash := 0; n := 0 |};
     confirmed := true;
     signatures := <[10 := Scenario.signature_of 110]>
                     (<[11 := Scenario.signature_of 111]>
                        (<[66 := Scenario.signature_of 110]> ∅));
     evidence := [] |}.

Definition validate_addressed (tx : CTransaction) (outNum height : Z)
  : option (Verdict * Z * bool) :=
  ValidateNotarizationEvidence 3
    (fun _ => signed_evidence) (fun ev => negb (ev_version ev =? 0))
    (fun _ => empty_finalization) (fun f => negb (of_version f =? 0))
    (fun f => finalizationType f =? 1)
    (fun _ => empty_notarization) (fun nz => negb (nVersion nz =? 0))
    empty_finalization empty_notarization
    (fun _ => Scenario.currency5) (fun _ => None)
    Scenario.GetConditionID 1 Scenario.HashBytes Scenario.IdentitySignatureHash
    addressed_LookupIdentity Scenario.RecoverID tx outNum height.



(** The run stops at notary 10, the first of the currency: it has signed and
    its identity is valid, and the address it has is refused. *)
Example addressed_notary_refused :
  validate_addressed stray_tx 0 100 = Some (Error "Unsupported signature type", 0, false).
Proof. vm_compute. reflexivity. Qed.

End Evidence.

(** * Building an accepted notarization *)

(** A step of a function that reports errors through [CValidationState]:
    it yields a value, stops with [state.Error(msg)], or reads a vector out
    of range or a null block pointer. *)
Inductive Step (A : Type) :=
| Done (a : A)
| Fail (msg : string)
| Undefined.

Arguments Done {A} a.
Arguments Fail {A} msg.
Arguments Undefined {A}.

#[global] Instance Step_bind : MBind Step :=
  fun A B f m => match m with
                 | Done a => f a
                 | Fail e => Fail e
                 | Undefined => Undefined
                 end.

#[global] Instance Step_ret : MRet Step := fun A a => Done a.

(** Go on when [b] holds, else [return state.Error(msg)]. *)
Definition require (b : bool) (msg : string) : Step unit :=
  if b then Done () else Fail msg.

(** A read that must hit. *)
Definition defined {A} (o : option A) : Step A :=
  match o with
  | Some a => Done a
  | None => Undefined
  end.

(** The entries of a [std::map] in the order it iterates them. *)
Definition key_le {V} (a b : Z * V) : Prop := a.1 <= b.1.

#[global] Instance key_le_dec {V} : RelDecision (@key_le V).
Proof. intros a b. unfold key_le. apply _. Defined.

Definition entries {V} (m : gmap Z V) : list (Z * V) :=
  merge_sort key_le (map_to_list m).

(** [CChainNotarizationData]. *)
Record CChainNotarizationData := {
  cnd_version : Z;
  vtx : list (CUTXORef * CPBaaSNotarization);
  forks : list (list Z);
  lastConfirmed : Z;
  bestChain : Z
}.

(** The destinations the builder pays to. *)
Inductive Destination :=
| DestIdentity (id : uint160)
| DestContractKey (code : EvalCode).

(** [MakeMofNCCScript(CConditionObj<T>(evalCode, dests, 1, &obj))] for the
    three kinds of object the builder emits. *)
Inductive ConditionScript :=
| NotarizationScript (code : EvalCode) (dests : list Destination) (m : Z) (obj : CPBaaSNotarization)
| EvidenceScript (code : EvalCode) (dests : list Destination) (m : Z) (obj : CNotaryEvidence)
| FinalizationScript (code : EvalCode) (dests : list Destination) (m : Z) (obj : CObjectFinalization).

(** [TransactionBuilder]: the transparent inputs and [mtx.vout]. *)
Record TransactionBuilder := {
  tb_inputs : list (CUTXORef * CScript * Z);
  mtx_vout : list (ConditionScript * Z)
}.

Definition AddTransparentInput (tb : TransactionBuilder) (ref : CUTXORef) (s : CScript) (v : Z)
  : TransactionBuilder :=
  {| tb_inputs := tb_inputs tb ++ [(ref, s, v)]; mtx_vout := mtx_vout tb |}.

Definition AddTransparentOutput (tb : TransactionBuilder) (s : ConditionScript) (v : Z)
  : TransactionBuilder :=
  {| tb_inputs := tb_inputs tb; mtx_vout := mtx_vout tb ++ [(s, v)] |}.

(** [of.SetConfirmed()] followed by [of.evidenceOutputs.push_back(i)]. *)
Definition confirm_with (f : CObjectFinalization) (i : Z) : CObjectFinalization :=
  {| of_version := of_version f; finalizationType := finalizationType f;
     of_confirmed := true; of_currencyID := of_currencyID f; output := output f;
     evidenceInputs := evidenceInputs f; evidenceOutputs := evidenceOutputs f ++ [i];
     minFinalizationHeight := minFinalizationHeight f |}.

Module Accepted.
Section Create.

Variable ASSETCHAINS_CHAINID : uint160.
Variable VERUS_CHAINID : uint160.
(** The active chain and its Merkle mountain range. *)
Variable chainActive : ProofRoot.CChain.
Variable MMR : Type.
Variable MMVRoot : MMR -> Z -> uint256.
Variable GetMMV : ProofRoot.CChain -> ProofRoot.MMView MMR.
(** [notarization.SetMirror()]: the answer and the notarization after it. *)
Variable SetMirror : CPBaaSNotarization -> bool * CPBaaSNotarization.
(** [GetNotarizationData(systemID, cnd, &txes)]: the answer and [cnd]. *)
Variable GetNotarizationData : Z -> bool * CChainNotarizationData.
Variable IsConfirmed : CChainNotarizationData -> bool.
(** The hash writer of [CMMRNode] applied to a notarization. *)
Variable HashNotarization : CPBaaSNotarization -> uint256.
(** [CIdentity::LookupIdentity(id)], at the current height. *)
Variable LookupIdentity : Z -> CIdentity.
(** [sig.CheckSignature(identity, vdxfCodes, statements, systemID, prefix, msgHash)]. *)
Variable CheckSignature :
  CIdentitySignature -> CIdentity -> list Z -> list Z -> Z -> string -> Z -> ESignatureVerification.
Variable NotaryConfirmedKey : uint160.
(** [CProofRoot()], [root.IsValid()] and the two proof-root types. *)
Variable CProofRoot_default : CProofRoot.
Variable ProofRootIsValid : CProofRoot -> bool.
Variable TYPE_PBAAS : Z.
Variable TYPE_ETHEREUM : Z.
(** [ConnectedChains.GetCurrencyState(id, height)], [::GetHash(state)] and
    [state.ToUniValue().write(1,2)]. *)
Variable GetCurrencyState : Z -> Z -> CCoinbaseCurrencyState.
Variable HashState : CCoinbaseCurrencyState -> uint256.
Variable write_state : CCoinbaseCurrencyState -> string.
Variable GetCachedCurrency : Z -> CCurrencyDefinition.
Variable ThisChain : CCurrencyDefinition.
(** [n.GetLastUnspentNotarization(systemID, evalCode, txid, outNum, &tx)]:
    the answer, [txid], [outNum] and [tx]. *)
Variable GetLastUnspentNotarization : Z -> EvalCode -> bool * (Z * Z * CTransaction).
Variable NOTARIZATION_NOTARY_CHAINID : Z.
Variable FINALIZE_NOTARIZATION : Z.
Variable FINALIZATION_VERSION_CURRENT : Z.
Variable DEFAULT_OUTPUT_VALUE : Z.

Definition errorPrefix : string := "CreateAcceptedNotarization: ".

(** [map[key]] of [std::map]: the entry, inserted as a default when absent. *)
Definition index_or_insert (m : gmap Z CProofRoot) (k : Z) : CProofRoot * gmap Z CProofRoot :=
  match m !! k with
  | Some r => (r, m)
  | None => (CProofRoot_default, <[k := CProofRoot_default]> m)
  end.

Definition with_proofRoots (nz : CPBaaSNotarization) (roots : gmap Z CProofRoot)
  : CPBaaSNotarization :=
  {| nVersion := nVersion nz; flags := flags nz; currencyID := currencyID nz;
     notarizationHeight := notarizationHeight nz; currencyState := currencyState nz;
     prevNotarization := prevNotarization nz; hashPrevNotarization := hashPrevNotarization nz;
     prevHeight := prevHeight nz; currencyStates := currencyStates nz; proofRoots := roots |}.

(** Lines 751-757: the copy of the earned notarization, mirrored. *)
Definition mirror (earnedNotarization : CPBaaSNotarization) : Step CPBaaSNotarization :=
  if fMirror (flags earnedNotarization) then Fail (errorPrefix +:+ "invalid earned notarization")
  else
    let '(ok, newNotarization) := SetMirror earnedNotarization in
    if ok then Done newNotarization else Fail (errorPrefix +:+ "invalid earned notarization").

(** Lines 763-777: the proof root of this chain must be later than the one
    of the last confirmed notarization. *)
Definition later_than_confirmed (SystemID : Z) (ourRoot : CProofRoot) : Step unit :=
  let '(ok, cnd) := GetNotarizationData SystemID in
  require ok (errorPrefix +:+ "cannot locate notarization history") ;;
  let notLater := errorPrefix +:+
    "earned notarization proof root is not later than prior confirmed for this chain" in
  require (IsConfirmed cnd) notLater ;;
  confirmedEntry ← defined (at_index (vtx cnd) (lastConfirmed cnd)) ;
  match proofRoots confirmedEntry.2 !! ASSETCHAINS_CHAINID with
  | None => Fail notLater
  | Some confirmedRoot => require (rootHeight confirmedRoot <? rootHeight ourRoot) notLater
  end.

(** Lines 783-804: every signature is by a notary, of a valid identity, and complete. *)
Fixpoint check_signatures (notarySet : gset Z) (SystemID objHash : Z)
         (sigs : list (Z * CIdentitySignature)) : Step unit :=
  match sigs with
  | [] => Done ()
  | oneSig :: rest =>
      require (bool_decide (oneSig.1 ∈ notarySet))
              (errorPrefix +:+ "unauthorized notary signature") ;;
      let sigIdentity := LookupIdentity oneSig.1 in
      require (idValidUnrevoked sigIdentity) (errorPrefix +:+ "invalid notary identity") ;;
      require (bool_decide (CheckSignature oneSig.2 sigIdentity [NotaryConfirmedKey] []
                              SystemID "" objHash = SIGNATURE_COMPLETE))
              (errorPrefix +:+ "invalid or incomplete notary signature") ;;
      check_signatures notarySet SystemID objHash rest
  end.

(** Lines 806-820: the proof root of this chain is ours. *)
Definition own_root_valid (SystemID height : Z) (newNotarization : CPBaaSNotarization)
           (ourRoot : CProofRoot) : Step unit :=
  let mmv := ProofRoot.resize MMR (GetMMV chainActive) (rootHeight ourRoot) in
  let bad := errorPrefix +:+
    "can only create accepted notarization from notarization with valid proof root of this chain" in
  require (bool_decide (is_Some (proofRoots newNotarization !! SystemID))) bad ;;
  require (bool_decide (is_Some (proofRoots newNotarization !! ASSETCHAINS_CHAINID))) bad ;;
  require (ProofRootIsValid ourRoot) bad ;;
  require (rootHeight ourRoot <=? height) bad ;;
  blk ← defined (ProofRoot.block_at chainActive (ProofRoot.to_int32 (rootHeight ourRoot))) ;
  require (blockHash ourRoot =? ProofRoot.GetBlockHash blk) bad ;;
  require (stateRoot ourRoot =? ProofRoot.GetRoot MMR MMVRoot mmv) bad ;;
  require (negb (negb (pr_type ourRoot =? TYPE_PBAAS) && negb (pr_type ourRoot =? TYPE_ETHEREUM))) bad.

Definition newline : string := String (Ascii.ascii_of_nat 10) EmptyString.

Definition state_mismatch (found expected : CCoinbaseCurrencyState) : string :=
  errorPrefix +:+ "currecy state is invalid in accepted notarization. is:" +:+ newline
    +:+ write_state found +:+ newline +:+ "should be:" +:+ newline
    +:+ write_state expected +:+ newline.

(** Lines 823-831. *)
Definition own_state_valid (earnedNotarization newNotarization : CPBaaSNotarization)
           (ourRoot : CProofRoot) : Step unit :=
  let oldCurState := GetCurrencyState ASSETCHAINS_CHAINID (rootHeight ourRoot) in
  require (csValid oldCurState
           && (HashState oldCurState =? HashState (currencyState earnedNotarization)))
          (state_mismatch (currencyState newNotarization) oldCurState).

(** Lines 835-870: the currency states that can be checked here are right. *)
Fixpoint check_currency_states (SystemID : Z) (ourRoot : CProofRoot)
         (states : list (Z * CCoinbaseCurrencyState)) : Step unit :=
  match states with
  | [] => Done ()
  | oneCur :: rest =>
      if oneCur.1 =? SystemID then check_currency_states SystemID ourRoot rest
      else if negb (oneCur.1 =? ASSETCHAINS_CHAINID) then
        let curDef := GetCachedCurrency oneCur.1 in
        require (cdValid curDef)
          (errorPrefix +:+ "all currencies in accepted notarizatoin must be registered on this chain") ;;
        if negb (systemID curDef =? ASSETCHAINS_CHAINID)
        then check_currency_states SystemID ourRoot rest
        else
          let oldCurState := GetCurrencyState oneCur.1 (rootHeight ourRoot) in
          require (csValid oldCurState && (HashState oldCurState =? HashState oneCur.2))
                  (state_mismatch oneCur.2 oldCurState) ;;
          check_currency_states SystemID ourRoot rest
      else Fail (errorPrefix +:+ "cannot accept redundant currency state in notarization for "
                 +:+ cdName ThisChain)
  end.

(** Lines 871-894: no proof root of a token of this chain. *)
Fixpoint check_proof_roots (SystemID : Z) (roots : list (Z * CProofRoot)) : Step unit :=
  match roots with
  | [] => Done ()
  | oneRoot :: rest =>
      if oneRoot.1 =? SystemID then check_proof_roots SystemID rest
      else
        let curDef := GetCachedCurrency oneRoot.1 in
        require (cdValid curDef)
          (errorPrefix +:+ "all currencies in accepted notarizatoin must be registered on this chain") ;;
        let curDefID := GetID curDef in
        require (negb (negb (curDefID =? ASSETCHAINS_CHAINID)
                       && (systemID curDef =? ASSETCHAINS_CHAINID)))
                (errorPrefix +:+ "proof roots are not accepted for token currencies") ;;
        check_proof_roots SystemID rest
  end.

(** What the checks hand to the part that builds: the notarization to emit,
    the height, and the prior notarization output to spend. *)
Record Checked := {
  newNotarization : CPBaaSNotarization;
  height : Z;
  lastTxId : uint256;
  lastTxOutNum : Z;
  lastTx : CTransaction
}.

(** Lines 739-906: everything before the builder is touched. *)
Definition checks (externalSystem : CCurrencyDefinition) (earnedNotarization : CPBaaSNotarization)
           (notaryEvidence : CNotaryEvidence) : Step Checked :=
  require (negb (msize (signatures notaryEvidence) =? 0))
          (errorPrefix +:+ "insufficient notary evidence required to accept notarization") ;;
  let notarySet : gset Z := list_to_set (notaries externalSystem) in
  mirrored ← mirror earnedNotarization ;
  let SystemID := GetID externalSystem in
  let height := to_uint32 (ProofRoot.Height chainActive) in
  let '(ourRoot, roots) := index_or_insert (proofRoots mirrored) ASSETCHAINS_CHAINID in
  let newNotarization := with_proofRoots mirrored roots in
  later_than_confirmed SystemID ourRoot ;;
  let objHash := HashNotarization earnedNotarization in
  check_signatures notarySet SystemID objHash (entries (signatures notaryEvidence)) ;;
  own_root_valid SystemID height newNotarization ourRoot ;;
  own_state_valid earnedNotarization newNotarization ourRoot ;;
  check_currency_states SystemID ourRoot (entries (currencyStates newNotarization)) ;;
  check_proof_roots SystemID (entries (proofRoots newNotarization)) ;;
  let '(ok, (lastTxId, lastTxOutNum, lastTx)) :=
    GetLastUnspentNotarization SystemID EVAL_ACCEPTEDNOTARIZATION in
  require ok (errorPrefix +:+ "invalid prior notarization") ;;
  mret {| newNotarization := newNotarization; height := height; lastTxId := lastTxId;
          lastTxOutNum := lastTxOutNum; lastTx := lastTx |}.

(** Lines 942-948: the finalization output. *)
Definition add_finalization (externalSystem : CCurrencyDefinition)
           (notaryEvidence : CNotaryEvidence) (height : Z) (txBuilder : TransactionBuilder)
  : TransactionBuilder :=
  let dests := [DestContractKey EVAL_FINALIZE_NOTARIZATION] in
  let fin := {| of_version := FINALIZATION_VERSION_CURRENT;
                finalizationType := FINALIZE_NOTARIZATION;
                of_confirmed := false;
                of_currencyID := VERUS_CHAINID;
                output := {| hash := 0; n := vsize (mtx_vout txBuilder) |};
                evidenceInputs := []; evidenceOutputs := [];
                minFinalizationHeight := to_uint32 (height + 15) |} in
  let fin := if vsize (notaries externalSystem) <=? msize (signatures notaryEvidence)
             then confirm_with fin (vsize (mtx_vout txBuilder) - 1)
             else fin in
  AddTransparentOutput txBuilder
    (FinalizationScript EVAL_FINALIZE_NOTARIZATION dests 1 fin) 0.

(** Lines 909-950: the spend of the prior notarization and the outputs. *)
Definition build (externalSystem : CCurrencyDefinition) (notaryEvidence : CNotaryEvidence)
           (c : Checked) (txBuilder : TransactionBuilder) : Step TransactionBuilder :=
  spent ← defined (at_index (vout (lastTx c)) (lastTxOutNum c)) ;
  let txBuilder :=
    AddTransparentInput txBuilder {| hash := lastTxId c; n := to_uint32 (lastTxOutNum c) |}
      (scriptPubKey spent) (nValue spent) in
  let dests :=
    if notarizationProtocol externalSystem =? NOTARIZATION_NOTARY_CHAINID
    then [DestIdentity (GetID externalSystem)]
    else [DestContractKey EVAL_ACCEPTEDNOTARIZATION] in
  let txBuilder :=
    AddTransparentOutput txBuilder
      (NotarizationScript EVAL_ACCEPTEDNOTARIZATION dests 1 (newNotarization c)) 0 in
  let dests := [DestContractKey EVAL_NOTARY_EVIDENCE] in
  let txBuilder :=
    AddTransparentOutput txBuilder
      (EvidenceScript EVAL_NOTARY_EVIDENCE dests 1 notaryEvidence) DEFAULT_OUTPUT_VALUE in
  if negb (notarizationProtocol externalSystem =? NOTARIZATION_NOTARY_CHAINID)
  then mret (add_finalization externalSystem notaryEvidence (height c) txBuilder)
  else mret txBuilder.

(** What the caller sees: the boolean returned, the error left in [state],
    and the builder after the call. *)
Inductive Outcome :=
| Returned (ok : bool) (error : option string) (txBuilder : TransactionBuilder)
| Crashed.

(** [CPBaaSNotarization::CreateAcceptedNotarization]. *)
Definition CreateAcceptedNotarization (externalSystem : CCurrencyDefinition)
           (earnedNotarization : CPBaaSNotarization) (notaryEvidence : CNotaryEvidence)
           (txBuilder : TransactionBuilder) : Outcome :=
  match checks externalSystem earnedNotarization notaryEvidence with
  | Fail msg => Returned false (Some msg) txBuilder
  | Undefined => Crashed
  | Done c =>
      match build externalSystem notaryEvidence c txBuilder with
      | Done txBuilder' => Returned true None txBuilder'
      | Fail msg => Returned false (Some msg) txBuilder
      | Undefined => Crashed
      end
  end.

(** *** Errors before the builder is touched *)

Lemma entries_elem {V} (m : gmap Z V) k v : (k, v) ∈ entries m <-> m !! k = Some v.
Proof. unfold entries. rewrite merge_sort_Permutation. apply elem_of_map_to_list. Qed.

(** What is wrong with one signature entry. *)
Definition bad_signature (notarySet : gset Z) (SystemID objHash : Z)
           (oneSig : Z * CIdentitySignature) : Prop :=
  oneSig.1 ∉ notarySet
  ∨ CheckSignature oneSig.2 (LookupIdentity oneSig.1) [NotaryConfirmedKey] []
      SystemID "" objHash <> SIGNATURE_COMPLETE.

Lemma check_signatures_fails notarySet SystemID objHash sigs oneSig :
  oneSig ∈ sigs ->
  bad_signature notarySet SystemID objHash oneSig ->
  exists msg, check_signatures notarySet SystemID objHash sigs = Fail msg.
Proof.
  intros Hin Hbad. induction sigs as [|x rest IH].
  - apply elem_of_nil in Hin. contradiction.
  - cbn [check_signatures].
    destruct (bool_decide (x.1 ∈ notarySet)) eqn:En; cbn; [|eauto].
    destruct (idValidUnrevoked (LookupIdentity x.1)); cbn; [|eauto].
    destruct (bool_decide (CheckSignature x.2 (LookupIdentity x.1) [NotaryConfirmedKey] []
                             SystemID "" objHash = SIGNATURE_COMPLETE)) eqn:Ec; cbn; [|eauto].
    apply elem_of_cons in Hin as [->|Hin]; [|exact (IH Hin)].
    apply bool_decide_eq_true in En, Ec.
    destruct Hbad as [Hbad|Hbad]; contradiction.
Qed.

Lemma mirror_defined earnedNotarization :
  mirror earnedNotarization <> Undefined.
Proof.
  unfold mirror. destruct (fMirror (flags earnedNotarization)); [discriminate|].
  destruct (SetMirror earnedNotarization) as [[] nz]; discriminate.
Qed.

Lemma mirror_done earnedNotarization mirrored :
  mirror earnedNotarization = Done mirrored -> mirrored = (SetMirror earnedNotarization).2.
Proof.
  unfold mirror. destruct (fMirror (flags earnedNotarization)); [discriminate|].
  destruct (SetMirror earnedNotarization) as [[] nz]; [|discriminate].
  intros [= <-]. reflexivity.
Qed.

(** The history the chain holds of a system is well formed when its last
    confirmed index, if it says it has one, is an index of [vtx]. *)
Definition history_ok (SystemID : Z) : Prop :=
  let cnd := (GetNotarizationData SystemID).2 in
  IsConfirmed cnd = true -> is_Some (at_index (vtx cnd) (lastConfirmed cnd)).

Lemma later_than_confirmed_defined SystemID ourRoot :
  history_ok SystemID -> later_than_confirmed SystemID ourRoot <> Undefined.
Proof.
  unfold history_ok, later_than_confirmed.
  destruct (GetNotarizationData SystemID) as [ok cnd]. cbn [snd]. intros Hok.
  destruct ok; cbn; [|discriminate].
  destruct (IsConfirmed cnd); cbn; [|discriminate].
  destruct (Hok eq_refl) as [entry ->]. cbn.
  destruct (proofRoots entry.2 !! ASSETCHAINS_CHAINID) as [r|]; [|discriminate].
  destruct (rootHeight r <? rootHeight ourRoot); discriminate.
Qed.

Lemma later_than_confirmed_done SystemID ourRoot entry confirmedRoot :
  at_index (vtx (GetNotarizationData SystemID).2) (lastConfirmed (GetNotarizationData SystemID).2)
    = Some entry ->
  proofRoots entry.2 !! ASSETCHAINS_CHAINID = Some confirmedRoot ->
  later_than_confirmed SystemID ourRoot = Done () ->
  rootHeight confirmedRoot < rootHeight ourRoot.
Proof.
  unfold later_than_confirmed.
  destruct (GetNotarizationData SystemID) as [ok cnd]. cbn [snd]. intros He Hr.
  destruct ok; cbn; [|discriminate].
  destruct (IsConfirmed cnd); cbn; [|discriminate].
  rewrite He. cbn. rewrite Hr.
  destruct (Z.ltb_spec (rootHeight confirmedRoot) (rootHeight ourRoot)); [auto | discriminate].
Qed.

(** The proof root of this chain the checks compare: the entry of the
    mirrored copy of the earned notarization, or the default one when the
    copy has none. *)
Definition ourRoot_of (earnedNotarization : CPBaaSNotarization) : CProofRoot :=
  (index_or_insert (proofRoots (SetMirror earnedNotarization).2) ASSETCHAINS_CHAINID).1.

(** The four reasons of the specification to refuse. *)
Definition refused (externalSystem : CCurrencyDefinition)
           (earnedNotarization : CPBaaSNotarization) (notaryEvidence : CNotaryEvidence) : Prop :=
  msize (signatures notaryEvidence) = 0
  ∨ (exists id, is_Some (signatures notaryEvidence !! id) ∧ id ∉ notaries externalSystem)
  ∨ (exists id sig,
        signatures notaryEvidence !! id = Some sig
        ∧ CheckSignature sig (LookupIdentity id) [NotaryConfirmedKey] []
            (GetID externalSystem) "" (HashNotarization earnedNotarization)
          <> SIGNATURE_COMPLETE)
  ∨ (exists entry confirmedRoot,
        at_index (vtx (GetNotarizationData (GetID externalSystem)).2)
                 (lastConfirmed (GetNotarizationData (GetID externalSystem)).2) = Some entry
        ∧ proofRoots entry.2 !! ASSETCHAINS_CHAINID = Some confirmedRoot
        ∧ rootHeight (ourRoot_of earnedNotarization) <= rootHeight confirmedRoot).

Lemma checks_fail externalSystem earnedNotarization notaryEvidence :
  history_ok (GetID externalSystem) ->
  refused externalSystem earnedNotarization notaryEvidence ->
  exists msg, checks externalSystem earnedNotarization notaryEvidence = Fail msg.
Proof.
  intros Hhist Href. unfold checks.
  destruct (Z.eqb_spec (msize (signatures notaryEvidence)) 0) as [Hz|Hnz]; cbn; [eauto|].
  destruct Href as [Hz|Href]; [contradiction|].
  pose proof (mirror_defined earnedNotarization) as Hmd.
  destruct (mirror earnedNotarization) as [mirrored|msg|] eqn:Em; cbn; [|eauto|contradiction].
  apply mirror_done in Em. unfold ourRoot_of in Href. rewrite <- Em in Href.
  destruct (index_or_insert (proofRoots mirrored) ASSETCHAINS_CHAINID) as [ourRoot roots].
  cbn [fst] in Href.
  pose proof (later_than_confirmed_defined (GetID externalSystem) ourRoot Hhist) as Hld.
  destruct (later_than_confirmed (GetID externalSystem) ourRoot) as [[]|msg|] eqn:El; cbn;
    [|eauto|contradiction].
  assert (Hsig : exists oneSig,
             oneSig ∈ entries (signatures notaryEvidence)
             ∧ bad_signature (list_to_set (notaries externalSystem)) (GetID externalSystem)
                 (HashNotarization earnedNotarization) oneSig).
  { destruct Href as [(id & [sig Hs] & Hout)|[(id & sig & Hs & Hc)|(entry & r & He & Hr & Hle)]].
    - exists (id, sig). split; [apply entries_elem; exact Hs|].
      left. cbn. rewrite elem_of_list_to_set. exact Hout.
    - exists (id, sig). split; [apply entries_elem; exact Hs|]. right. exact Hc.
    - pose proof (later_than_confirmed_done _ _ _ _ He Hr El). lia. }
  destruct Hsig as (oneSig & Hin & Hbad).
  destruct (check_signatures_fails _ _ _ _ _ Hin Hbad) as [msg ->]. cbn. eauto.
Qed.

(** C2.  With a well-formed notarization history, the call returns false
    with an error and hands the builder back as it got it whenever the
    evidence holds no signature, or a signature is keyed by an identity that
    is no notary of the external system, or a signature does not check
    [SIGNATURE_COMPLETE] over the hash of the earned notarization, or the
    proof root of this chain in the earned notarization is not strictly
    higher than the one in the last confirmed notarization. *)
Theorem CreateAcceptedNotarization_refuses (externalSystem : CCurrencyDefinition)
        (earnedNotarization : CPBaaSNotarization) (notaryEvidence : CNotaryEvidence)
        (txBuilder : TransactionBuilder) :
  history_ok (GetID externalSystem) ->
  refused externalSystem earnedNotarization notaryEvidence ->
  exists msg,
    CreateAcceptedNotarization externalSystem earnedNotarization notaryEvidence txBuilder
    = Returned false (Some msg) txBuilder.
Proof.
  intros Hhist Href.
  destruct (checks_fail externalSystem earnedNotarization notaryEvidence Hhist Href) as [msg Hc].
  exists msg. unfold CreateAcceptedNotarization. rewrite Hc. reflexivity.
Qed.

(** No error ever leaves anything in the builder. *)
Lemma CreateAcceptedNotarization_error_keeps_builder externalSystem earnedNotarization
      notaryEvidence txBuilder error txBuilder' :
  CreateAcceptedNotarization externalSystem earnedNotarization notaryEvidence txBuilder
  = Returned false error txBuilder' ->
  txBuilder' = txBuilder.
Proof.
  unfold CreateAcceptedNotarization.
  destruct (checks externalSystem earnedNotarization notaryEvidence) as [c|msg|];
    [|intros [= _ <-]; reflexivity|discriminate].
  destruct (build externalSystem notaryEvidence c txBuilder) as [tb|msg|];
    [discriminate|intros [= _ <-]; reflexivity|discriminate].
Qed.

(** *** The finalization output *)

(** The finalization a builder ends with, when its last output is one. *)
Definition last_finalization (tb : TransactionBuilder) : option CObjectFinalization :=
  match last (mtx_vout tb) with
  | Some (FinalizationScript _ _ _ f, _) => Some f
  | _ => None
  end.

(** What the call appends when it succeeds for an external system whose
    protocol is not the notary-chain one: three outputs, the accepted
    notarization, the evidence and a finalization, in that order; the
    finalization is marked confirmed exactly when the evidence holds at
    least as many signatures as the external system has notaries, and when
    it is, it names the evidence output as its evidence. *)
Lemma accepted_finalization_output (externalSystem : CCurrencyDefinition)
        (earnedNotarization : CPBaaSNotarization) (notaryEvidence : CNotaryEvidence)
        (txBuilder txBuilder' : TransactionBuilder) :
  CreateAcceptedNotarization externalSystem earnedNotarization notaryEvidence txBuilder
  = Returned true None txBuilder' ->
  notarizationProtocol externalSystem <> NOTARIZATION_NOTARY_CHAINID ->
  exists nz f,
    mtx_vout txBuilder' =
      mtx_vout txBuilder ++
        [ (NotarizationScript EVAL_ACCEPTEDNOTARIZATION
             [DestContractKey EVAL_ACCEPTEDNOTARIZATION] 1 nz, 0);
          (EvidenceScript EVAL_NOTARY_EVIDENCE
             [DestContractKey EVAL_NOTARY_EVIDENCE] 1 notaryEvidence, DEFAULT_OUTPUT_VALUE);
          (FinalizationScript EVAL_FINALIZE_NOTARIZATION
             [DestContractKey EVAL_FINALIZE_NOTARIZATION] 1 f, 0) ]
    ∧ (of_confirmed f = true
       <-> vsize (notaries externalSystem) <= msize (signatures notaryEvidence))
    ∧ (of_confirmed f = true -> evidenceOutputs f = [vsize (mtx_vout txBuilder) + 1])
    ∧ output f = {| hash := 0; n := vsize (mtx_vout txBuilder) + 2 |}.
Proof.
  intros Hrun Hproto. unfold CreateAcceptedNotarization in Hrun.
  destruct (checks externalSystem earnedNotarization notaryEvidence) as [c|msg|];
    [|discriminate|discriminate].
  unfold build in Hrun.
  destruct (at_index (vout (lastTx c)) (lastTxOutNum c)) as [spent|]; cbn in Hrun; [|discriminate].
  destruct (Z.eqb_spec (notarizationProtocol externalSystem) NOTARIZATION_NOTARY_CHAINID)
    as [E|_]; [contradiction|].
  cbn in Hrun. injection Hrun as <-.
  unfold add_finalization, AddTransparentOutput, AddTransparentInput. cbn [mtx_vout tb_inputs].
  eexists _, _. split.
  { rewrite <- !app_assoc. cbn [app]. reflexivity. }
  assert (Hlen : forall (A : Type) (l : list A) (x y : A),
             vsize (l ++ [x; y]) = vsize l + 2).
  { intros A l x y. unfold vsize. rewrite length_app. cbn. lia. }
  rewrite !Hlen.
  destruct (Z.leb_spec (vsize (notaries externalSystem)) (msize (signatures notaryEvidence)))
    as [Hle|Hgt]; cbn.
  - repeat split; auto. intros _. f_equal. lia.
  - repeat split; try discriminate. intros; lia.
Qed.

(** *** What an accepted notarization has passed *)

Lemma require_done b msg : require b msg = Done () -> b = true.
Proof. destruct b; [reflexivity | discriminate]. Qed.

Lemma mirror_not_mirrored earnedNotarization mirrored :
  mirror earnedNotarization = Done mirrored -> fMirror (flags earnedNotarization) = false.
Proof.
  unfold mirror. destruct (fMirror (flags earnedNotarization)); [discriminate | reflexivity].
Qed.

(** The proof root of this chain in the last confirmed notarization of a
    system is below the root [ourRoot]. *)
Definition after_confirmed (SystemID : Z) (ourRoot : CProofRoot) : Prop :=
  let cnd := (GetNotarizationData SystemID).2 in
  exists entry confirmedRoot,
    at_index (vtx cnd) (lastConfirmed cnd) = Some entry
    ∧ proofRoots entry.2 !! ASSETCHAINS_CHAINID = Some confirmedRoot
    ∧ rootHeight confirmedRoot < rootHeight ourRoot.

Lemma later_than_confirmed_after SystemID ourRoot :
  later_than_confirmed SystemID ourRoot = Done () -> after_confirmed SystemID ourRoot.
Proof.
  unfold later_than_confirmed, after_confirmed.
  destruct (GetNotarizationData SystemID) as [ok cnd]. cbn [snd].
  destruct ok; cbn; [|discriminate].
  destruct (IsConfirmed cnd); cbn; [|discriminate].
  destruct (at_index (vtx cnd) (lastConfirmed cnd)) as [entry|]; cbn; [|discriminate].
  destruct (proofRoots entry.2 !! ASSETCHAINS_CHAINID) as [confirmedRoot|] eqn:Er; [|discriminate].
  destruct (Z.ltb_spec (rootHeight confirmedRoot) (rootHeight ourRoot)); [|discriminate].
  intros _. exists entry, confirmedRoot. auto.
Qed.

(** One signature as the loop of lines 783-804 wants it. *)
Definition good_signature (notaryList : list Z) (SystemID objHash : Z)
           (id : Z) (sig : CIdentitySignature) : Prop :=
  id ∈ notaryList
  ∧ idValidUnrevoked (LookupIdentity id) = true
  ∧ CheckSignature sig (LookupIdentity id) [NotaryConfirmedKey] [] SystemID "" objHash
    = SIGNATURE_COMPLETE.

Lemma check_signatures_done notaryList SystemID objHash sigs :
  check_signatures (list_to_set notaryList) SystemID objHash sigs = Done () ->
  Forall (fun oneSig => good_signature notaryList SystemID objHash oneSig.1 oneSig.2) sigs.
Proof.
  induction sigs as [|x rest IH]; [constructor|].
  cbn [check_signatures].
  destruct (bool_decide (x.1 ∈ (list_to_set notaryList : gset Z))) eqn:En; cbn; [|discriminate].
  destruct (idValidUnrevoked (LookupIdentity x.1)) eqn:Ev; cbn; [|discriminate].
  destruct (bool_decide (CheckSignature x.2 (LookupIdentity x.1) [NotaryConfirmedKey] []
                           SystemID "" objHash = SIGNATURE_COMPLETE)) eqn:Ec; cbn; [|discriminate].
  intros Hrest. constructor; [|exact (IH Hrest)].
  apply bool_decide_eq_true in En, Ec. rewrite elem_of_list_to_set in En.
  repeat split; assumption.
Qed.

(** The checks of lines 811-817 on the proof root of this chain. *)
Definition own_root_ok (ourRoot : CProofRoot) : Prop :=
  ProofRootIsValid ourRoot = true
  ∧ rootHeight ourRoot <= to_uint32 (ProofRoot.Height chainActive)
  ∧ (exists blk,
        ProofRoot.block_at chainActive (ProofRoot.to_int32 (rootHeight ourRoot)) = Some blk
        ∧ blockHash ourRoot = ProofRoot.GetBlockHash blk)
  ∧ stateRoot ourRoot
    = ProofRoot.GetRoot MMR MMVRoot
        (ProofRoot.resize MMR (GetMMV chainActive) (rootHeight ourRoot))
  ∧ (pr_type ourRoot = TYPE_PBAAS ∨ pr_type ourRoot = TYPE_ETHEREUM).

Lemma own_root_valid_ok SystemID newNotarization ourRoot :
  own_root_valid SystemID (to_uint32 (ProofRoot.Height chainActive)) newNotarization ourRoot
  = Done () ->
  own_root_ok ourRoot.
Proof.
  unfold own_root_valid, own_root_ok.
  destruct (bool_decide (is_Some (proofRoots newNotarization !! SystemID))); cbn;
    [|discriminate].
  destruct (bool_decide (is_Some (proofRoots newNotarization !! ASSETCHAINS_CHAINID))); cbn;
    [|discriminate].
  destruct (ProofRootIsValid ourRoot); cbn; [|discriminate].
  destruct (Z.leb_spec (rootHeight ourRoot) (to_uint32 (ProofRoot.Height chainActive))); cbn;
    [|discriminate].
  destruct (ProofRoot.block_at chainActive (ProofRoot.to_int32 (rootHeight ourRoot)))
    as [blk|]; cbn; [|discriminate].
  destruct (Z.eqb_spec (blockHash ourRoot) (ProofRoot.GetBlockHash blk)); cbn; [|discriminate].
  destruct (Z.eqb_spec (stateRoot ourRoot)
              (ProofRoot.GetRoot MMR MMVRoot
                 (ProofRoot.resize MMR (GetMMV chainActive) (rootHeight ourRoot)))); cbn;
    [|discriminate].
  destruct (Z.eqb_spec (pr_type ourRoot) TYPE_PBAAS);
    destruct (Z.eqb_spec (pr_type ourRoot) TYPE_ETHEREUM); cbn; try discriminate;
    intros _; repeat split; eauto.
Qed.

Lemma own_state_valid_ok earnedNotarization newNotarization ourRoot :
  own_state_valid earnedNotarization newNotarization ourRoot = Done () ->
  csValid (GetCurrencyState ASSETCHAINS_CHAINID (rootHeight ourRoot)) = true
  ∧ HashState (GetCurrencyState ASSETCHAINS_CHAINID (rootHeight ourRoot))
    = HashState (currencyState earnedNotarization).
Proof.
  unfold own_state_valid. intros H. apply require_done in H.
  apply andb_true_iff in H as [Hv Hh]. split; [exact Hv|]. apply Z.eqb_eq. exact Hh.
Qed.

(** The notarization the call emits: the mirrored copy of the earned one. *)
Definition emitted (earnedNotarization : CPBaaSNotarization) : CPBaaSNotarization :=
  let mirrored := (SetMirror earnedNotarization).2 in
  with_proofRoots mirrored (index_or_insert (proofRoots mirrored) ASSETCHAINS_CHAINID).2.

(** Everything a successful run of the checks has established. *)
Record Passed (externalSystem : CCurrencyDefinition) (earnedNotarization : CPBaaSNotarization)
       (notaryEvidence : CNotaryEvidence) (c : Checked) : Prop := {
  passed_signed : msize (signatures notaryEvidence) <> 0;
  passed_unmirrored : fMirror (flags earnedNotarization) = false;
  passed_later : after_confirmed (GetID externalSystem) (ourRoot_of earnedNotarization);
  passed_signatures :
    forall id sig, signatures notaryEvidence !! id = Some sig ->
      good_signature (notaries externalSystem) (GetID externalSystem)
        (HashNotarization earnedNotarization) id sig;
  passed_root : own_root_ok (ourRoot_of earnedNotarization);
  passed_state :
    csValid (GetCurrencyState ASSETCHAINS_CHAINID (rootHeight (ourRoot_of earnedNotarization)))
    = true
    ∧ HashState (GetCurrencyState ASSETCHAINS_CHAINID
                   (rootHeight (ourRoot_of earnedNotarization)))
      = HashState (currencyState earnedNotarization);
  passed_notarization : newNotarization c = emitted earnedNotarization;
  passed_height : height c = to_uint32 (ProofRoot.Height chainActive);
  passed_prior :
    GetLastUnspentNotarization (GetID externalSystem) EVAL_ACCEPTEDNOTARIZATION
    = (true, (lastTxId c, lastTxOutNum c, lastTx c))
}.

Lemma checks_passed externalSystem earnedNotarization notaryEvidence c :
  checks externalSystem earnedNotarization notaryEvidence = Done c ->
  Passed externalSystem earnedNotarization notaryEvidence c.
Proof.
  unfold checks.
  destruct (Z.eqb_spec (msize (signatures notaryEvidence)) 0) as [Hz|Hnz]; cbn; [discriminate|].
  destruct (mirror earnedNotarization) as [mirrored|msg|] eqn:Em; cbn; [|discriminate..].
  pose proof (mirror_not_mirrored _ _ Em) as Hunm.
  apply mirror_done in Em.
  assert (Hroot : ourRoot_of earnedNotarization
                  = (index_or_insert (proofRoots mirrored) ASSETCHAINS_CHAINID).1)
    by (unfold ourRoot_of; rewrite <- Em; reflexivity).
  assert (Hemit : emitted earnedNotarization
                  = with_proofRoots mirrored
                      (index_or_insert (proofRoots mirrored) ASSETCHAINS_CHAINID).2)
    by (unfold emitted; rewrite <- Em; reflexivity).
  destruct (index_or_insert (proofRoots mirrored) ASSETCHAINS_CHAINID) as [ourRoot roots].
  cbn [fst snd] in Hroot, Hemit.
  destruct (later_than_confirmed (GetID externalSystem) ourRoot) as [[]|msg|] eqn:El; cbn;
    [|discriminate..].
  destruct (check_signatures _ (GetID externalSystem) (HashNotarization earnedNotarization)
              (entries (signatures notaryEvidence))) as [[]|msg|] eqn:Es; cbn;
    [|discriminate..].
  destruct (own_root_valid (GetID externalSystem) _ (with_proofRoots mirrored roots) ourRoot)
    as [[]|msg|] eqn:Eo; cbn; [|discriminate..].
  destruct (own_state_valid earnedNotarization (with_proofRoots mirrored roots) ourRoot)
    as [[]|msg|] eqn:Est; cbn; [|discriminate..].
  destruct (check_currency_states _ _ _) as [[]|msg|]; cbn; [|discriminate..].
  destruct (check_proof_roots _ _) as [[]|msg|]; cbn; [|discriminate..].
  destruct (GetLastUnspentNotarization (GetID externalSystem) EVAL_ACCEPTEDNOTARIZATION)
    as [ok [[txid outNum] tx]] eqn:Eg.
  destruct ok; cbn; [|discriminate].
  intros [= <-]. cbn.
  apply check_signatures_done in Es. rewrite Forall_forall in Es.
  split; cbn; rewrite ?Hroot, ?Hemit; try reflexivity; try assumption.
  - apply later_than_confirmed_after. exact El.
  - intros id sig Hs. apply (Es (id, sig)). apply entries_elem. exact Hs.
  - apply (own_root_valid_ok _ _ _ Eo).
  - apply (own_state_valid_ok _ _ _ Est).
Qed.

(** X9.  A call that succeeds has seen: evidence with at least one
    signature; an earned notarization that was not yet mirrored; every
    signature of the evidence keyed by a notary of the external system whose
    identity is valid and unrevoked, and checking [SIGNATURE_COMPLETE] over
    the hash of the earned notarization; a proof root of this chain that is
    strictly above the one of the last confirmed notarization, valid, not
    above the height of the active chain, with the block hash of the active
    chain at its height and the root of the chain's range resized to its
    height; and the currency state this chain had at that height. *)
Theorem CreateAcceptedNotarization_accepts_only externalSystem earnedNotarization
        notaryEvidence txBuilder txBuilder' :
  CreateAcceptedNotarization externalSystem earnedNotarization notaryEvidence txBuilder
  = Returned true None txBuilder' ->
  msize (signatures notaryEvidence) <> 0
  ∧ fMirror (flags earnedNotarization) = false
  ∧ (forall id sig, signatures notaryEvidence !! id = Some sig ->
       good_signature (notaries externalSystem) (GetID externalSystem)
         (HashNotarization earnedNotarization) id sig)
  ∧ after_confirmed (GetID externalSystem) (ourRoot_of earnedNotarization)
  ∧ own_root_ok (ourRoot_of earnedNotarization)
  ∧ csValid (GetCurrencyState ASSETCHAINS_CHAINID (rootHeight (ourRoot_of earnedNotarization)))
    = true
  ∧ HashState (GetCurrencyState ASSETCHAINS_CHAINID (rootHeight (ourRoot_of earnedNotarization)))
    = HashState (currencyState earnedNotarization).
Proof.
  unfold CreateAcceptedNotarization.
  destruct (checks externalSystem earnedNotarization notaryEvidence) as [c|msg|] eqn:Ec;
    [|discriminate..].
  intros _. apply checks_passed in Ec.
  destruct Ec as [Hsigned Hunm Hlater Hsigs Hroot [Hvalid Hhash] _ _ _].
  exact (conj Hsigned (conj Hunm (conj Hsigs (conj Hlater (conj Hroot (conj Hvalid Hhash)))))).
Qed.

(** The finalization of lines 942-947 for a builder that held [k] outputs
    before the call. *)
Definition finalization_for (externalSystem : CCurrencyDefinition)
           (notaryEvidence : CNotaryEvidence) (k : Z) : CObjectFinalization :=
  let fin := {| of_version := FINALIZATION_VERSION_CURRENT;
                finalizationType := FINALIZE_NOTARIZATION;
                of_confirmed := false;
                of_currencyID := VERUS_CHAINID;
                output := {| hash := 0; n := k + 2 |};
                evidenceInputs := []; evidenceOutputs := [];
                minFinalizationHeight :=
                  to_uint32 (to_uint32 (ProofRoot.Height chainActive) + 15) |} in
  if vsize (notaries externalSystem) <=? msize (signatures notaryEvidence)
  then confirm_with fin (k + 1) else fin.

(** X10.  A call that succeeds adds exactly one input to the builder, the
    spend of the output [GetLastUnspentNotarization] found for the external
    system, and appends, in this order: the mirrored copy of the earned
    notarization as an accepted notarization, the evidence as handed in, and,
    unless the protocol of the external system is the notary-chain one, one
    finalization of type [FINALIZE_NOTARIZATION] for [VERUS_CHAINID], due 15
    blocks above the current height, whose output reference has a null hash
    and the index of the finalization output itself.  Under the notary-chain
    protocol the notarization is paid to the identity of the system and no
    finalization is made. *)
Theorem CreateAcceptedNotarization_spends_and_emits externalSystem earnedNotarization
        notaryEvidence txBuilder txBuilder' :
  CreateAcceptedNotarization externalSystem earnedNotarization notaryEvidence txBuilder
  = Returned true None txBuilder' ->
  let prior := GetLastUnspentNotarization (GetID externalSystem) EVAL_ACCEPTEDNOTARIZATION in
  let notaryChain := notarizationProtocol externalSystem =? NOTARIZATION_NOTARY_CHAINID in
  exists spent,
    prior.1 = true
    ∧ at_index (vout prior.2.2) prior.2.1.2 = Some spent
    ∧ tb_inputs txBuilder' =
        tb_inputs txBuilder ++
          [({| hash := prior.2.1.1; n := to_uint32 prior.2.1.2 |}, scriptPubKey spent, nValue spent)]
    ∧ mtx_vout txBuilder' =
        mtx_vout txBuilder ++
          [ (NotarizationScript EVAL_ACCEPTEDNOTARIZATION
               (if notaryChain then [DestIdentity (GetID externalSystem)]
                else [DestContractKey EVAL_ACCEPTEDNOTARIZATION]) 1
               (emitted earnedNotarization), 0);
            (EvidenceScript EVAL_NOTARY_EVIDENCE
               [DestContractKey EVAL_NOTARY_EVIDENCE] 1 notaryEvidence, DEFAULT_OUTPUT_VALUE) ]
          ++ (if notaryChain then []
              else [ (FinalizationScript EVAL_FINALIZE_NOTARIZATION
                        [DestContractKey EVAL_FINALIZE_NOTARIZATION] 1
                        (finalization_for externalSystem notaryEvidence
                           (vsize (mtx_vout txBuilder))), 0) ]).
Proof.
  unfold CreateAcceptedNotarization.
  destruct (checks externalSystem earnedNotarization notaryEvidence) as [c|msg|] eqn:Ec;
    [|discriminate..].
  apply checks_passed in Ec. destruct Ec as [_ _ _ _ _ _ Hnz Hh Hprior].
  intros Hrun. cbv zeta. unfold build in Hrun.
  destruct (at_index (vout (lastTx c)) (lastTxOutNum c)) as [spent|] eqn:Esp; cbn in Hrun;
    [|discriminate].
  rewrite Hprior. cbn [fst snd].
  exists spent. split; [reflexivity|]. split; [exact Esp|].
  assert (Hlen : forall (A : Type) (l : list A) (x y : A),
             vsize (l ++ [x; y]) = vsize l + 2).
  { intros A l x y. unfold vsize. rewrite length_app. cbn. lia. }
  destruct (notarizationProtocol externalSystem =? NOTARIZATION_NOTARY_CHAINID);
    cbn in Hrun; injection Hrun as <-.
  - cbn. rewrite Hnz, <- app_assoc. split; reflexivity.
  - unfold add_finalization, finalization_for. cbn. rewrite Hnz, Hh, <- !app_assoc. cbn.
    rewrite !Hlen.
    replace (vsize (mtx_vout txBuilder) + 2 - 1) with (vsize (mtx_vout txBuilder) + 1) by lia.
    split; reflexivity.
Qed.

(** X11.  The proof root [CProofRoot::GetProofRoot] makes for a height of
    the active chain passes every check [CreateAcceptedNotarization] applies
    to the proof root of this chain, provided it is valid and the
    notarization holds a proof root for both systems: its height is not
    above the chain's, its block hash is the chain's at that height, its
    state root is the root of the range resized to that height, and its type
    is the PBaaS one. *)
Theorem GetProofRoot_root_is_accepted (VERSION_CURRENT h SystemID : Z)
        (newNotarization : CPBaaSNotarization) (r : CProofRoot) :
  ProofRoot.chain_ok chainActive ->
  0 <= h <= ProofRoot.Height chainActive ->
  ProofRoot.GetProofRoot MMR MMVRoot GetMMV ASSETCHAINS_CHAINID CProofRoot_default
    VERSION_CURRENT TYPE_PBAAS chainActive h = Some r ->
  ProofRootIsValid r = true ->
  is_Some (proofRoots newNotarization !! SystemID) ->
  is_Some (proofRoots newNotarization !! ASSETCHAINS_CHAINID) ->
  own_root_valid SystemID (to_uint32 (ProofRoot.Height chainActive)) newNotarization r = Done ().
Proof.
  intros Hc Hh Hr Hv Hs Ha. unfold ProofRoot.chain_ok in Hc.
  unfold ProofRoot.GetProofRoot in Hr.
  rewrite ProofRoot.to_uint32_small in Hr by lia.
  destruct (Z.ltb_spec (ProofRoot.Height chainActive) h); [lia|].
  rewrite ProofRoot.to_int32_small in Hr by lia.
  destruct (ProofRoot.block_at chainActive h) as [blk|] eqn:Eb; [|discriminate].
  injection Hr as <-.
  unfold own_root_valid. cbn [rootHeight blockHash stateRoot pr_type ProofRoot.mkProofRoot].
  rewrite !bool_decide_eq_true_2 by assumption. cbn.
  cbn [ProofRoot.mkProofRoot] in Hv. rewrite Hv. cbn.
  rewrite ProofRoot.to_uint32_small by lia.
  destruct (Z.leb_spec h (ProofRoot.Height chainActive)); [|lia]. cbn.
  rewrite ProofRoot.to_int32_small by lia. rewrite Eb. cbn.
  rewrite !Z.eqb_refl. reflexivity.
Qed.

End Create.

(** *** The scenario of the specification

    This chain is system 1 and stands at height 100; block [i] has hash
    [1000 + i] and the root of its range resized to [sz] elements is
    [5000 + sz].  The last confirmed notarization of system 5 holds a proof
    root of this chain at height 90. *)

Definition block (i : Z) : ProofRoot.CBlockIndex :=
  {| ProofRoot.GetBlockHash := 1000 + i; ProofRoot.CompactChainPower := i |}.

Definition chain100 : ProofRoot.CChain := {| ProofRoot.vChain := block <$> seqZ 0 101 |}.

Definition root_at (system h : Z) : CProofRoot :=
  {| pr_version := 1; pr_type := 1; pr_systemID := system; rootHeight := h;
     stateRoot := 5000 + h; blockHash := 1000 + h; compactPower := h |}.

Definition notarization_with (h : Z) (roots : gmap Z CProofRoot) : CPBaaSNotarization :=
  {| nVersion := 1; flags := FLAGS_NONE; currencyID := 5; notarizationHeight := h;
     currencyState := TxDecode.plain_state; prevNotarization := CUTXORef_default;
     hashPrevNotarization := 0; prevHeight := 0; currencyStates := ∅; proofRoots := roots |}.

(** The earned notarization of system 5 whose proof root of this chain is at height [h]. *)
Definition earned (h : Z) : CPBaaSNotarization :=
  notarization_with 40 (<[1 := root_at 1 h]> (<[5 := root_at 5 40]> ∅)).

Definition history : CChainNotarizationData :=
  {| cnd_version := 1;
     vtx := [ ({| hash := 2; n := 0 |}, notarization_with 30 (<[1 := root_at 1 90]> ∅)) ];
     forks := [[0]]; lastConfirmed := 0; bestChain := 0 |}.

Definition no_history : CChainNotarizationData :=
  {| cnd_version := 0; vtx := []; forks := []; lastConfirmed := -1; bestChain := 0 |}.

Definition GetNotarizationData (id : Z) : bool * CChainNotarizationData :=
  if id =? 5 then (true, history) else (false, no_history).

Definition IsConfirmed (cnd : CChainNotarizationData) : bool := negb (lastConfirmed cnd =? -1).

Definition SetMirror (nz : CPBaaSNotarization) : bool * CPBaaSNotarization :=
  (true,
   {| nVersion := nVersion nz;
      flags := {| fDefinitionNotarization := fDefinitionNotarization (flags nz);
                  fBlockOneNotarization := fBlockOneNotarization (flags nz);
                  fPreLaunch := fPreLaunch (flags nz);
                  fLaunchCleared := fLaunchCleared (flags nz);
                  fRefunding := fRefunding (flags nz);
                  fLaunchConfirmed := fLaunchConfirmed (flags nz);
                  fMirror := true;
                  fSameChain := fSameChain (flags nz) |};
      currencyID := currencyID nz; notarizationHeight := notarizationHeight nz;
      currencyState := currencyState nz; prevNotarization := prevNotarization nz;
      hashPrevNotarization := hashPrevNotarization nz; prevHeight := prevHeight nz;
      currencyStates := currencyStates nz; proofRoots := proofRoots nz |}).

(** A signature checks complete when its raw signatures recover to the
    primary addresses of a valid identity, one for one. *)
Definition CheckSignature (sig : CIdentitySignature) (identity : CIdentity)
           (vdxfCodes statements : list Z) (system : Z) (prefix : string) (msgHash : Z)
  : ESignatureVerification :=
  if idValid identity
     && bool_decide (Scenario.RecoverID msgHash <$> sig_signatures sig
                     = GetDestinationID <$> primaryAddresses identity)
  then SIGNATURE_COMPLETE else SIGNATURE_INVALID.

Definition currency1 : CCurrencyDefinition :=
  {| cdValid := true; GetID := 1; cdName := "one"; systemID := 1; launchSystemID := 1;
     startBlock := 0; notarizationProtocol := 1;
     notaries := []; minNotariesConfirm := 0;
     currencies := []; minPreconvert := []; maxPreconvert := []; contributions := [];
     IsFractional := false |}.

Definition GetCachedCurrency (id : Z) : CCurrencyDefinition :=
  if id =? 1 then currency1 else (Scenario.GetCurrencyDefinition id).2.

Definition prior_tx : CTransaction :=
  {| GetHash := 3; vout := [ {| scriptPubKey := ScriptPlain; nValue := 0 |} ] |}.

Definition no_outputs : TransactionBuilder := {| tb_inputs := []; mtx_vout := [] |}.

(** Evidence signed by all three notaries of currency 5, and evidence with a
    signature keyed by identity 66, which is none of them. *)
Definition three_of_three : CNotaryEvidence :=
  add_signature Scenario.two_of_three 12 (Scenario.signature_of 112).

Definition with_stranger : CNotaryEvidence :=
  add_signature Scenario.two_of_three 66 (Scenario.signature_of 166).

(** The call in this scenario. *)
Definition run (externalSystem : CCurrencyDefinition) (earnedNotarization : CPBaaSNotarization)
           (notaryEvidence : CNotaryEvidence) (txBuilder : TransactionBuilder) : Outcome :=
  CreateAcceptedNotarization 1 1 chain100 unit (fun _ sz => 5000 + sz)
    (fun c => {| ProofRoot.view_mmr := (); ProofRoot.view_size := vsize (ProofRoot.vChain c) |})
    SetMirror GetNotarizationData IsConfirmed (fun nz => notarizationHeight nz + 1)
    (fun id => Scenario.LookupIdentity id 100) CheckSignature 1
    ProofRoot.empty_root (fun r => negb (pr_version r =? 0)) 1 2
    (fun _ _ => TxDecode.plain_state) supply (fun _ => "state") GetCachedCurrency currency1
    (fun _ _ => (true, (3, 0, prior_tx))) 2 1 1 0
    externalSystem earnedNotarization notaryEvidence txBuilder.

(** Whether the call succeeded and, if so, whether the finalization it
    appended is marked confirmed. *)
Definition confirmed_finalization (o : Outcome) : option bool :=
  match o with
  | Returned true None tb => of_confirmed <$> last_finalization tb
  | _ => None
  end.

(** The end-to-end example of the specification, with every notary signing:
    a proof root at height 95 is accepted and the finalization is confirmed;
    one at height 85 is refused. *)
Example accept_at_95 :
  confirmed_finalization (run Scenario.currency5 (earned 95) three_of_three no_outputs)
  = Some true.
Proof. vm_compute. reflexivity. Qed.

Example refuse_at_85 :
  run Scenario.currency5 (earned 85) three_of_three no_outputs
  = Returned false
      (Some "CreateAcceptedNotarization: earned notarization proof root is not later than prior confirmed for this chain")
      no_outputs.
Proof. vm_compute. reflexivity. Qed.

Lemma history_ok_in_scenario : history_ok GetNotarizationData IsConfirmed 5.
Proof. unfold history_ok. cbn. intros _. eexists. reflexivity. Qed.

Lemma CreateAcceptedNotarization_refuses_witness :
  (exists msg, run Scenario.currency5 (earned 85) three_of_three no_outputs
               = Returned false (Some msg) no_outputs)
  ∧ (exists msg, run Scenario.currency5 (earned 95) with_stranger no_outputs
                 = Returned false (Some msg) no_outputs).
Proof.
  split.
  - unfold run. apply CreateAcceptedNotarization_refuses; [exact history_ok_in_scenario|].
    right. right. right.
    exists ({| hash := 2; n := 0 |}, notarization_with 30 (<[1 := root_at 1 90]> ∅)), (root_at 1 90).
    split; [reflexivity|]. split; [reflexivity|]. vm_compute. discriminate.
  - unfold run. apply CreateAcceptedNotarization_refuses; [exact history_ok_in_scenario|].
    right. left. exists 66. split.
    + exists (Scenario.signature_of 166). reflexivity.
    + cbn. intros Hin. repeat (apply elem_of_cons in Hin as [Hin|Hin]; [discriminate|]).
      apply elem_of_nil in Hin. exact Hin.
Defined.

(** C7, what the code does.  Two of the three notaries of currency 5 have
    signed, each signature checks complete, and the currency confirms with
    two, so the evidence meets the confirmation threshold; the call succeeds
    and appends a finalization, but the finalization is not marked confirmed:
    the count of signatures is compared with the number of notaries, 3, and
    not with [minNotariesConfirm]. *)
Theorem finalization_unconfirmed_at_threshold :
  confirmed_finalization (run Scenario.currency5 (earned 95) Scenario.two_of_three no_outputs)
  = Some false
  ∧ (minNotariesConfirm Scenario.currency5 <=? msize (signatures Scenario.two_of_three)) = true
  ∧ (notarizationProtocol Scenario.currency5 =? 2) = false.
Proof. vm_compute. repeat split; reflexivity. Qed.

Example accepted_finalization_output_at_95 :
  exists tb nz f,
    run Scenario.currency5 (earned 95) three_of_three no_outputs = Returned true None tb
    ∧ mtx_vout tb =
        [ (NotarizationScript EVAL_ACCEPTEDNOTARIZATION
             [DestContractKey EVAL_ACCEPTEDNOTARIZATION] 1 nz, 0);
          (EvidenceScript EVAL_NOTARY_EVIDENCE
             [DestContractKey EVAL_NOTARY_EVIDENCE] 1 three_of_three, 0);
          (FinalizationScript EVAL_FINALIZE_NOTARIZATION
             [DestContractKey EVAL_FINALIZE_NOTARIZATION] 1 f, 0) ]
    ∧ (of_confirmed f = true
       <-> vsize (notaries Scenario.currency5) <= msize (signatures three_of_three)).
Proof.
  destruct (run Scenario.currency5 (earned 95) three_of_three no_outputs) as [ok err tb|] eqn:Er;
    [|vm_compute in Er; discriminate].
  assert (Hok : ok = true) by (vm_compute in Er; congruence).
  assert (Herr : err = None) by (vm_compute in Er; congruence).
  subst ok err. pose proof Er as Hrun. unfold run in Er.
  apply accepted_finalization_output in Er; [|discriminate].
  destruct Er as (nz & f & Hout & Hconf & _ & _).
  exists tb, nz, f. split; [reflexivity|]. split; [exact Hout | exact Hconf].
Qed.

Lemma CreateAcceptedNotarization_error_keeps_builder_witness :
  exists error txBuilder',
    run Scenario.currency5 (earned 85) three_of_three no_outputs
    = Returned false error txBuilder'
    ∧ txBuilder' = no_outputs.
Proof.
  destruct (run Scenario.currency5 (earned 85) three_of_three no_outputs) as [ok error tb|]
    eqn:Er; [|vm_compute in Er; discriminate].
  assert (Hok : ok = false) by (vm_compute in Er; congruence).
  subst ok. exists error, tb. split; [reflexivity|].
  unfold run in Er. apply CreateAcceptedNotarization_error_keeps_builder in Er. exact Er.
Defined.

Lemma CreateAcceptedNotarization_accepts_only_witness :
  exists txBuilder',
    run Scenario.currency5 (earned 95) three_of_three no_outputs
    = Returned true None txBuilder'
    ∧ after_confirmed 1 GetNotarizationData 5
        (ourRoot_of 1 SetMirror ProofRoot.empty_root (earned 95))
    ∧ good_signature (fun id => Scenario.LookupIdentity id 100) CheckSignature 1
        [10; 11; 12] 5 41 12 (Scenario.signature_of 112).
Proof.
  destruct (run Scenario.currency5 (earned 95) three_of_three no_outputs) as [ok error tb|]
    eqn:Er; [|vm_compute in Er; discriminate].
  assert (Hok : ok = true) by (vm_compute in Er; congruence).
  assert (Herr : error = None) by (vm_compute in Er; congruence).
  subst ok error. exists tb. split; [reflexivity|].
  unfold run in Er. apply CreateAcceptedNotarization_accepts_only in Er.
  destruct Er as (_ & _ & Hsigs & Hlater & _).
  split; [exact Hlater|].
  apply (Hsigs 12 (Scenario.signature_of 112)). reflexivity.
Defined.

Lemma CreateAcceptedNotarization_spends_and_emits_witness :
  exists txBuilder' spent,
    run Scenario.currency5 (earned 95) three_of_three no_outputs
    = Returned true None txBuilder'
    ∧ tb_inputs txBuilder' = [({| hash := 3; n := 0 |}, scriptPubKey spent, nValue spent)]
    ∧ length (mtx_vout txBuilder') = 3%nat.
Proof.
  destruct (run Scenario.currency5 (earned 95) three_of_three no_outputs) as [ok error tb|]
    eqn:Er; [|vm_compute in Er; discriminate].
  assert (Hok : ok = true) by (vm_compute in Er; congruence).
  assert (Herr : error = None) by (vm_compute in Er; congruence).
  subst ok error.
  unfold run in Er. apply CreateAcceptedNotarization_spends_and_emits in Er.
  destruct Er as (spent & _ & _ & Hin & Hout).
  exists tb, spent. split; [reflexivity|]. split; [exact Hin|].
  rewrite Hout. reflexivity.
Defined.

(** The view of the scenario: all the blocks of the chain. *)
Definition GetMMV (c : ProofRoot.CChain) : ProofRoot.MMView unit :=
  {| ProofRoot.view_mmr := (); ProofRoot.view_size := vsize (ProofRoot.vChain c) |}.

Lemma GetProofRoot_root_is_accepted_witness :
  ProofRoot.chain_ok chain100
  ∧ ProofRoot.GetProofRoot unit (fun _ sz => 5000 + sz) GetMMV 1 ProofRoot.empty_root 1 1
      chain100 95 = Some (root_at 1 95)
  ∧ own_root_valid 1 chain100 unit (fun _ sz => 5000 + sz) GetMMV
      (fun r => negb (pr_version r =? 0)) 1 2 5 (to_uint32 (ProofRoot.Height chain100))
      (earned 95) (root_at 1 95) = Done ().
Proof.
  assert (Hh : ProofRoot.Height chain100 = 100) by (vm_compute; reflexivity).
  assert (Hc : ProofRoot.chain_ok chain100)
    by (unfold ProofRoot.chain_ok; rewrite Hh; lia).
  assert (Hr : ProofRoot.GetProofRoot unit (fun _ sz => 5000 + sz) GetMMV 1
                 ProofRoot.empty_root 1 1 chain100 95 = Some (root_at 1 95))
    by (vm_compute; reflexivity).
  split; [exact Hc|]. split; [exact Hr|].
  apply (GetProofRoot_root_is_accepted 1 chain100 unit (fun _ sz => 5000 + sz) GetMMV
           ProofRoot.empty_root (fun r => negb (pr_version r =? 0)) 1 2 1 95 5 (earned 95)
           (root_at 1 95) Hc).
  - rewrite Hh. lia.
  - exact Hr.
  - reflexivity.
  - exists (root_at 5 40). reflexivity.
  - exists (root_at 1 95). reflexivity.
Defined.

End Accepted.

(** * The launch transition: [CPBaaSNotarization::NextNotarizationInfo] *)

(** [CReserveTransfer]: the two flags the transition asks for, the first
    currency and value, and [rtRest] for everything else it carries. *)
Record CReserveTransfer := {
  IsPreConversion : bool;
  IsConversion : bool;
  FirstCurrency : uint160;
  FirstValue : Z;
  rtRest : Z
}.

(** [CCurrencyValueMap]. *)
Record CCurrencyValueMap := {
  valueMap : gmap Z Z
}.

Definition CCurrencyValueMap_default : CCurrencyValueMap := {| valueMap := ∅ |}.

(** The in-out arguments the import engine writes. *)
Record ImportIO := {
  importOutputs : list CTxOut;
  importedCurrency : CCurrencyValueMap;
  gatewayDepositsUsed : CCurrencyValueMap;
  spentCurrencyOut : CCurrencyValueMap
}.

(** Two's complement wrap of an [int64_t] result. *)
Definition wrap_int64 (x : Z) : Z := (x + 2 ^ 63) mod 2 ^ 64 - 2 ^ 63.

(** The setters of the notarization flags. *)
Definition with_flags (nz : CPBaaSNotarization) (f : NotarizationFlags) : CPBaaSNotarization :=
  {| nVersion := nVersion nz; flags := f; currencyID := currencyID nz;
     notarizationHeight := notarizationHeight nz; currencyState := currencyState nz;
     prevNotarization := prevNotarization nz; hashPrevNotarization := hashPrevNotarization nz;
     prevHeight := prevHeight nz; currencyStates := currencyStates nz;
     proofRoots := proofRoots nz |}.

Definition with_currencyState (nz : CPBaaSNotarization) (st : CCoinbaseCurrencyState)
  : CPBaaSNotarization :=
  {| nVersion := nVersion nz; flags := flags nz; currencyID := currencyID nz;
     notarizationHeight := notarizationHeight nz; currencyState := st;
     prevNotarization := prevNotarization nz; hashPrevNotarization := hashPrevNotarization nz;
     prevHeight := prevHeight nz; currencyStates := currencyStates nz;
     proofRoots := proofRoots nz |}.

Definition SetDefinitionNotarization (b : bool) (nz : CPBaaSNotarization) : CPBaaSNotarization :=
  with_flags nz
    {| fDefinitionNotarization := b;
       fBlockOneNotarization := fBlockOneNotarization (flags nz);
       fPreLaunch := fPreLaunch (flags nz); fLaunchCleared := fLaunchCleared (flags nz);
       fRefunding := fRefunding (flags nz); fLaunchConfirmed := fLaunchConfirmed (flags nz);
       fMirror := fMirror (flags nz); fSameChain := fSameChain (flags nz) |}.

Definition SetPreLaunch (b : bool) (nz : CPBaaSNotarization) : CPBaaSNotarization :=
  with_flags nz
    {| fDefinitionNotarization := fDefinitionNotarization (flags nz);
       fBlockOneNotarization := fBlockOneNotarization (flags nz);
       fPreLaunch := b; fLaunchCleared := fLaunchCleared (flags nz);
       fRefunding := fRefunding (flags nz); fLaunchConfirmed := fLaunchConfirmed (flags nz);
       fMirror := fMirror (flags nz); fSameChain := fSameChain (flags nz) |}.

Definition SetLaunchCleared (b : bool) (nz : CPBaaSNotarization) : CPBaaSNotarization :=
  with_flags nz
    {| fDefinitionNotarization := fDefinitionNotarization (flags nz);
       fBlockOneNotarization := fBlockOneNotarization (flags nz);
       fPreLaunch := fPreLaunch (flags nz); fLaunchCleared := b;
       fRefunding := fRefunding (flags nz); fLaunchConfirmed := fLaunchConfirmed (flags nz);
       fMirror := fMirror (flags nz); fSameChain := fSameChain (flags nz) |}.

Definition SetRefunding (b : bool) (nz : CPBaaSNotarization) : CPBaaSNotarization :=
  with_flags nz
    {| fDefinitionNotarization := fDefinitionNotarization (flags nz);
       fBlockOneNotarization := fBlockOneNotarization (flags nz);
       fPreLaunch := fPreLaunch (flags nz); fLaunchCleared := fLaunchCleared (flags nz);
       fRefunding := b; fLaunchConfirmed := fLaunchConfirmed (flags nz);
       fMirror := fMirror (flags nz); fSameChain := fSameChain (flags nz) |}.

Definition SetLaunchConfirmed (b : bool) (nz : CPBaaSNotarization) : CPBaaSNotarization :=
  with_flags nz
    {| fDefinitionNotarization := fDefinitionNotarization (flags nz);
       fBlockOneNotarization := fBlockOneNotarization (flags nz);
       fPreLaunch := fPreLaunch (flags nz); fLaunchCleared := fLaunchCleared (flags nz);
       fRefunding := fRefunding (flags nz); fLaunchConfirmed := b;
       fMirror := fMirror (flags nz); fSameChain := fSameChain (flags nz) |}.

Definition SetSameChain (b : bool) (nz : CPBaaSNotarization) : CPBaaSNotarization :=
  with_flags nz
    {| fDefinitionNotarization := fDefinitionNotarization (flags nz);
       fBlockOneNotarization := fBlockOneNotarization (flags nz);
       fPreLaunch := fPreLaunch (flags nz); fLaunchCleared := fLaunchCleared (flags nz);
       fRefunding := fRefunding (flags nz); fLaunchConfirmed := fLaunchConfirmed (flags nz);
       fMirror := fMirror (flags nz); fSameChain := b |}.

(** The setters of a currency state. *)
Definition with_csFlags (st : CCoinbaseCurrencyState) (f : CurrencyStateFlags)
  : CCoinbaseCurrencyState :=
  {| csValid := csValid st; csFlags := f; supply := supply st; reserves := reserves st;
     conversionPrice := conversionPrice st; viaConversionPrice := viaConversionPrice st;
     csRest := csRest st |}.

Definition csSetPrelaunch (b : bool) (st : CCoinbaseCurrencyState) : CCoinbaseCurrencyState :=
  with_csFlags st
    {| csPrelaunch := b; csLaunchClear := csLaunchClear (csFlags st);
       csRefunding := csRefunding (csFlags st);
       csLaunchConfirmed := csLaunchConfirmed (csFlags st);
       csLaunchCompleteMarker := csLaunchCompleteMarker (csFlags st) |}.

Definition csSetLaunchClear (b : bool) (st : CCoinbaseCurrencyState) : CCoinbaseCurrencyState :=
  with_csFlags st
    {| csPrelaunch := csPrelaunch (csFlags st); csLaunchClear := b;
       csRefunding := csRefunding (csFlags st);
       csLaunchConfirmed := csLaunchConfirmed (csFlags st);
       csLaunchCompleteMarker := csLaunchCompleteMarker (csFlags st) |}.

Definition csSetRefunding (b : bool) (st : CCoinbaseCurrencyState) : CCoinbaseCurrencyState :=
  with_csFlags st
    {| csPrelaunch := csPrelaunch (csFlags st); csLaunchClear := csLaunchClear (csFlags st);
       csRefunding := b;
       csLaunchConfirmed := csLaunchConfirmed (csFlags st);
       csLaunchCompleteMarker := csLaunchCompleteMarker (csFlags st) |}.

Definition csSetLaunchConfirmed (b : bool) (st : CCoinbaseCurrencyState) : CCoinbaseCurrencyState :=
  with_csFlags st
    {| csPrelaunch := csPrelaunch (csFlags st); csLaunchClear := csLaunchClear (csFlags st);
       csRefunding := csRefunding (csFlags st);
       csLaunchConfirmed := b;
       csLaunchCompleteMarker := csLaunchCompleteMarker (csFlags st) |}.

Definition csSetLaunchCompleteMarker (b : bool) (st : CCoinbaseCurrencyState)
  : CCoinbaseCurrencyState :=
  with_csFlags st
    {| csPrelaunch := csPrelaunch (csFlags st); csLaunchClear := csLaunchClear (csFlags st);
       csRefunding := csRefunding (csFlags st);
       csLaunchConfirmed := csLaunchConfirmed (csFlags st);
       csLaunchCompleteMarker := b |}.

Definition with_supply (st : CCoinbaseCurrencyState) (s : Z) : CCoinbaseCurrencyState :=
  {| csValid := csValid st; csFlags := csFlags st; supply := s; reserves := reserves st;
     conversionPrice := conversionPrice st; viaConversionPrice := viaConversionPrice st;
     csRest := csRest st |}.

Definition with_reserves (st : CCoinbaseCurrencyState) (r : list Z) : CCoinbaseCurrencyState :=
  {| csValid := csValid st; csFlags := csFlags st; supply := supply st; reserves := r;
     conversionPrice := conversionPrice st; viaConversionPrice := viaConversionPrice st;
     csRest := csRest st |}.

Definition with_prices (st : CCoinbaseCurrencyState) (price via : list Z)
  : CCoinbaseCurrencyState :=
  {| csValid := csValid st; csFlags := csFlags st; supply := supply st; reserves := reserves st;
     conversionPrice := price; viaConversionPrice := via; csRest := csRest st |}.

Module Launch.
Section NextNotarization.

Variable ASSETCHAINS_CHAINID : uint160.
(** The hash writer of [CMMRNode] applied to a notarization and to the
    transfers of a batch, one after the other. *)
Variable HashNotarization : CPBaaSNotarization -> uint256.
Variable HashTransfers : list CReserveTransfer -> uint256.
Variable GetRefundTransfer : CReserveTransfer -> CReserveTransfer.
(** [CReserveTransactionDescriptor::CalculateConversionFee]. *)
Variable CalculateConversionFee : Z -> Z.
(** [CCurrencyValueMap(currencies, amounts)], [a + b], [a > b], [a < b] and [CanonicalMap()]. *)
Variable mkValueMap : list Z -> list Z -> CCurrencyValueMap.
Variable vm_add : CCurrencyValueMap -> CCurrencyValueMap -> CCurrencyValueMap.
Variable vm_gt : CCurrencyValueMap -> CCurrencyValueMap -> bool.
Variable vm_lt : CCurrencyValueMap -> CCurrencyValueMap -> bool.
Variable CanonicalMap : CCurrencyValueMap -> CCurrencyValueMap.
Variable RevertReservesAndSupply : CCoinbaseCurrencyState -> CCoinbaseCurrencyState.
Variable GetCachedCurrency : Z -> CCurrencyDefinition.
Variable ThisChain : CCurrencyDefinition.
(** [rtxd.AddReserveTransferImportOutputs(source, destSystem, destCurrency,
    importState, transfers, outputs, imported, depositsUsed, spent,
    &newState)] on a fresh descriptor: the answer, the four in-out arguments
    and the new state after the call. *)
Variable AddReserveTransferImportOutputs :
  CCurrencyDefinition -> CCurrencyDefinition -> CCurrencyDefinition ->
  CCoinbaseCurrencyState -> list CReserveTransfer -> ImportIO -> CCoinbaseCurrencyState ->
  bool * ImportIO * CCoinbaseCurrencyState.

(** Lines 418-426: the copy of this notarization the function works on. *)
Definition start (this : CPBaaSNotarization) (currentHeight : Z) : CPBaaSNotarization :=
  let nz := SetDefinitionNotarization false this in
  {| nVersion := nVersion nz; flags := flags nz; currencyID := currencyID nz;
     notarizationHeight := currentHeight;
     currencyState := currencyState nz;
     prevNotarization := CUTXORef_default;
     hashPrevNotarization := HashNotarization this;
     prevHeight := notarizationHeight nz;
     currencyStates := currencyStates nz; proofRoots := proofRoots nz |}.

(** The reserves a pre-conversion would bring the currency to (lines 456-458). *)
Definition newTotalReserves (destCurrency : CCurrencyDefinition)
           (newNotarization : CPBaaSNotarization) (reserveTransfer : CReserveTransfer)
  : CCurrencyValueMap :=
  let newReserveIn :=
    mkValueMap [FirstCurrency reserveTransfer]
      [wrap_int64 (FirstValue reserveTransfer
                   - CalculateConversionFee (FirstValue reserveTransfer))] in
  vm_add (mkValueMap (currencies destCurrency) (reserves (currencyState newNotarization)))
         newReserveIn.

(** Whether a pre-conversion goes over the maximum (line 459). *)
Definition over_maximum (destCurrency : CCurrencyDefinition)
           (newNotarization : CPBaaSNotarization) (reserveTransfer : CReserveTransfer) : bool :=
  negb (vsize (maxPreconvert destCurrency) =? 0)
  && vm_gt (newTotalReserves destCurrency newNotarization reserveTransfer)
           (mkValueMap (currencies destCurrency) (maxPreconvert destCurrency)).

(** The body of the loop over the export transfers (lines 445-474): what
    [exportTransfers[i]] holds after the pass. *)
Definition refund_transfer (destCurrency : CCurrencyDefinition) (lastExportHeight : Z)
           (newNotarization : CPBaaSNotarization) (reserveTransfer : CReserveTransfer)
  : CReserveTransfer :=
  if IsPreConversion reserveTransfer then
    if to_uint32 (startBlock destCurrency) <=? lastExportHeight
    then GetRefundTransfer reserveTransfer
    else if over_maximum destCurrency newNotarization reserveTransfer
    then GetRefundTransfer reserveTransfer
    else reserveTransfer
  else if IsConversion reserveTransfer then
    if negb (csLaunchCompleteMarker (csFlags (currencyState newNotarization)))
    then GetRefundTransfer reserveTransfer
    else reserveTransfer
  else reserveTransfer.

(** The loop: every element is rewritten on its own, the notarization is not
    written in between. *)
Definition refund_pass (destCurrency : CCurrencyDefinition) (lastExportHeight : Z)
           (newNotarization : CPBaaSNotarization) (exportTransfers : list CReserveTransfer)
  : list CReserveTransfer :=
  refund_transfer destCurrency lastExportHeight newNotarization <$> exportTransfers.

(** Lines 497-499 and 504-506: the currency state once the launch is cleared. *)
Definition cleared_state (st : CCoinbaseCurrencyState) : CCoinbaseCurrencyState :=
  csSetPrelaunch false (RevertReservesAndSupply (csSetLaunchClear true st)).

(** Line 511. *)
Definition preConvertedMap (destCurrency : CCurrencyDefinition) (st : CCoinbaseCurrencyState)
  : CCurrencyValueMap :=
  CanonicalMap (mkValueMap (currencies destCurrency) (reserves st)).

(** Lines 510-516. *)
Definition minPreMap (destCurrency : CCurrencyDefinition) : CCurrencyValueMap :=
  if negb (vsize (minPreconvert destCurrency) =? 0)
     && (vsize (minPreconvert destCurrency) =? vsize (currencies destCurrency))
  then CanonicalMap (mkValueMap (currencies destCurrency) (minPreconvert destCurrency))
  else CCurrencyValueMap_default.

(** Line 518: less than the minimum was pre-converted. *)
Definition below_minimum (destCurrency : CCurrencyDefinition) (st : CCoinbaseCurrencyState) : bool :=
  negb (msize (valueMap (minPreMap destCurrency)) =? 0)
  && vm_lt (preConvertedMap destCurrency st) (minPreMap destCurrency).

(** Lines 494-531: the launch-clear pass at the height before the start block. *)
Definition launch_clear (destCurrency : CCurrencyDefinition) (newNotarization : CPBaaSNotarization)
  : CPBaaSNotarization :=
  if fLaunchCleared (flags newNotarization) then
    let nz := SetPreLaunch false newNotarization in
    with_currencyState nz (cleared_state (currencyState nz))
  else
    let nz := SetLaunchCleared true newNotarization in
    let nz := with_currencyState nz (cleared_state (currencyState nz)) in
    if below_minimum destCurrency (currencyState nz) then
      let nz := with_currencyState nz (with_supply (currencyState nz) 0) in
      let nz := with_currencyState nz (csSetRefunding true (currencyState nz)) in
      SetRefunding true nz
    else
      let nz := SetLaunchConfirmed true nz in
      with_currencyState nz (csSetLaunchConfirmed true (currencyState nz)).

(** Line 544, for every index of [contributions].  An index past the end
    of the reserves is not modelled: the reserves are left as they are. *)
Fixpoint subtract_contributions (reserveList contributionList : list Z) : list Z :=
  match reserveList, contributionList with
  | r :: rs, c :: cs => wrap_int64 (r - c) :: subtract_contributions rs cs
  | rs, _ => rs
  end.

(** Lines 491-548: what happens to the copy up to the start block. *)
Definition before_launch (this : CPBaaSNotarization) (destCurrency : CCurrencyDefinition)
           (currentHeight : Z) (newNotarization : CPBaaSNotarization) : CPBaaSNotarization :=
  if (currentHeight =? to_uint32 (startBlock destCurrency - 1))
     && fPreLaunch (flags newNotarization)
  then launch_clear destCurrency newNotarization
  else if currentHeight <? to_uint32 (startBlock destCurrency - 1) then
    let nz := with_currencyState newNotarization
                (csSetPrelaunch true (currencyState newNotarization)) in
    if fDefinitionNotarization (flags this) then
      with_currencyState nz
        (with_reserves (currencyState nz)
           (subtract_contributions (reserves (currencyState nz)) (contributions destCurrency)))
    else nz
  else newNotarization.

(** What the caller gets back: the boolean, and every argument passed by
    reference as the call leaves it. *)
Record Result := {
  returned : bool;
  exportTransfers : list CReserveTransfer;
  transferHash : uint256;
  newNotarization : CPBaaSNotarization;
  io : ImportIO
}.

Definition with_importOutputs (x : ImportIO) (outs : list CTxOut) : ImportIO :=
  {| importOutputs := outs; importedCurrency := importedCurrency x;
     gatewayDepositsUsed := gatewayDepositsUsed x; spentCurrencyOut := spentCurrencyOut x |}.

Definition reset_imported (x : ImportIO) : ImportIO :=
  {| importOutputs := importOutputs x; importedCurrency := CCurrencyValueMap_default;
     gatewayDepositsUsed := CCurrencyValueMap_default; spentCurrencyOut := spentCurrencyOut x |}.

(** Lines 550-565: the import up to the start block. *)
Definition import_before_launch (sourceSystem destCurrency : CCurrencyDefinition)
           (transfers : list CReserveTransfer) (hashOut : Z)
           (nz : CPBaaSNotarization) (io0 : ImportIO) : Result :=
  let destSystem := GetCachedCurrency (systemID destCurrency) in
  let tempState := currencyState nz in
  let '(retVal, io1, tempState) :=
    AddReserveTransferImportOutputs sourceSystem destSystem destCurrency (currencyState nz)
      transfers io0 tempState in
  {| returned := retVal; exportTransfers := transfers; transferHash := hashOut;
     newNotarization := with_currencyState nz tempState; io := io1 |}.

(** Lines 569-622: the import once the currency has started. *)
Definition import_after_launch (this : CPBaaSNotarization)
           (sourceSystem destCurrency : CCurrencyDefinition)
           (transfers : list CReserveTransfer) (hashOut : Z)
           (nz : CPBaaSNotarization) (io0 : ImportIO) : Result :=
  let nz := with_currencyState nz (csSetLaunchCompleteMarker true (currencyState nz)) in
  let nz := with_currencyState nz (csSetLaunchClear false (currencyState nz)) in
  let nz := if negb (systemID destCurrency =? ASSETCHAINS_CHAINID)
            then SetSameChain false nz else nz in
  let '(isValidExport, io1, newState) :=
    AddReserveTransferImportOutputs sourceSystem ThisChain destCurrency (currencyState this)
      transfers (with_importOutputs io0 []) (currencyState nz) in
  let io1 := with_importOutputs io1 (importOutputs io0) in
  let nz := with_currencyState nz newState in
  if negb (csPrelaunch (csFlags (currencyState nz))) && isValidExport && IsFractional destCurrency
  then
    let tempCurState :=
      with_prices (currencyState this) (conversionPrice (currencyState nz))
        (viaConversionPrice (currencyState nz)) in
    let '(isValidExport, io2, newState) :=
      AddReserveTransferImportOutputs sourceSystem ThisChain destCurrency tempCurState
        transfers (reset_imported io1) (currencyState nz) in
    let nz := with_currencyState nz newState in
    let nz := if isValidExport
              then with_currencyState nz
                     (with_prices (currencyState nz) (conversionPrice tempCurState)
                        (viaConversionPrice tempCurState))
              else nz in
    {| returned := isValidExport; exportTransfers := transfers; transferHash := hashOut;
       newNotarization := nz; io := io2 |}
  else
    {| returned := isValidExport; exportTransfers := transfers; transferHash := hashOut;
       newNotarization := nz; io := io1 |}.

(** [CPBaaSNotarization::NextNotarizationInfo]; [transferHash0] and [io0]
    are what the arguments passed by reference held before the call. *)
Definition NextNotarizationInfo (this : CPBaaSNotarization)
           (sourceSystem destCurrency : CCurrencyDefinition)
           (lastExportHeight currentHeight : Z) (exportTransfers0 : list CReserveTransfer)
           (transferHash0 : Z) (io0 : ImportIO) : Result :=
  let sourceSystemID := GetID sourceSystem in
  let nz := start this currentHeight in
  if csRefunding (csFlags (currencyState this)) then
    {| returned := true; exportTransfers := exportTransfers0; transferHash := transferHash0;
       newNotarization := nz; io := io0 |}
  else
    let transfers := refund_pass destCurrency lastExportHeight nz exportTransfers0 in
    let hashOut := if negb (vsize exportTransfers0 =? 0)
                   then HashTransfers exportTransfers0 else transferHash0 in
    if (launchSystemID destCurrency =? sourceSystemID)
       && (currentHeight <=? to_uint32 (startBlock destCurrency - 1))
    then
      import_before_launch sourceSystem destCurrency transfers hashOut
        (before_launch this destCurrency currentHeight nz) io0
    else
      import_after_launch this sourceSystem destCurrency transfers hashOut nz io0.

(** *** What does not depend on the import engine *)

Lemma import_before_launch_fields sourceSystem destCurrency transfers hashOut nz io0 :
  let r := import_before_launch sourceSystem destCurrency transfers hashOut nz io0 in
  exportTransfers r = transfers ∧ transferHash r = hashOut
  ∧ flags (newNotarization r) = flags nz.
Proof.
  unfold import_before_launch.
  destruct (AddReserveTransferImportOutputs _ _ _ _ _ _ _) as [[retVal io1] tempState].
  repeat split.
Qed.

Lemma import_after_launch_fields this sourceSystem destCurrency transfers hashOut nz io0 :
  let r := import_after_launch this sourceSystem destCurrency transfers hashOut nz io0 in
  exportTransfers r = transfers ∧ transferHash r = hashOut.
Proof.
  unfold import_after_launch.
  destruct (AddReserveTransferImportOutputs _ _ _ _ _ _ _) as [[ok1 io1] st1].
  destruct (negb _ && ok1 && IsFractional destCurrency); [|split; reflexivity].
  destruct (AddReserveTransferImportOutputs _ _ _ _ _ _ _) as [[ok2 io2] st2].
  split; reflexivity.
Qed.

(** Unless this notarization is already refunding, the batch that comes back
    is the batch after the refund pass. *)
Lemma NextNotarizationInfo_transfers this sourceSystem destCurrency lastExportHeight
      currentHeight exportTransfers0 transferHash0 io0 :
  csRefunding (csFlags (currencyState this)) = false ->
  exportTransfers (NextNotarizationInfo this sourceSystem destCurrency lastExportHeight
                     currentHeight exportTransfers0 transferHash0 io0)
  = refund_pass destCurrency lastExportHeight (start this currentHeight) exportTransfers0.
Proof.
  intros Hnr. unfold NextNotarizationInfo. rewrite Hnr.
  destruct ((launchSystemID destCurrency =? GetID sourceSystem)
            && (currentHeight <=? to_uint32 (startBlock destCurrency - 1))).
  - apply import_before_launch_fields.
  - apply import_after_launch_fields.
Qed.

(** The two conditions of the specification under which a pre-conversion is
    refunded: it was mined at or after the start block, or it takes the
    reserves over the configured maximum. *)
Definition too_late_or_too_much (this : CPBaaSNotarization) (destCurrency : CCurrencyDefinition)
           (lastExportHeight : Z) (t : CReserveTransfer) : Prop :=
  to_uint32 (startBlock destCurrency) <= lastExportHeight
  ∨ (vsize (maxPreconvert destCurrency) <> 0
     ∧ vm_gt (vm_add (mkValueMap (currencies destCurrency) (reserves (currencyState this)))
                     (mkValueMap [FirstCurrency t]
                        [wrap_int64 (FirstValue t - CalculateConversionFee (FirstValue t))]))
             (mkValueMap (currencies destCurrency) (maxPreconvert destCurrency)) = true).

(** The replacement.  Unless the currency state of this notarization
    is already refunding, every pre-conversion of the batch that was mined
    at or after the start block of the currency, or that would take the
    reserves over the configured maximum, comes back replaced in place by its
    refund form. *)
Theorem late_or_excess_preconversion_refunded (this : CPBaaSNotarization)
        (sourceSystem destCurrency : CCurrencyDefinition)
        (lastExportHeight currentHeight : Z) (exportTransfers0 : list CReserveTransfer)
        (transferHash0 : Z) (io0 : ImportIO) (i : nat) (t : CReserveTransfer) :
  csRefunding (csFlags (currencyState this)) = false ->
  exportTransfers0 !! i = Some t ->
  IsPreConversion t = true ->
  too_late_or_too_much this destCurrency lastExportHeight t ->
  exportTransfers (NextNotarizationInfo this sourceSystem destCurrency lastExportHeight
                     currentHeight exportTransfers0 transferHash0 io0) !! i
  = Some (GetRefundTransfer t).
Proof.
  intros Hnr Hi Hpre Hcond.
  rewrite NextNotarizationInfo_transfers by exact Hnr.
  unfold refund_pass. rewrite list_lookup_fmap, Hi. cbn. f_equal.
  unfold refund_transfer. rewrite Hpre.
  destruct Hcond as [Hlate|[Hmax Hgt]].
  - destruct (Z.leb_spec (to_uint32 (startBlock destCurrency)) lastExportHeight); [reflexivity|lia].
  - destruct (to_uint32 (startBlock destCurrency) <=? lastExportHeight); [reflexivity|].
    unfold over_maximum, newTotalReserves.
    destruct (Z.eqb_spec (vsize (maxPreconvert destCurrency)) 0); [contradiction|].
    cbn [negb andb currencyState start SetDefinitionNotarization with_flags].
    rewrite Hgt. reflexivity.
Qed.

(** Modelled from the spec: [CReserveTransfer::GetRefundTransfer] and the
    import engine, which decide what a transfer does to the reserves and
    what it pays back, are not in src.  [reserveContribution t] is what the
    import of [t] adds to the reserves of the currency, [returnedToSender t]
    what it pays back to the sender of [t]. *)
Variable reserveContribution : CReserveTransfer -> Z.
Variable returnedToSender : CReserveTransfer -> Z.



(** If this notarization is already refunding, nothing of the batch is touched. *)
Lemma NextNotarizationInfo_refunding this sourceSystem destCurrency lastExportHeight
      currentHeight exportTransfers0 transferHash0 io0 :
  csRefunding (csFlags (currencyState this)) = true ->
  NextNotarizationInfo this sourceSystem destCurrency lastExportHeight currentHeight
    exportTransfers0 transferHash0 io0
  = {| returned := true; exportTransfers := exportTransfers0; transferHash := transferHash0;
       newNotarization := start this currentHeight; io := io0 |}.
Proof. intros Hr. unfold NextNotarizationInfo. rewrite Hr. reflexivity. Qed.

(** *** The launch-clear pass *)

(** The pass that decides is the one at the height before the start block,
    for a launch from the source system, on a notarization that is in
    pre-launch, not yet cleared and not refunding. *)
Definition deciding_pass (this : CPBaaSNotarization)
           (sourceSystem destCurrency : CCurrencyDefinition) (currentHeight : Z) : Prop :=
  csRefunding (csFlags (currencyState this)) = false
  ∧ launchSystemID destCurrency = GetID sourceSystem
  ∧ currentHeight = to_uint32 (startBlock destCurrency - 1)
  ∧ fPreLaunch (flags this) = true
  ∧ fLaunchCleared (flags this) = false.

(** The currency configures a minimum for each of its currencies, and the
    minimum is not empty once canonical. *)
Definition minimum_configured (destCurrency : CCurrencyDefinition) : Prop :=
  vsize (minPreconvert destCurrency) <> 0
  ∧ vsize (minPreconvert destCurrency) = vsize (currencies destCurrency)
  ∧ msize (valueMap (CanonicalMap (mkValueMap (currencies destCurrency)
                                     (minPreconvert destCurrency)))) <> 0.

Lemma minPreMap_configured destCurrency :
  minimum_configured destCurrency ->
  minPreMap destCurrency
  = CanonicalMap (mkValueMap (currencies destCurrency) (minPreconvert destCurrency)).
Proof.
  intros (Hnz & Heq & _). unfold minPreMap.
  destruct (Z.eqb_spec (vsize (minPreconvert destCurrency)) 0); [contradiction|].
  rewrite Heq, Z.eqb_refl. reflexivity.
Qed.

(** The decision, before the import.  In the deciding pass, the notarization
    handed to the import engine,
    [handed], is such that: if a minimum is configured and the canonical map
    of the pre-converted reserves is below the canonical minimum, its
    currency state has supply 0 and is refunding, and the notarization is
    refunding; if the reserves are not below the minimum, the notarization
    and its currency state are launch-confirmed instead.  The flags of the
    notarization are those the call returns. *)
Theorem launch_clear_decides (this : CPBaaSNotarization)
        (sourceSystem destCurrency : CCurrencyDefinition)
        (lastExportHeight currentHeight : Z) (exportTransfers0 : list CReserveTransfer)
        (transferHash0 : Z) (io0 : ImportIO) :
  deciding_pass this sourceSystem destCurrency currentHeight ->
  let handed := before_launch this destCurrency currentHeight (start this currentHeight) in
  let r := NextNotarizationInfo this sourceSystem destCurrency lastExportHeight currentHeight
             exportTransfers0 transferHash0 io0 in
  let preConverted := preConvertedMap destCurrency (cleared_state (currencyState this)) in
  r = import_before_launch sourceSystem destCurrency
        (refund_pass destCurrency lastExportHeight (start this currentHeight) exportTransfers0)
        (transferHash r) handed io0
  ∧ flags (newNotarization r) = flags handed
  ∧ (minimum_configured destCurrency ->
     vm_lt preConverted
           (CanonicalMap (mkValueMap (currencies destCurrency) (minPreconvert destCurrency)))
       = true ->
     supply (currencyState handed) = 0
     ∧ csRefunding (csFlags (currencyState handed)) = true
     ∧ fRefunding (flags handed) = true
     ∧ fLaunchConfirmed (flags handed) = fLaunchConfirmed (flags this)
     ∧ csLaunchConfirmed (csFlags (currencyState handed))
       = csLaunchConfirmed (csFlags (cleared_state (currencyState this))))
  ∧ (vm_lt preConverted (minPreMap destCurrency) = false ->
     fLaunchConfirmed (flags handed) = true
     ∧ csLaunchConfirmed (csFlags (currencyState handed)) = true
     ∧ supply (currencyState handed) = supply (cleared_state (currencyState this))
     ∧ fRefunding (flags handed) = fRefunding (flags this)
     ∧ csRefunding (csFlags (currencyState handed))
       = csRefunding (csFlags (cleared_state (currencyState this)))).
Proof.
  intros (Hnr & Hsys & Hh & Hpre & Hcl) handed r preConverted.
  assert (Hr : r = import_before_launch sourceSystem destCurrency
                     (refund_pass destCurrency lastExportHeight (start this currentHeight)
                        exportTransfers0)
                     (if negb (vsize exportTransfers0 =? 0)
                      then HashTransfers exportTransfers0 else transferHash0)
                     handed io0).
  { subst r handed. unfold NextNotarizationInfo. rewrite Hnr, Hsys, Z.eqb_refl, Hh.
    rewrite Z.leb_refl. reflexivity. }
  assert (Hhanded : handed = launch_clear destCurrency (start this currentHeight)).
  { subst handed. unfold before_launch. rewrite Hh, Z.eqb_refl. cbn. rewrite Hpre. reflexivity. }
  split; [|split; [|split]].
  - rewrite Hr at 1. f_equal. rewrite Hr.
    symmetry. apply import_before_launch_fields.
  - rewrite Hr. apply import_before_launch_fields.
  - intros Hconf Hlt. rewrite Hhanded. unfold launch_clear. cbn. rewrite Hcl.
    unfold below_minimum. rewrite (minPreMap_configured _ Hconf).
    destruct Hconf as (_ & _ & Hne).
    destruct (Z.eqb_spec (msize (valueMap (CanonicalMap (mkValueMap (currencies destCurrency)
                                             (minPreconvert destCurrency))))) 0);
      [contradiction|].
    unfold preConverted in Hlt. rewrite Hlt. cbn. repeat split.
  - intros Hlt. rewrite Hhanded. unfold launch_clear. cbn. rewrite Hcl.
    unfold below_minimum. unfold preConverted in Hlt. rewrite Hlt, andb_false_r.
    cbn. repeat split.
Qed.






(** *** The links of the new notarization *)

(** [nz] follows [this] at [currentHeight]: it counts from the height of
    [this], carries the hash of [this], names no prior output, is no
    definition notarization, and has the version, currency, currency states,
    proof roots and the block-one and mirror flags of [this]. *)
Definition follows (this : CPBaaSNotarization) (currentHeight : Z) (nz : CPBaaSNotarization)
  : Prop :=
  nVersion nz = nVersion this ∧ currencyID nz = currencyID this
  ∧ notarizationHeight nz = currentHeight
  ∧ prevHeight nz = notarizationHeight this
  ∧ hashPrevNotarization nz = HashNotarization this
  ∧ prevNotarization nz = CUTXORef_default
  ∧ currencyStates nz = currencyStates this ∧ proofRoots nz = proofRoots this
  ∧ fDefinitionNotarization (flags nz) = false
  ∧ fBlockOneNotarization (flags nz) = fBlockOneNotarization (flags this)
  ∧ fMirror (flags nz) = fMirror (flags this).

Lemma follows_start this currentHeight : follows this currentHeight (start this currentHeight).
Proof. unfold follows, start. cbn. repeat split. Qed.

Lemma follows_with_currencyState this h nz st :
  follows this h nz -> follows this h (with_currencyState nz st).
Proof. unfold follows. cbn. tauto. Qed.

Lemma follows_launch_clear this h destCurrency nz :
  follows this h nz -> follows this h (launch_clear destCurrency nz).
Proof.
  unfold follows, launch_clear.
  destruct (fLaunchCleared (flags nz)); [cbn; tauto|].
  destruct (below_minimum destCurrency _); cbn; tauto.
Qed.

Lemma follows_before_launch this h destCurrency nz :
  follows this h nz -> follows this h (before_launch this destCurrency h nz).
Proof.
  intros Hf. unfold before_launch.
  destruct ((h =? to_uint32 (startBlock destCurrency - 1)) && fPreLaunch (flags nz));
    [apply follows_launch_clear; exact Hf|].
  destruct (h <? to_uint32 (startBlock destCurrency - 1)); [|exact Hf].
  destruct (fDefinitionNotarization (flags this));
    repeat apply follows_with_currencyState; exact Hf.
Qed.

Lemma follows_import_before_launch this h sourceSystem destCurrency transfers hashOut nz io0 :
  follows this h nz ->
  follows this h (newNotarization (import_before_launch sourceSystem destCurrency transfers
                                     hashOut nz io0)).
Proof.
  intros Hf. unfold import_before_launch.
  destruct (AddReserveTransferImportOutputs _ _ _ _ _ _ _) as [[retVal io1] tempState].
  cbn [newNotarization]. apply follows_with_currencyState. exact Hf.
Qed.

Lemma follows_SetSameChain this h b nz :
  follows this h nz -> follows this h (SetSameChain b nz).
Proof. unfold follows. cbn. tauto. Qed.

Lemma follows_import_after_launch this h sourceSystem destCurrency transfers hashOut nz io0 :
  follows this h nz ->
  follows this h (newNotarization (import_after_launch this sourceSystem destCurrency transfers
                                     hashOut nz io0)).
Proof.
  intros Hf. unfold import_after_launch.
  set (nz1 := if negb (systemID destCurrency =? ASSETCHAINS_CHAINID) then _ else _).
  assert (Hnz : follows this h nz1).
  { subst nz1. destruct (negb (systemID destCurrency =? ASSETCHAINS_CHAINID));
      [apply follows_SetSameChain|]; repeat apply follows_with_currencyState; exact Hf. }
  clearbody nz1.
  destruct (AddReserveTransferImportOutputs _ _ _ _ _ _ _) as [[ok1 io1] st1].
  destruct (negb _ && ok1 && IsFractional destCurrency).
  - destruct (AddReserveTransferImportOutputs _ _ _ _ _ _ _) as [[ok2 io2] st2].
    cbn [newNotarization].
    destruct ok2; repeat apply follows_with_currencyState; exact Hnz.
  - cbn [newNotarization]. apply follows_with_currencyState. exact Hnz.
Qed.

(** X12.  Whatever the path a call takes, and whether it returns true or
    false, the notarization it hands back follows the one it was called on:
    its height is the current height, its previous height the height of
    this notarization, its previous hash the hash of this notarization, its
    previous output reference the null one, it is no definition
    notarization, and version, currency, currency states and proof roots
    are copied unchanged. *)
Theorem NextNotarizationInfo_follows this sourceSystem destCurrency lastExportHeight
        currentHeight exportTransfers0 transferHash0 io0 :
  follows this currentHeight
    (newNotarization (NextNotarizationInfo this sourceSystem destCurrency lastExportHeight
                        currentHeight exportTransfers0 transferHash0 io0)).
Proof.
  unfold NextNotarizationInfo.
  destruct (csRefunding (csFlags (currencyState this))); [apply follows_start|].
  destruct ((launchSystemID destCurrency =? GetID sourceSystem)
            && (currentHeight <=? to_uint32 (startBlock destCurrency - 1))).
  - apply follows_import_before_launch, follows_before_launch, follows_start.
  - apply follows_import_after_launch, follows_start.
Qed.

(** *** The batch that comes back *)

(** X13.  Unless this notarization is already refunding, a transfer of the
    batch that is a conversion and no pre-conversion comes back as it went
    in when the currency state of this notarization carries the
    launch-complete marker, and replaced in place by its refund form when it
    does not. *)
Theorem early_conversion_refunded this sourceSystem destCurrency lastExportHeight
        currentHeight exportTransfers0 transferHash0 io0 (i : nat) (t : CReserveTransfer) :
  csRefunding (csFlags (currencyState this)) = false ->
  exportTransfers0 !! i = Some t ->
  IsPreConversion t = false ->
  IsConversion t = true ->
  exportTransfers (NextNotarizationInfo this sourceSystem destCurrency lastExportHeight
                     currentHeight exportTransfers0 transferHash0 io0) !! i
  = Some (if csLaunchCompleteMarker (csFlags (currencyState this))
          then t else GetRefundTransfer t).
Proof.
  intros Hnr Hi Hpre Hconv.
  rewrite NextNotarizationInfo_transfers by exact Hnr.
  unfold refund_pass. rewrite list_lookup_fmap, Hi. cbn. f_equal.
  unfold refund_transfer. rewrite Hpre, Hconv. cbn.
  destruct (csLaunchCompleteMarker (csFlags (currencyState this))); reflexivity.
Qed.

(** What the refund pass may do to one transfer: keep it, or, for a
    pre-conversion or a conversion only, put its refund form in its place. *)
Definition kept_or_refunded (t t' : CReserveTransfer) : Prop :=
  t' = t
  ∨ ((IsPreConversion t = true ∨ IsConversion t = true) ∧ t' = GetRefundTransfer t).

Lemma refund_transfer_kept_or_refunded destCurrency lastExportHeight nz t :
  kept_or_refunded t (refund_transfer destCurrency lastExportHeight nz t).
Proof.
  unfold kept_or_refunded, refund_transfer.
  destruct (IsPreConversion t).
  - destruct (to_uint32 (startBlock destCurrency) <=? lastExportHeight); [auto|].
    destruct (over_maximum destCurrency nz t); auto.
  - destruct (IsConversion t); [|auto].
    destruct (negb (csLaunchCompleteMarker (csFlags (currencyState nz)))); auto.
Qed.

Lemma Forall2_kept_refl l : Forall2 kept_or_refunded l l.
Proof. induction l; constructor; [left; reflexivity | assumption]. Qed.

Lemma refund_pass_kept_or_refunded destCurrency lastExportHeight nz l :
  Forall2 kept_or_refunded l (refund_pass destCurrency lastExportHeight nz l).
Proof.
  unfold refund_pass. induction l as [|t rest IH]; cbn; constructor;
    [apply refund_transfer_kept_or_refunded | exact IH].
Qed.

(** X14.  The batch a call hands back has the length and order of the batch
    it was given; each element is the element that went in or its refund
    form, and a transfer that is neither a pre-conversion nor a conversion is
    never changed.  The transfer hash is written only when this notarization
    is not refunding and the batch is not empty, and is then the hash of the
    transfers as they went in, not as they come back. *)
Theorem NextNotarizationInfo_batch this sourceSystem destCurrency lastExportHeight
        currentHeight exportTransfers0 transferHash0 io0 :
  Forall2 kept_or_refunded exportTransfers0
    (exportTransfers (NextNotarizationInfo this sourceSystem destCurrency lastExportHeight
                        currentHeight exportTransfers0 transferHash0 io0))
  ∧ transferHash (NextNotarizationInfo this sourceSystem destCurrency lastExportHeight
                    currentHeight exportTransfers0 transferHash0 io0)
    = (if csRefunding (csFlags (currencyState this)) || (vsize exportTransfers0 =? 0)
       then transferHash0 else HashTransfers exportTransfers0).
Proof.
  unfold NextNotarizationInfo.
  destruct (csRefunding (csFlags (currencyState this))); cbn [orb exportTransfers transferHash].
  - split; [apply Forall2_kept_refl | reflexivity].
  - destruct ((launchSystemID destCurrency =? GetID sourceSystem)
              && (currentHeight <=? to_uint32 (startBlock destCurrency - 1))).
    + destruct (import_before_launch_fields sourceSystem destCurrency
                  (refund_pass destCurrency lastExportHeight (start this currentHeight)
                     exportTransfers0)
                  (if negb (vsize exportTransfers0 =? 0)
                   then HashTransfers exportTransfers0 else transferHash0)
                  (before_launch this destCurrency currentHeight (start this currentHeight))
                  io0) as (-> & -> & _).
      split; [apply refund_pass_kept_or_refunded|].
      destruct (vsize exportTransfers0 =? 0); reflexivity.
    + destruct (import_after_launch_fields this sourceSystem destCurrency
                  (refund_pass destCurrency lastExportHeight (start this currentHeight)
                     exportTransfers0)
                  (if negb (vsize exportTransfers0 =? 0)
                   then HashTransfers exportTransfers0 else transferHash0)
                  (start this currentHeight) io0) as (-> & ->).
      split; [apply refund_pass_kept_or_refunded|].
      destruct (vsize exportTransfers0 =? 0); reflexivity.
Qed.

(** *** The second pass at the launch height *)

(** X15.  A pass at the height before the start block, for a launch from
    the source system, on a pre-launch notarization whose launch is already
    cleared, decides nothing again: the notarization it hands to the import
    engine leaves pre-launch, keeps the refunding and launch-confirmed flags
    of this notarization, and its currency state is the cleared state of this
    notarization, with supply and refunding flag as they were. *)
Theorem second_launch_pass_keeps_decision this sourceSystem destCurrency lastExportHeight
        currentHeight exportTransfers0 transferHash0 io0 :
  csRefunding (csFlags (currencyState this)) = false ->
  launchSystemID destCurrency = GetID sourceSystem ->
  currentHeight = to_uint32 (startBlock destCurrency - 1) ->
  fPreLaunch (flags this) = true ->
  fLaunchCleared (flags this) = true ->
  let handed := before_launch this destCurrency currentHeight (start this currentHeight) in
  flags (newNotarization (NextNotarizationInfo this sourceSystem destCurrency lastExportHeight
                            currentHeight exportTransfers0 transferHash0 io0))
  = flags handed
  ∧ fPreLaunch (flags handed) = false
  ∧ fLaunchCleared (flags handed) = true
  ∧ fRefunding (flags handed) = fRefunding (flags this)
  ∧ fLaunchConfirmed (flags handed) = fLaunchConfirmed (flags this)
  ∧ currencyState handed = cleared_state (currencyState this).
Proof.
  intros Hnr Hsys Hh Hpre Hcl handed.
  assert (Hhanded : handed = launch_clear destCurrency (start this currentHeight)).
  { subst handed. unfold before_launch. rewrite Hh, Z.eqb_refl. cbn. rewrite Hpre. reflexivity. }
  split.
  - unfold NextNotarizationInfo. rewrite Hnr, Hsys, Z.eqb_refl, Hh, Z.leb_refl. cbn [andb].
    rewrite <- Hh. apply import_before_launch_fields.
  - rewrite Hhanded. unfold launch_clear. cbn. rewrite Hcl. cbn. repeat split; assumption.
Qed.

End NextNotarization.

(** *** The examples of the specification

    Currency 7 launches from system 1 at block 50, is backed by currency 9
    alone, and has a minimum and a maximum pre-conversion of 1000.  Value
    maps are added key by key; a map is below a non-empty other when each
    entry of the other is above its own, and above another when one of its
    entries is above the other's; the canonical map drops the zero entries.
    The conversion fee is 0 and the import engine accepts and hands the state
    back as it got it. *)

Definition mkValueMap (ids amounts : list Z) : CCurrencyValueMap :=
  {| valueMap := list_to_map (zip ids amounts) |}.

Definition vm_add (a b : CCurrencyValueMap) : CCurrencyValueMap :=
  {| valueMap := union_with (fun x y => Some (x + y)) (valueMap a) (valueMap b) |}.

Definition amount (a : CCurrencyValueMap) (id : Z) : Z := default 0 (valueMap a !! id).

Definition vm_lt (a b : CCurrencyValueMap) : bool :=
  negb (msize (valueMap b) =? 0)
  && forallb (fun kv : Z * Z => amount a kv.1 <? kv.2) (map_to_list (valueMap b)).

Definition vm_gt (a b : CCurrencyValueMap) : bool :=
  existsb (fun kv : Z * Z => amount b kv.1 <? kv.2) (map_to_list (valueMap a)).

Definition CanonicalMap (a : CCurrencyValueMap) : CCurrencyValueMap :=
  {| valueMap := list_to_map (List.filter (fun kv : Z * Z => negb (kv.2 =? 0))
                                          (map_to_list (valueMap a))) |}.

Definition GetRefundTransfer (t : CReserveTransfer) : CReserveTransfer :=
  {| IsPreConversion := false; IsConversion := false; FirstCurrency := FirstCurrency t;
     FirstValue := FirstValue t; rtRest := rtRest t + 1 |}.

Definition engine (sourceSystem destSystem destCurrency : CCurrencyDefinition)
           (importState : CCoinbaseCurrencyState) (transfers : list CReserveTransfer)
           (x : ImportIO) (newState : CCoinbaseCurrencyState)
  : bool * ImportIO * CCoinbaseCurrencyState :=
  (true, x, newState).

Definition currency7 : CCurrencyDefinition :=
  {| cdValid := true; GetID := 7; cdName := "seven"; systemID := 1; launchSystemID := 1;
     startBlock := 50; notarizationProtocol := 1;
     notaries := []; minNotariesConfirm := 0;
     currencies := [9]; minPreconvert := [1000]; maxPreconvert := [1000]; contributions := [];
     IsFractional := false |}.

(** The state of currency 7 with [r] of currency 9 pre-converted. *)
Definition state_with (r : Z) (refunding : bool) : CCoinbaseCurrencyState :=
  {| csValid := true;
     csFlags := {| csPrelaunch := true; csLaunchClear := false; csRefunding := refunding;
                   csLaunchConfirmed := false; csLaunchCompleteMarker := false |};
     supply := 5000; reserves := [r]; conversionPrice := [1]; viaConversionPrice := [1];
     csRest := 0 |}.

(** The pre-launch notarization of currency 7 at height 48. *)
Definition prelaunch (r : Z) (refunding : bool) : CPBaaSNotarization :=
  {| nVersion := 1;
     flags := {| fDefinitionNotarization := false; fBlockOneNotarization := false;
                 fPreLaunch := true; fLaunchCleared := false; fRefunding := false;
                 fLaunchConfirmed := false; fMirror := false; fSameChain := true |};
     currencyID := 7; notarizationHeight := 48; currencyState := state_with r refunding;
     prevNotarization := CUTXORef_default; hashPrevNotarization := 0; prevHeight := 47;
     currencyStates := ∅; proofRoots := ∅ |}.

Definition preconversion (value : Z) : CReserveTransfer :=
  {| IsPreConversion := true; IsConversion := false; FirstCurrency := 9;
     FirstValue := value; rtRest := 0 |}.

Definition no_io : ImportIO :=
  {| importOutputs := []; importedCurrency := CCurrencyValueMap_default;
     gatewayDepositsUsed := CCurrencyValueMap_default;
     spentCurrencyOut := CCurrencyValueMap_default |}.

(** The call in this scenario. *)
Definition run (this : CPBaaSNotarization) (lastExportHeight currentHeight : Z)
           (transfers : list CReserveTransfer) : Result :=
  NextNotarizationInfo 1 (fun nz => notarizationHeight nz + 1)
    (fun ts => vsize ts) GetRefundTransfer (fun _ => 0)
    mkValueMap vm_add vm_gt vm_lt CanonicalMap (fun st => st)
    (fun _ => Accepted.currency1) Accepted.currency1 engine
    this Accepted.currency1 currency7 lastExportHeight currentHeight transfers 0 no_io.

(** With 900 pre-converted against a minimum of 1000 the launch is refunded
    and the supply is 0; with 1100 it is confirmed and the supply stays. *)
Example launch_with_900 :
  let nz := newNotarization (run (prelaunch 900 false) 48 49 []) in
  (fRefunding (flags nz), csRefunding (csFlags (currencyState nz)), supply (currencyState nz),
   fLaunchConfirmed (flags nz))
  = (true, true, 0, false).
Proof. vm_compute. reflexivity. Qed.

Example launch_with_1100 :
  let nz := newNotarization (run (prelaunch 1100 false) 48 49 []) in
  (fRefunding (flags nz), fLaunchConfirmed (flags nz),
   csLaunchConfirmed (csFlags (currencyState nz)), supply (currencyState nz))
  = (false, true, true, 5000).
Proof. vm_compute. reflexivity. Qed.

(** A pre-conversion of 500 on reserves of 800 against a maximum of 1000 is refunded. *)
Example preconversion_over_the_cap :
  exportTransfers (run (prelaunch 800 false) 47 48 [preconversion 500])
  = [GetRefundTransfer (preconversion 500)].
Proof. vm_compute. reflexivity. Qed.

Lemma launch_clear_decides_witness :
  deciding_pass (prelaunch 900 false) Accepted.currency1 currency7 49
  ∧ minimum_configured mkValueMap CanonicalMap currency7
  ∧ supply (currencyState
              (before_launch mkValueMap vm_lt CanonicalMap (fun st => st) (prelaunch 900 false)
                 currency7 49 (start (fun nz => notarizationHeight nz + 1)
                                 (prelaunch 900 false) 49))) = 0
  ∧ fRefunding (flags (newNotarization (run (prelaunch 900 false) 48 49 []))) = true.
Proof.
  assert (Hd : deciding_pass (prelaunch 900 false) Accepted.currency1 currency7 49)
    by (repeat split).
  assert (Hm : minimum_configured mkValueMap CanonicalMap currency7)
    by (repeat split; vm_compute; discriminate).
  pose proof (launch_clear_decides 1 (fun nz => notarizationHeight nz + 1)
                (fun ts => vsize ts) GetRefundTransfer (fun _ => 0)
                mkValueMap vm_add vm_gt vm_lt CanonicalMap (fun st => st)
                (fun _ => Accepted.currency1) Accepted.currency1 engine
                (prelaunch 900 false) Accepted.currency1 currency7 48 49 [] 0 no_io Hd)
    as (_ & Hflags & Hbelow & _).
  destruct (Hbelow Hm) as (Hs & _ & Hr & _); [vm_compute; reflexivity|].
  split; [exact Hd|]. split; [exact Hm|]. split; [exact Hs|].
  unfold run. rewrite Hflags. exact Hr.
Defined.



Lemma late_or_excess_preconversion_refunded_witness :
  too_late_or_too_much (fun _ => 0) mkValueMap vm_add vm_gt (prelaunch 800 false) currency7 47
    (preconversion 500)
  ∧ exportTransfers (run (prelaunch 800 false) 47 48 [preconversion 500]) !! 0%nat
    = Some (GetRefundTransfer (preconversion 500)).
Proof.
  assert (Hc : too_late_or_too_much (fun _ => 0) mkValueMap vm_add vm_gt (prelaunch 800 false)
                 currency7 47 (preconversion 500)).
  { right. split; [vm_compute; discriminate | vm_compute; reflexivity]. }
  split; [exact Hc|].
  unfold run. apply late_or_excess_preconversion_refunded; [reflexivity..|exact Hc].
Defined.






(** An ordinary conversion of currency 9. *)
Definition conversion (value : Z) : CReserveTransfer :=
  {| IsPreConversion := false; IsConversion := true; FirstCurrency := 9;
     FirstValue := value; rtRest := 0 |}.

Lemma early_conversion_refunded_witness :
  csLaunchCompleteMarker (csFlags (currencyState (prelaunch 800 false))) = false
  ∧ exportTransfers (run (prelaunch 800 false) 47 48 [conversion 500]) !! 0%nat
    = Some (GetRefundTransfer (conversion 500)).
Proof.
  split; [reflexivity|].
  unfold run.
  rewrite (early_conversion_refunded 1 (fun nz => notarizationHeight nz + 1)
             (fun ts => vsize ts) GetRefundTransfer (fun _ => 0)
             mkValueMap vm_add vm_gt vm_lt CanonicalMap (fun st => st)
             (fun _ => Accepted.currency1) Accepted.currency1 engine
             (prelaunch 800 false) Accepted.currency1 currency7 47 48 [conversion 500] 0 no_io
             0%nat (conversion 500));
    reflexivity.
Defined.

(** The pre-launch notarization of currency 7 once its launch is cleared. *)
Definition cleared_prelaunch (r : Z) : CPBaaSNotarization :=
  SetLaunchCleared true (prelaunch r false).

Lemma second_launch_pass_keeps_decision_witness :
  fLaunchCleared (flags (cleared_prelaunch 900)) = true
  ∧ fPreLaunch (flags (newNotarization (run (cleared_prelaunch 900) 48 49 []))) = false
  ∧ fRefunding (flags (newNotarization (run (cleared_prelaunch 900) 48 49 []))) = false.
Proof.
  split; [reflexivity|].
  pose proof (second_launch_pass_keeps_decision 1 (fun nz => notarizationHeight nz + 1)
                (fun ts => vsize ts) GetRefundTransfer (fun _ => 0)
                mkValueMap vm_add vm_gt vm_lt CanonicalMap (fun st => st)
                (fun _ => Accepted.currency1) Accepted.currency1 engine
                (cleared_prelaunch 900) Accepted.currency1 currency7 48 49 [] 0 no_io
                eq_refl eq_refl eq_refl eq_refl eq_refl)
    as (Hflags & Hpre & _ & Href & _).
  unfold run. rewrite Hflags. split; [exact Hpre | exact Href].
Defined.

End Launch.

(** * The output a finalization refers to *)

Module FinalizationOutput.
Section Output.

(** [myGetTransaction(hash, tx, blockHash)]: the transaction when found. *)
Variable myGetTransaction : Z -> option CTransaction.

(** [CObjectFinalization::GetOutputTransaction(initialTx, tx, blockHash)]:
    [tx] when the answer is true. *)
Definition GetOutputTransaction (fin : CObjectFinalization) (initialTx : CTransaction)
  : option CTransaction :=
  if IsNull (hash (output fin)) then Some initialTx
  else match myGetTransaction (hash (output fin)) with
       | Some tx => if n (output fin) <? vsize (vout tx) then Some tx else None
       | None => None
       end.

(** What the four-argument verification takes from outside. *)
Variable VERSION_V3 : Z.
Variable GetCurrencyDefinition : Z -> bool * CCurrencyDefinition.
Variable GetConditionID : Z -> Z -> Z -> Z -> Z.
Variable NotarySignatureKey : uint160.
Variable HashBytes : bytes -> uint256.
Variable IdentitySignatureHash :
  CIdentitySignature -> list Z -> list Z -> Z -> Z -> Z -> string -> Z -> Z.
Variable LookupIdentity : Z -> Z -> CIdentity.
Variable RecoverID : Z -> bytes -> Z.

(** [CObjectFinalization::VerifyOutputSignature(initialTx, signature, p, height)]. *)
Definition VerifyOutputParams (fin : CObjectFinalization) (initialTx : CTransaction)
           (signature : CNotaryEvidence) (p : COptCCParams) (height : Z)
  : ESignatureVerification :=
  Finalization.VerifyOutputSignature VERSION_V3 GetCurrencyDefinition GetConditionID
    NotarySignatureKey HashBytes IdentitySignatureHash LookupIdentity RecoverID
    fin initialTx signature p height.

(** [CObjectFinalization::VerifyOutputSignature(initialTx, signature, height)].
    The index of an output reference is unsigned, so the read past the size
    test always hits. *)
Definition VerifyOutputSignature (fin : CObjectFinalization) (initialTx : CTransaction)
           (signature : CNotaryEvidence) (height : Z) : ESignatureVerification :=
  match GetOutputTransaction fin initialTx with
  | None => SIGNATURE_INVALID
  | Some tx =>
      if vsize (vout tx) <=? n (output fin) then SIGNATURE_INVALID
      else match at_index (vout tx) (n (output fin)) with
           | None => SIGNATURE_INVALID
           | Some o =>
               let '(isCC, p) := IsPayToCryptoCondition (scriptPubKey o) COptCCParams_default in
               if isCC && ccValid p && negb (vsize (vData p) =? 0)
               then VerifyOutputParams fin initialTx signature p height
               else SIGNATURE_INVALID
           end
  end.

(** The wallet side of signing, as [CNotaryEvidence::SignConfirmed] takes it. *)
Variable CKeyStore : Type.
Variable CIdentityMapKey : Type.
Variable CIdentityMapValue : Type.
Variable GetIdentity : CKeyStore -> Z -> Z -> bool * (CIdentityMapKey * CIdentityMapValue).
Variable CanSign : CIdentityMapKey -> bool.
Variable NewSignature :
  CIdentityMapValue -> list Z -> list Z -> Z -> Z -> string -> Z -> CKeyStore ->
  ESignatureVerification * CIdentitySignature.
Variable NotaryConfirmedKey : uint160.
Variable NotaryRejectedKey : uint160.

Variable ASSETCHAINS_CHAINID : uint160.
Variable chainActive : ProofRoot.CChain.
(** [CNotaryEvidence(systemID, output)], a constructor of the header. *)
Variable NewEvidence : uint160 -> CUTXORef -> CNotaryEvidence.

(** [CObjectFinalization::SignConfirmed(pWallet, initialTx, signatureID)]. *)
Definition SignConfirmed (fin : CObjectFinalization) (wallet : CKeyStore)
           (initialTx : CTransaction) (signatureID : Z) : CNotaryEvidence :=
  let retVal := NewEvidence ASSETCHAINS_CHAINID (output fin) in
  let nHeight := to_uint32 (ProofRoot.Height chainActive) in
  match GetOutputTransaction fin initialTx with
  | Some tx =>
      (NotaryEvidence.SignConfirmed CKeyStore CIdentityMapKey CIdentityMapValue GetIdentity
         CanSign NewSignature NotaryConfirmedKey HashBytes retVal wallet tx signatureID nHeight).2
  | None => retVal
  end.

(** [CObjectFinalization::SignRejected(pWallet, initialTx, signatureID)]. *)
Definition SignRejected (fin : CObjectFinalization) (wallet : CKeyStore)
           (initialTx : CTransaction) (signatureID : Z) : CNotaryEvidence :=
  let retVal := NewEvidence ASSETCHAINS_CHAINID (output fin) in
  let nHeight := to_uint32 (ProofRoot.Height chainActive) in
  match GetOutputTransaction fin initialTx with
  | Some tx =>
      (NotaryEvidence.SignRejected CKeyStore CIdentityMapKey CIdentityMapValue GetIdentity
         CanSign NewSignature NotaryRejectedKey HashBytes retVal wallet tx signatureID nHeight).2
  | None => retVal
  end.

(** *** Resolving the reference *)

(** The output [o] of transaction [tx] is the one the finalization refers
    to: [tx] is the transaction at hand when the hash of the reference is
    null and the transaction of that hash otherwise, and [o] is its output
    at the index of the reference. *)
Definition refers_to (fin : CObjectFinalization) (initialTx tx : CTransaction) (o : CTxOut)
  : Prop :=
  (if IsNull (hash (output fin)) then tx = initialTx
   else myGetTransaction (hash (output fin)) = Some tx)
  ∧ at_index (vout tx) (n (output fin)) = Some o.

Lemma GetOutputTransaction_resolves fin initialTx tx :
  GetOutputTransaction fin initialTx = Some tx ->
  if IsNull (hash (output fin)) then tx = initialTx
  else myGetTransaction (hash (output fin)) = Some tx ∧ n (output fin) < vsize (vout tx).
Proof.
  unfold GetOutputTransaction.
  destruct (IsNull (hash (output fin))); [intros [= <-]; reflexivity|].
  destruct (myGetTransaction (hash (output fin))) as [t|]; [|discriminate].
  destruct (Z.ltb_spec (n (output fin)) (vsize (vout t))); [|discriminate].
  intros [= <-]. auto.
Qed.

(** X18.  The three-argument verification gives a verdict other than
    [SIGNATURE_INVALID] only when the reference of the finalization resolves
    (to the transaction at hand for a null hash, to a transaction that is
    found otherwise), the referenced output exists and is a valid
    crypto-condition with data; the verdict is then that of the
    four-argument verification over the parameters of that output. *)
Theorem VerifyOutputSignature_resolves fin initialTx signature height :
  VerifyOutputSignature fin initialTx signature height <> SIGNATURE_INVALID ->
  exists tx o p,
    refers_to fin initialTx tx o
    ∧ scriptPubKey o = ScriptCC p ∧ ccValid p = true ∧ vData p <> []
    ∧ VerifyOutputSignature fin initialTx signature height
      = VerifyOutputParams fin initialTx signature p height.
Proof.
  unfold VerifyOutputSignature, refers_to.
  destruct (GetOutputTransaction fin initialTx) as [tx|] eqn:Eg;
    [|intros Hne; exfalso; apply Hne; reflexivity].
  apply GetOutputTransaction_resolves in Eg.
  destruct (vsize (vout tx) <=? n (output fin));
    [intros Hne; exfalso; apply Hne; reflexivity|].
  destruct (at_index (vout tx) (n (output fin))) as [o|] eqn:Eo;
    [|intros Hne; exfalso; apply Hne; reflexivity].
  destruct (scriptPubKey o) as [|p] eqn:Es; cbn [IsPayToCryptoCondition];
    [intros Hne; exfalso; apply Hne; reflexivity|].
  destruct (ccValid p) eqn:Ev; [|intros Hne; exfalso; apply Hne; reflexivity].
  destruct (vData p) as [|d rest] eqn:Ed; [intros Hne; exfalso; apply Hne; reflexivity|].
  cbn. intros _. exists tx, o, p.
  split; [|rewrite Ed; repeat split; [exact Es | exact Ev | discriminate]].
  split; [|exact Eo].
  destruct (IsNull (hash (output fin))); [exact Eg | apply Eg].
Qed.

(** *** Signing a finalization *)

(** X19.  The evidence [CObjectFinalization::SignConfirmed] or
    [CObjectFinalization::SignRejected] returns is the evidence the
    constructor makes for this chain and the output of the finalization,
    with at most a signature of the signing identity added.  Neither
    function records a polarity: the [confirmed] flag of the evidence
    [SignRejected] returns is that of the evidence [SignConfirmed] returns,
    the one the constructor gave it. *)
Theorem finalization_signing_adds_one fin wallet initialTx signatureID :
  NotaryEvidence.adds_at_most signatureID (NewEvidence ASSETCHAINS_CHAINID (output fin))
    (SignConfirmed fin wallet initialTx signatureID)
  ∧ NotaryEvidence.adds_at_most signatureID (NewEvidence ASSETCHAINS_CHAINID (output fin))
      (SignRejected fin wallet initialTx signatureID)
  ∧ confirmed (SignRejected fin wallet initialTx signatureID)
    = confirmed (SignConfirmed fin wallet initialTx signatureID).
Proof.
  assert (Hc : NotaryEvidence.adds_at_most signatureID
                 (NewEvidence ASSETCHAINS_CHAINID (output fin))
                 (SignConfirmed fin wallet initialTx signatureID)).
  { unfold SignConfirmed. cbv zeta.
    destruct (GetOutputTransaction fin initialTx) as [tx|];
      [|apply NotaryEvidence.adds_at_most_refl].
    apply (NotaryEvidence.signing_outcome_adds _ tx), NotaryEvidence.SignConfirmed_outcome. }
  assert (Hr : NotaryEvidence.adds_at_most signatureID
                 (NewEvidence ASSETCHAINS_CHAINID (output fin))
                 (SignRejected fin wallet initialTx signatureID)).
  { unfold SignRejected. cbv zeta.
    destruct (GetOutputTransaction fin initialTx) as [tx|];
      [|apply NotaryEvidence.adds_at_most_refl].
    apply (NotaryEvidence.signing_outcome_adds _ tx), NotaryEvidence.SignRejected_outcome. }
  split; [exact Hc|]. split; [exact Hr|].
  destruct Hc as (_ & _ & _ & _ & Hcc & _). destruct Hr as (_ & _ & _ & _ & Hrc & _).
  congruence.
Qed.

(** X20.  For a finalization that refers to an output of the transaction it
    is on (the hash of its reference is null), neither function ever adds a
    signature: the transaction handed to the evidence is the one at hand,
    whose hash is not the null hash of the reference, so the evidence comes
    back as the constructor made it. *)
Theorem same_transaction_finalization_is_not_signed fin wallet initialTx signatureID :
  IsNull (hash (output fin)) = true ->
  IsNull (GetHash initialTx) = false ->
  ev_output (NewEvidence ASSETCHAINS_CHAINID (output fin)) = output fin ->
  SignConfirmed fin wallet initialTx signatureID = NewEvidence ASSETCHAINS_CHAINID (output fin)
  ∧ SignRejected fin wallet initialTx signatureID
    = NewEvidence ASSETCHAINS_CHAINID (output fin).
Proof.
  intros Hnull Htx Hout.
  assert (Hobj : NotaryEvidence.signable_object initialTx
                   (ev_output (NewEvidence ASSETCHAINS_CHAINID (output fin))) = None).
  { apply NotaryEvidence.not_signable_object. left. rewrite Hout.
    unfold IsNull in Hnull, Htx. apply Z.eqb_eq in Hnull. apply Z.eqb_neq in Htx. congruence. }
  unfold SignConfirmed, SignRejected, GetOutputTransaction. rewrite Hnull. cbv zeta.
  split.
  - rewrite (NotaryEvidence.signing_outcome_no_object _ initialTx signatureID _
               (NotaryEvidence.SignConfirmed_outcome _ _ _ _ _ _ _ _ _ _ _ _ _) Hobj).
    reflexivity.
  - rewrite (NotaryEvidence.signing_outcome_no_object _ initialTx signatureID _
               (NotaryEvidence.SignRejected_outcome _ _ _ _ _ _ _ _ _ _ _ _ _) Hobj).
    reflexivity.
Qed.

End Output.

(** The scenario: transaction 7, whose output 0 carries an earned
    notarization, can be found by its hash; the wallet holds identity 42 and
    can sign for it; a fresh evidence object confirms. *)
Definition myGetTransaction (h : Z) : option CTransaction :=
  if h =? 7 then Some Scenario.notarization_tx else None.

Definition verify (fin : CObjectFinalization) (signature : CNotaryEvidence)
  : ESignatureVerification :=
  VerifyOutputSignature myGetTransaction 3 Scenario.GetCurrencyDefinition
    Scenario.GetConditionID 1 Scenario.HashBytes Scenario.IdentitySignatureHash
    Scenario.LookupIdentity Scenario.RecoverID fin Evidence.stray_tx signature 100.

Lemma VerifyOutputSignature_resolves_witness :
  verify Finalization.finalization6 Finalization.bare_evidence <> SIGNATURE_INVALID
  ∧ exists tx o,
      refers_to myGetTransaction Finalization.finalization6 Evidence.stray_tx tx o.
Proof.
  assert (H : verify Finalization.finalization6 Finalization.bare_evidence
              <> SIGNATURE_INVALID) by (vm_compute; discriminate).
  split; [exact H|].
  unfold verify in H. apply VerifyOutputSignature_resolves in H as (tx & o & p & Hr & _).
  exists tx, o. exact Hr.
Defined.

Definition new_evidence (sys : Z) (out : CUTXORef) : CNotaryEvidence :=
  {| ev_version := 1; ev_type := 1; ev_systemID := sys; ev_output := out;
     confirmed := true; signatures := ∅; evidence := [] |}.

(** A finalization of output 0 of the transaction it is on. *)
Definition own_finalization : CObjectFinalization :=
  {| of_version := 1; finalizationType := 1; of_confirmed := false; of_currencyID := 6;
     output := {| hash := 0; n := 0 |}; evidenceInputs := []; evidenceOutputs := [];
     minFinalizationHeight := 115 |}.

Lemma same_transaction_finalization_is_not_signed_witness :
  IsNull (hash (output own_finalization)) = true
  ∧ IsNull (GetHash Scenario.notarization_tx) = false
  ∧ SignConfirmed myGetTransaction Scenario.HashBytes (list (Z * bool)) bool Z
      NotaryEvidence.wallet_GetIdentity NotaryEvidence.wallet_CanSign
      NotaryEvidence.wallet_NewSignature 1 1 Accepted.chain100 new_evidence
      own_finalization [(42, true)] Scenario.notarization_tx 42
    = new_evidence 1 (output own_finalization).
Proof.
  split; [reflexivity|]. split; [reflexivity|].
  apply (same_transaction_finalization_is_not_signed myGetTransaction Scenario.HashBytes
           (list (Z * bool)) bool Z NotaryEvidence.wallet_GetIdentity
           NotaryEvidence.wallet_CanSign NotaryEvidence.wallet_NewSignature 1 2 1
           Accepted.chain100 new_evidence own_finalization [(42, true)]
           Scenario.notarization_tx 42); reflexivity.
Defined.

(** The same wallet does sign when the finalization names the transaction
    by its hash. *)
Example finalization_signed_by_hash :
  signatures (SignConfirmed myGetTransaction Scenario.HashBytes (list (Z * bool)) bool Z
                NotaryEvidence.wallet_GetIdentity NotaryEvidence.wallet_CanSign
                NotaryEvidence.wallet_NewSignature 1 1 Accepted.chain100 new_evidence
                Finalization.finalization6 [(42, true)] Evidence.stray_tx 42)
  = {[ 42 := NotaryEvidence.one_signature ]}.
Proof. vm_compute. reflexivity. Qed.

End FinalizationOutput.

(** * The last notarization of a currency *)

Module LastNotarization.

(** The key of an entry of the address index, and of an entry of the index
    of unspent outputs. *)
Record CAddressIndexKey := {
  txhash : uint256;
  index : Z;
  spending : bool
}.

Record CAddressUnspentKey := {
  unspent_txhash : uint256;
  unspent_index : Z
}.

Section Lookup.

(** The script constructor of [CPBaaSNotarization] and what it takes. *)
Variable VERSION_INVALID : Z.
Variable CCoinbaseCurrencyState_default : CCoinbaseCurrencyState.
Variable FromVector : bytes -> CPBaaSNotarization -> CPBaaSNotarization.

Definition decode (s : CScript) : CPBaaSNotarization :=
  TxDecode.CPBaaSNotarization_of_script VERSION_INVALID CCoinbaseCurrencyState_default
    FromVector s.

(** [notarization.IsValid()] and the default-constructed local. *)
Variable NotarizationIsValid : CPBaaSNotarization -> bool.
Variable CPBaaSNotarization_default : CPBaaSNotarization.
Variable myGetTransaction : Z -> option CTransaction.
(** [CCrossChainRPCData::GetConditionID(currencyID, key)]. *)
Variable GetConditionID : Z -> Z -> Z.
Variable NotaryNotarizationKey : uint160.
(** [GetAddressIndex(key, CScript::P2IDX, index, start, end)] and
    [GetAddressUnspent(key, CScript::P2IDX, index)]: the answer and the
    entries, in the order the index holds them. *)
Variable GetAddressIndex : Z -> Z -> Z -> bool * list CAddressIndexKey.
Variable GetAddressUnspent : Z -> bool * list CAddressUnspentKey.

Section Scan.

(** The entries of either index: whether the loop skips one before it looks
    at it, and the transaction and output it names. *)
Variable E : Type.
Variable skipped : E -> bool.
Variable hashOf : E -> uint256.
Variable indexOf : E -> Z.

(** The loop of both functions over the entries in the order it visits
    them: the local [notarization] when the loop ends, and the entry it
    stopped at with its transaction.  [None] is a read of [vout] out of
    range. *)
Fixpoint scan (entries : list E) (notarization : CPBaaSNotarization)
  : option (CPBaaSNotarization * option (E * CTransaction)) :=
  match entries with
  | [] => Some (notarization, None)
  | e :: rest =>
      if skipped e then scan rest notarization
      else match myGetTransaction (hashOf e) with
           | None => scan rest notarization
           | Some oneTx =>
               match at_index (vout oneTx) (indexOf e) with
               | None => None
               | Some o =>
                   let nz := decode (scriptPubKey o) in
                   if NotarizationIsValid nz then Some (nz, Some (e, oneTx))
                   else scan rest nz
               end
           end
  end.

(** The output an entry names decodes to [nz]. *)
Definition decodes_to (e : E) (tx : CTransaction) (nz : CPBaaSNotarization) : Prop :=
  myGetTransaction (hashOf e) = Some tx
  ∧ exists o, at_index (vout tx) (indexOf e) = Some o ∧ nz = decode (scriptPubKey o).

(** An entry the loop goes past: it is skipped, its transaction is not
    found, or its output does not decode to a valid notarization. *)
Definition passed_over (e : E) : Prop :=
  skipped e = true
  ∨ myGetTransaction (hashOf e) = None
  ∨ exists tx nz, decodes_to e tx nz ∧ NotarizationIsValid nz = false.

Lemma scan_found entries nz0 nz e tx :
  scan entries nz0 = Some (nz, Some (e, tx)) ->
  exists visited rest,
    entries = visited ++ e :: rest
    ∧ Forall passed_over visited
    ∧ skipped e = false ∧ decodes_to e tx nz ∧ NotarizationIsValid nz = true.
Proof.
  revert nz0. induction entries as [|x more IH]; intros nz0; [discriminate|].
  cbn [scan].
  destruct (skipped x) eqn:Esk.
  { intros H. apply IH in H as (visited & rest & -> & Hv & Hrest).
    exists (x :: visited), rest. split; [reflexivity|]. split; [|exact Hrest].
    constructor; [left; exact Esk | exact Hv]. }
  destruct (myGetTransaction (hashOf x)) as [oneTx|] eqn:Etx.
  2:{ intros H. apply IH in H as (visited & rest & -> & Hv & Hrest).
      exists (x :: visited), rest. split; [reflexivity|]. split; [|exact Hrest].
      constructor; [right; left; exact Etx | exact Hv]. }
  destruct (at_index (vout oneTx) (indexOf x)) as [o|] eqn:Eo; [|discriminate].
  destruct (NotarizationIsValid (decode (scriptPubKey o))) eqn:Ev.
  - intros [= <- <- <-]. exists [], more. split; [reflexivity|]. split; [constructor|].
    split; [exact Esk|]. split; [|exact Ev]. split; [exact Etx|]. exists o. auto.
  - intros H. apply IH in H as (visited & rest & -> & Hv & Hrest).
    exists (x :: visited), rest. split; [reflexivity|]. split; [|exact Hrest].
    constructor; [|exact Hv]. right. right. exists oneTx, (decode (scriptPubKey o)).
    split; [|exact Ev]. split; [exact Etx|]. exists o. auto.
Qed.

Lemma scan_not_found entries nz0 nz :
  scan entries nz0 = Some (nz, None) ->
  Forall passed_over entries ∧ (nz = nz0 ∨ NotarizationIsValid nz = false).
Proof.
  revert nz0. induction entries as [|x more IH]; intros nz0.
  { intros [= <-]. split; [constructor | left; reflexivity]. }
  cbn [scan].
  destruct (skipped x) eqn:Esk.
  { intros H. apply IH in H as [Hv Hnz]. split; [|exact Hnz].
    constructor; [left; exact Esk | exact Hv]. }
  destruct (myGetTransaction (hashOf x)) as [oneTx|] eqn:Etx.
  2:{ intros H. apply IH in H as [Hv Hnz]. split; [|exact Hnz].
      constructor; [right; left; exact Etx | exact Hv]. }
  destruct (at_index (vout oneTx) (indexOf x)) as [o|] eqn:Eo; [|discriminate].
  destruct (NotarizationIsValid (decode (scriptPubKey o))) eqn:Ev; [discriminate|].
  intros H. apply IH in H as [Hv Hnz]. split.
  - constructor; [|exact Hv]. right. right. exists oneTx, (decode (scriptPubKey o)).
    split; [|exact Ev]. split; [exact Etx|]. exists o. auto.
  - right. destruct Hnz as [->|Hnz]; [exact Ev | exact Hnz].
Qed.

End Scan.

(** [CPBaaSNotarization::GetLastNotarization(currencyID, eCode, startHeight,
    endHeight, txIDOut, txOut)] for non-null [txIDOut] and [txOut]: the
    answer, this object, [*txIDOut] and [*txOut] after the call. *)
Definition GetLastNotarization (this : CPBaaSNotarization)
           (currencyID eCode startHeight endHeight : Z)
           (txIDOut0 : uint256) (txOut0 : CTransaction)
  : option (bool * CPBaaSNotarization * uint256 * CTransaction) :=
  let '(ok, notarizationIndex) :=
    GetAddressIndex (GetConditionID currencyID NotaryNotarizationKey) startHeight endHeight in
  if ok then
    match scan CAddressIndexKey spending txhash index (reverse notarizationIndex)
            CPBaaSNotarization_default with
    | None => None
    | Some (notarization, Some (e, oneTx)) =>
        Some (NotarizationIsValid notarization, notarization, txhash e, oneTx)
    | Some (notarization, None) =>
        Some (NotarizationIsValid notarization, this, txIDOut0, txOut0)
    end
  else Some (NotarizationIsValid CPBaaSNotarization_default, this, txIDOut0, txOut0).

(** [CPBaaSNotarization::GetLastUnspentNotarization(currencyID, eCode,
    txIDOut, txOutNum, txOut)]: the answer, this object, [txIDOut],
    [txOutNum] and [*txOut] after the call.  No entry is skipped. *)
Definition GetLastUnspentNotarization (this : CPBaaSNotarization) (currencyID eCode : Z)
           (txIDOut0 : uint256) (txOutNum0 : Z) (txOut0 : CTransaction)
  : option (bool * CPBaaSNotarization * uint256 * Z * CTransaction) :=
  let '(ok, notarizationIndex) :=
    GetAddressUnspent (GetConditionID currencyID NotaryNotarizationKey) in
  if ok then
    match scan CAddressUnspentKey (fun _ => false) unspent_txhash unspent_index
            (reverse notarizationIndex) CPBaaSNotarization_default with
    | None => None
    | Some (notarization, Some (e, oneTx)) =>
        Some (NotarizationIsValid notarization, notarization, unspent_txhash e,
              ProofRoot.to_int32 (unspent_index e), oneTx)
    | Some (notarization, None) =>
        Some (NotarizationIsValid notarization, this, txIDOut0, txOutNum0, txOut0)
    end
  else Some (NotarizationIsValid CPBaaSNotarization_default, this, txIDOut0, txOutNum0, txOut0).

Lemma reverse_split {A} (l visited rest : list A) (e : A) :
  reverse l = visited ++ e :: rest -> l = reverse rest ++ e :: reverse visited.
Proof.
  intros H. apply (f_equal reverse) in H. rewrite reverse_involutive in H.
  rewrite H, reverse_app, reverse_cons, <- app_assoc. reflexivity.
Qed.

(** X21.  When [GetLastNotarization] answers true (the default-constructed
    notarization being invalid), the index lookup succeeded and the object,
    transaction and transaction hash it hands back are those of one entry of
    the index that is no spending entry, whose transaction is found and whose
    output decodes to a valid notarization; every entry after it in the index
    is a spending entry, names a transaction that is not found, or decodes to
    an invalid notarization.  The evaluation code asked for plays no part. *)
Theorem GetLastNotarization_newest_valid this currencyID eCode startHeight endHeight
        txIDOut0 txOut0 nz txid tx :
  NotarizationIsValid CPBaaSNotarization_default = false ->
  GetLastNotarization this currencyID eCode startHeight endHeight txIDOut0 txOut0
  = Some (true, nz, txid, tx) ->
  exists before e after,
    GetAddressIndex (GetConditionID currencyID NotaryNotarizationKey) startHeight endHeight
    = (true, before ++ e :: after)
    ∧ spending e = false ∧ txid = txhash e
    ∧ decodes_to CAddressIndexKey txhash index e tx nz
    ∧ NotarizationIsValid nz = true
    ∧ Forall (passed_over CAddressIndexKey spending txhash index) after.
Proof.
  intros Hdef. unfold GetLastNotarization.
  destruct (GetAddressIndex _ startHeight endHeight) as [ok notarizationIndex].
  destruct ok; [|rewrite Hdef; discriminate].
  destruct (scan _ _ _ _ (reverse notarizationIndex) _) as [[notarization [[e oneTx]|]]|] eqn:Es;
    [| |discriminate].
  - intros [= Hv <- <- <-].
    apply scan_found in Es as (visited & rest & Hrev & Hpass & Hsk & Hdec & _).
    apply reverse_split in Hrev. subst notarizationIndex.
    exists (reverse rest), e, (reverse visited).
    repeat split; try assumption; try reflexivity; try apply Hdec.
    apply Forall_reverse. exact Hpass.
  - intros [= Hv _ _ _].
    apply scan_not_found in Es as [_ [->|Hinv]]; congruence.
Qed.

(** X22.  When [GetLastUnspentNotarization] answers true (the
    default-constructed notarization being invalid), the lookup of the
    unspent index succeeded and the object, transaction, transaction hash
    and output number it hands back are those of one entry of that index
    whose transaction is found and whose output decodes to a valid
    notarization; every entry after it in the index names a transaction that
    is not found or decodes to an invalid notarization. *)
Theorem GetLastUnspentNotarization_newest_valid this currencyID eCode txIDOut0 txOutNum0
        txOut0 nz txid outNum tx :
  NotarizationIsValid CPBaaSNotarization_default = false ->
  GetLastUnspentNotarization this currencyID eCode txIDOut0 txOutNum0 txOut0
  = Some (true, nz, txid, outNum, tx) ->
  exists before e after,
    GetAddressUnspent (GetConditionID currencyID NotaryNotarizationKey)
    = (true, before ++ e :: after)
    ∧ txid = unspent_txhash e ∧ outNum = ProofRoot.to_int32 (unspent_index e)
    ∧ decodes_to CAddressUnspentKey unspent_txhash unspent_index e tx nz
    ∧ NotarizationIsValid nz = true
    ∧ Forall (fun e' =>
                myGetTransaction (unspent_txhash e') = None
                ∨ exists tx' nz',
                    decodes_to CAddressUnspentKey unspent_txhash unspent_index e' tx' nz'
                    ∧ NotarizationIsValid nz' = false) after.
Proof.
  intros Hdef. unfold GetLastUnspentNotarization.
  destruct (GetAddressUnspent _) as [ok notarizationIndex].
  destruct ok; [|rewrite Hdef; discriminate].
  destruct (scan _ _ _ _ (reverse notarizationIndex) _) as [[notarization [[e oneTx]|]]|] eqn:Es;
    [| |discriminate].
  - intros [= Hv <- <- <- <-].
    apply scan_found in Es as (visited & rest & Hrev & Hpass & _ & Hdec & _).
    apply reverse_split in Hrev. subst notarizationIndex.
    exists (reverse rest), e, (reverse visited).
    repeat split; try assumption; try reflexivity; try apply Hdec.
    apply Forall_reverse. eapply Forall_impl; [exact Hpass|].
    intros e' [Hsk|[Hnf|Hinv]]; [discriminate | left; exact Hnf | right; exact Hinv].
  - intros [= Hv _ _ _ _].
    apply scan_not_found in Es as [_ [->|Hinv]]; congruence.
Qed.

(** X23.  A call of either function that answers false has written
    nothing: this object and the caller's transaction hash, output number
    and transaction are as they were before the call. *)
Theorem last_notarization_not_found this currencyID eCode startHeight endHeight
        txIDOut0 txOutNum0 txOut0 :
  (forall nz txid tx,
     GetLastNotarization this currencyID eCode startHeight endHeight txIDOut0 txOut0
     = Some (false, nz, txid, tx) ->
     nz = this ∧ txid = txIDOut0 ∧ tx = txOut0)
  ∧ (forall nz txid outNum tx,
       GetLastUnspentNotarization this currencyID eCode txIDOut0 txOutNum0 txOut0
       = Some (false, nz, txid, outNum, tx) ->
       nz = this ∧ txid = txIDOut0 ∧ outNum = txOutNum0 ∧ tx = txOut0).
Proof.
  split.
  - intros nz txid tx. unfold GetLastNotarization.
    destruct (GetAddressIndex _ startHeight endHeight) as [ok notarizationIndex].
    destruct ok; [|intros [= _ <- <- <-]; auto].
    destruct (scan _ _ _ _ (reverse notarizationIndex) _)
      as [[notarization [[e oneTx]|]]|] eqn:Es; [| |discriminate].
    + apply scan_found in Es as (_ & _ & _ & _ & _ & _ & Hv). rewrite Hv. discriminate.
    + intros [= _ <- <- <-]. auto.
  - intros nz txid outNum tx. unfold GetLastUnspentNotarization.
    destruct (GetAddressUnspent _) as [ok notarizationIndex].
    destruct ok; [|intros [= _ <- <- <- <-]; auto].
    destruct (scan _ _ _ _ (reverse notarizationIndex) _)
      as [[notarization [[e oneTx]|]]|] eqn:Es; [| |discriminate].
    + apply scan_found in Es as (_ & _ & _ & _ & _ & _ & Hv). rewrite Hv. discriminate.
    + intros [= _ <- <- <- <-]. auto.
Qed.

End Lookup.

(** The scenario.  The index holds, oldest first, output 0 of transaction 7
    (an earned notarization), the entry of its spend, and an output of
    transaction 9, which cannot be found; the unspent index holds the first
    and the last of them.  A notarization is valid when its version is not
    0, the object the lookup is called on is invalid, and the out-parameters
    hold 0 and transaction 8 before the call. *)
Definition scenario_index : list CAddressIndexKey :=
  [ {| txhash := 7; index := 0; spending := false |};
    {| txhash := 7; index := 0; spending := true |};
    {| txhash := 9; index := 0; spending := false |} ].

Definition scenario_unspent : list CAddressUnspentKey :=
  [ {| unspent_txhash := 7; unspent_index := 0 |};
    {| unspent_txhash := 9; unspent_index := 0 |} ].

Definition valid_version (nz : CPBaaSNotarization) : bool := negb (nVersion nz =? 0).

Definition last_in_scenario (ok : bool)
  : option (bool * CPBaaSNotarization * uint256 * CTransaction) :=
  GetLastNotarization 0 TxDecode.plain_state TxDecode.height_of_data valid_version
    Evidence.empty_notarization FinalizationOutput.myGetTransaction (fun c k => c + k) 1
    (fun _ _ _ => (ok, scenario_index))
    Evidence.empty_notarization 5 0 0 100 0 Evidence.stray_tx.

Definition last_unspent_in_scenario (ok : bool)
  : option (bool * CPBaaSNotarization * uint256 * Z * CTransaction) :=
  GetLastUnspentNotarization 0 TxDecode.plain_state TxDecode.height_of_data valid_version
    Evidence.empty_notarization FinalizationOutput.myGetTransaction (fun c k => c + k) 1
    (fun _ => (ok, scenario_unspent))
    Evidence.empty_notarization 5 0 0 (-1) Evidence.stray_tx.

Lemma GetLastNotarization_newest_valid_witness :
  exists nz before e after,
    last_in_scenario true = Some (true, nz, 7, Scenario.notarization_tx)
    ∧ scenario_index = before ++ e :: after
    ∧ spending e = false ∧ txhash e = 7 ∧ valid_version nz = true.
Proof.
  destruct (last_in_scenario true) as [[[[ok nz] txid] tx]|] eqn:Er;
    [|vm_compute in Er; discriminate].
  assert (Hok : ok = true) by (vm_compute in Er; congruence).
  assert (Hid : txid = 7) by (vm_compute in Er; congruence).
  assert (Htx : tx = Scenario.notarization_tx) by (vm_compute; vm_compute in Er; congruence).
  subst ok txid tx. pose proof Er as H. unfold last_in_scenario in H.
  apply GetLastNotarization_newest_valid in H; [|reflexivity].
  destruct H as (before & e & after & Hidx & Hsp & Hh & _ & Hv & _).
  exists nz, before, e, after.
  split; [reflexivity|]. split; [congruence|]. split; [exact Hsp|]. split; [congruence|exact Hv].
Defined.

Lemma GetLastUnspentNotarization_newest_valid_witness :
  exists nz before e after,
    last_unspent_in_scenario true = Some (true, nz, 7, 0, Scenario.notarization_tx)
    ∧ scenario_unspent = before ++ e :: after
    ∧ unspent_txhash e = 7 ∧ valid_version nz = true.
Proof.
  destruct (last_unspent_in_scenario true) as [[[[[ok nz] txid] outNum] tx]|] eqn:Er;
    [|vm_compute in Er; discriminate].
  assert (Hok : ok = true) by (vm_compute in Er; congruence).
  assert (Hid : txid = 7) by (vm_compute in Er; congruence).
  assert (Hn : outNum = 0) by (vm_compute in Er; congruence).
  assert (Htx : tx = Scenario.notarization_tx) by (vm_compute; vm_compute in Er; congruence).
  subst ok txid outNum tx. pose proof Er as H. unfold last_unspent_in_scenario in H.
  apply GetLastUnspentNotarization_newest_valid in H; [|reflexivity].
  destruct H as (before & e & after & Hidx & Hh & _ & _ & Hv & _).
  exists nz, before, e, after.
  split; [reflexivity|]. split; [congruence|]. split; [congruence|exact Hv].
Defined.

Lemma last_notarization_not_found_witness :
  exists nz txid tx,
    last_in_scenario false = Some (false, nz, txid, tx)
    ∧ nz = Evidence.empty_notarization ∧ txid = 0 ∧ tx = Evidence.stray_tx.
Proof.
  destruct (last_in_scenario false) as [[[[ok nz] txid] tx]|] eqn:Er;
    [|vm_compute in Er; discriminate].
  assert (Hok : ok = false) by (vm_compute in Er; congruence).
  subst ok. exists nz, txid, tx. split; [reflexivity|].
  unfold last_in_scenario in Er.
  apply (proj1 (last_notarization_not_found 0 TxDecode.plain_state TxDecode.height_of_data
                  valid_version Evidence.empty_notarization
                  FinalizationOutput.myGetTransaction (fun c k => c + k) 1
                  (fun _ _ _ => (false, scenario_index)) (fun _ => (false, scenario_unspent))
                  Evidence.empty_notarization 5 0 0 100 0 (-1) Evidence.stray_tx)).
  exact Er.
Defined.

End LastNotarization.

(** * The unspent notary evidence of a finalization *)

Module UnspentEvidence.

(** [CInputDescriptor]: a script, a value and the outpoint to spend. *)
Record CInputDescriptor := {
  in_scriptPubKey : CScript;
  in_nValue : Z;
  txIn : CUTXORef
}.

(** An entry of the index of unspent outputs, key and value, and the key of
    an entry of the address index of the transaction pool. *)
Record CAddressUnspentDbEntry := {
  entry_txhash : uint256;
  entry_index : Z;
  entry_script : CScript;
  entry_satoshis : Z;
  entry_blockHeight : Z
}.

Record CMempoolAddressDeltaKey := {
  delta_txhash : uint256;
  delta_index : Z
}.

Section Evidence.

Variable GetConditionID : Z -> Z -> Z.
Variable ObjectFinalizationConfirmedKey : uint160.
(** [GetAddressUnspent(key, CScript::P2IDX, unspent)] and
    [mempool.getAddressIndex({{key, CScript::P2IDX}}, unspent)]: the answer
    and the entries. *)
Variable GetAddressUnspent : Z -> bool * list CAddressUnspentDbEntry.
Variable getAddressIndex : Z -> bool * list CMempoolAddressDeltaKey.
(** [mempool.mapTx.find(hash)]: the transaction of the entry when there is one. *)
Variable mapTx_find : Z -> option CTransaction.

(** Lines 1203-1204: what is pushed for one entry of the unspent index. *)
Definition confirmed_input (e : CAddressUnspentDbEntry) : Z * CInputDescriptor :=
  (to_uint32 (entry_blockHeight e),
   {| in_scriptPubKey := entry_script e; in_nValue := entry_satoshis e;
      txIn := {| hash := entry_txhash e; n := to_uint32 (entry_index e) |} |}).

(** Lines 1206-1218: the loop over the entries of the pool.  [None] is a
    read of [vout] out of range. *)
Fixpoint unconfirmed_inputs (entries : list CMempoolAddressDeltaKey)
  : option (list (Z * CInputDescriptor)) :=
  match entries with
  | [] => Some []
  | oneUnconfirmed :: rest =>
      match mapTx_find (delta_txhash oneUnconfirmed) with
      | None => unconfirmed_inputs rest
      | Some tx =>
          match at_index (vout tx) (delta_index oneUnconfirmed) with
          | None => None
          | Some o =>
              match unconfirmed_inputs rest with
              | None => None
              | Some more =>
                  Some ((0, {| in_scriptPubKey := scriptPubKey o; in_nValue := nValue o;
                               txIn := {| hash := delta_txhash oneUnconfirmed;
                                          n := to_uint32 (delta_index oneUnconfirmed) |} |})
                        :: more)
              end
          end
      end
  end.

(** [CObjectFinalization::GetUnspentNotaryEvidence()].  The pool is asked
    only when the lookup in the unspent index answers false: the two
    lookups are the operands of one [||]. *)
Definition GetUnspentNotaryEvidence (fin : CObjectFinalization)
  : option (list (Z * CInputDescriptor)) :=
  let indexKey := GetConditionID (of_currencyID fin) ObjectFinalizationConfirmedKey in
  let '(okIndex, indexUnspent) := GetAddressUnspent indexKey in
  let '(okPool, mempoolUnspent) :=
    if okIndex then (false, []) else getAddressIndex indexKey in
  if (okIndex || okPool)
     && (negb (vsize indexUnspent =? 0) || negb (vsize mempoolUnspent =? 0))
  then match unconfirmed_inputs mempoolUnspent with
       | None => None
       | Some unconfirmed => Some ((confirmed_input <$> indexUnspent) ++ unconfirmed)
       end
  else Some [].

(** X24.  Whenever the lookup in the index of unspent outputs answers true,
    the result is made of the entries of that index alone, each with its
    block height, script, value and outpoint, in the order of the index:
    the transaction pool is not asked, and evidence that is only in the pool
    is not returned. *)
Theorem GetUnspentNotaryEvidence_index_alone (fin : CObjectFinalization) :
  (GetAddressUnspent (GetConditionID (of_currencyID fin) ObjectFinalizationConfirmedKey)).1
  = true ->
  GetUnspentNotaryEvidence fin
  = Some (confirmed_input
            <$> (GetAddressUnspent
                   (GetConditionID (of_currencyID fin) ObjectFinalizationConfirmedKey)).2).
Proof.
  unfold GetUnspentNotaryEvidence.
  destruct (GetAddressUnspent _) as [okIndex indexUnspent]. cbn [fst snd].
  intros ->. cbn [orb unconfirmed_inputs].
  destruct indexUnspent as [|e rest]; [reflexivity|].
  replace (vsize (e :: rest) =? 0) with false.
  - cbn [negb orb andb]. rewrite app_nil_r. reflexivity.
  - symmetry. apply Z.eqb_neq. unfold vsize. cbn [length]. lia.
Qed.

(** What the loop over the pool yields: nothing but entries of height 0. *)
Lemma unconfirmed_inputs_height entries l :
  unconfirmed_inputs entries = Some l -> Forall (fun x => x.1 = 0) l.
Proof.
  revert l. induction entries as [|k rest IH]; intros l; [intros [= <-]; constructor|].
  cbn [unconfirmed_inputs].
  destruct (mapTx_find (delta_txhash k)) as [tx|]; [|apply IH].
  destruct (at_index (vout tx) (delta_index k)) as [o|]; [|discriminate].
  destruct (unconfirmed_inputs rest) as [more|]; [|discriminate].
  intros [= <-]. constructor; [reflexivity | apply IH; reflexivity].
Qed.

End Evidence.

(** The scenario: the unspent index holds one piece of evidence, mined at
    height 90; the pool holds another, on transaction 7. *)
Definition mined_evidence : CAddressUnspentDbEntry :=
  {| entry_txhash := 4; entry_index := 1; entry_script := ScriptPlain; entry_satoshis := 0;
     entry_blockHeight := 90 |}.

Definition pool_evidence : CMempoolAddressDeltaKey := {| delta_txhash := 7; delta_index := 0 |}.

Definition evidence_in_scenario (okIndex : bool) : option (list (Z * CInputDescriptor)) :=
  GetUnspentNotaryEvidence (fun c k => c + k) 2
    (fun _ => (okIndex, [mined_evidence])) (fun _ => (true, [pool_evidence]))
    FinalizationOutput.myGetTransaction Finalization.finalization6.

Lemma GetUnspentNotaryEvidence_index_alone_witness :
  evidence_in_scenario true = Some [confirmed_input mined_evidence].
Proof.
  unfold evidence_in_scenario.
  rewrite (GetUnspentNotaryEvidence_index_alone (fun c k => c + k) 2
             (fun _ => (true, [mined_evidence])) (fun _ => (true, [pool_evidence]))
             FinalizationOutput.myGetTransaction Finalization.finalization6 eq_refl).
  reflexivity.
Defined.

(** The pool is merged in only when the lookup in the unspent index fails. *)
Example pool_evidence_after_failed_lookup :
  length <$> evidence_in_scenario false = Some 2%nat.
Proof. vm_compute. reflexivity. Qed.

End UnspentEvidence.

(** * Spending a finalization: [ValidateFinalizeNotarization] *)

#[global] Instance CUTXORef_eq_dec : EqDecision CUTXORef.
Proof. solve_decision. Defined.

Module FinalizeSpend.
Section Validate.

Variable myGetTransaction : Z -> option CTransaction.
(** [CTransaction()], what [sourceTx] holds when nothing is found. *)
Variable CTransaction_default : CTransaction.
(** [CObjectFinalization()], the deserialising constructor, and the
    accessors of the class. *)
Variable CObjectFinalization_default : CObjectFinalization.
Variable DecodeFinalization : bytes -> CObjectFinalization.
Variable FinalizationIsValid : CObjectFinalization -> bool.
Variable FinalizationIsConfirmed : CObjectFinalization -> bool.
Variable FinalizationIsRejected : CObjectFinalization -> bool.
(** [output.IsOnSameTransaction()]. *)
Variable IsOnSameTransaction : CUTXORef -> bool.
Variable EVAL_IDENTITY_PRIMARY : EvalCode.
Variable VERSION_V3 : Z.
Variable GetCachedCurrency : Z -> CCurrencyDefinition.
Variable NOTARIZATION_AUTO : Z.
Variable NOTARIZATION_NOTARY_CONFIRM : Z.
Variable PBAAS_TESTMODE : bool.
(** The script constructor of [CPBaaSNotarization] and [IsValid]. *)
Variable VERSION_INVALID : Z.
Variable CCoinbaseCurrencyState_default : CCoinbaseCurrencyState.
Variable FromVector : bytes -> CPBaaSNotarization -> CPBaaSNotarization.
Variable NotarizationIsValid : CPBaaSNotarization -> bool.
(** [GetNotarizationData(systemID, cnd)] and [cnd.IsConfirmed()]. *)
Variable GetNotarizationData : Z -> bool * CChainNotarizationData.
Variable IsConfirmed : CChainNotarizationData -> bool.

(** [GetOldFinalization(spendingTx, nIn, &sourceTx, &height)]: the
    finalization and [sourceTx]; [vin] holds the outpoints the inputs of the
    spending transaction spend.  The height written through the last
    argument is not read by the caller and is left out. *)
Definition GetOldFinalization (vin : list CUTXORef) (nIn : Z)
  : Step (CObjectFinalization * CTransaction) :=
  prevout ← defined (at_index vin nIn) ;
  match myGetTransaction (hash prevout) with
  | None => Done (CObjectFinalization_default, CTransaction_default)
  | Some sourceTx =>
      o ← defined (at_index (vout sourceTx) (n prevout)) ;
      let '(isCC, p) := IsPayToCryptoCondition (scriptPubKey o) COptCCParams_default in
      if isCC && ccValid p
         && bool_decide (evalCode p = EVAL_IDENTITY_PRIMARY)
         && (VERSION_V3 <=? ccVersion p)
         && (1 <? vsize (vData p))
      then Done (DecodeFinalization (hd [] (vData p)), sourceTx)
      else Done (CObjectFinalization_default, sourceTx)
  end.

(** [oldFinalization.output.hash = h]. *)
Definition with_output_hash (f : CObjectFinalization) (h : uint256) : CObjectFinalization :=
  {| of_version := of_version f; finalizationType := finalizationType f;
     of_confirmed := of_confirmed f; of_currencyID := of_currencyID f;
     output := {| hash := h; n := n (output f) |};
     evidenceInputs := evidenceInputs f; evidenceOutputs := evidenceOutputs f;
     minFinalizationHeight := minFinalizationHeight f |}.

(** The test of lines 1746-1751 on one output of the spending transaction:
    a valid finalization of a notarization for the output [oldOutput]. *)
Definition isFinalizationOf (oldOutput : CUTXORef) (oneOut : CTxOut) : bool :=
  let '(isCC, p) := IsPayToCryptoCondition (scriptPubKey oneOut) COptCCParams_default in
  isCC && ccValid p
  && bool_decide (evalCode p = EVAL_FINALIZE_NOTARIZATION)
  && negb (vsize (vData p) =? 0)
  && FinalizationIsValid (DecodeFinalization (hd [] (vData p)))
  && bool_decide (output (DecodeFinalization (hd [] (vData p))) = oldOutput).

(** The loop of lines 1741-1760: [foundFinalization] when it ends. *)
Fixpoint finalization_outputs (oldOutput : CUTXORef) (outs : list CTxOut)
         (foundFinalization : bool) : Step bool :=
  match outs with
  | [] => Done foundFinalization
  | oneOut :: rest =>
      if isFinalizationOf oldOutput oneOut then
        if foundFinalization then Fail "duplicate-finalization"
        else finalization_outputs oldOutput rest true
      else finalization_outputs oldOutput rest foundFinalization
  end.

(** Lines 1695-1708: the transaction of the notarization, and the
    finalization with its reference completed. *)
Definition notarization_transaction (oldFinalization : CObjectFinalization)
           (sourceTx : CTransaction) : Step (CObjectFinalization * CTransaction) :=
  if IsOnSameTransaction (output oldFinalization)
  then Done (with_output_hash oldFinalization (GetHash sourceTx), sourceTx)
  else match FinalizationOutput.GetOutputTransaction myGetTransaction oldFinalization sourceTx with
       | Some notarizationTx => Done (oldFinalization, notarizationTx)
       | None => Fail "notarization-transaction-not-found"
       end.

(** Lines 1687-1765: the notary-confirm protocol. *)
Definition notary_confirm (tx : CTransaction) (SystemID : Z)
           (oldFinalization : CObjectFinalization) (sourceTx : CTransaction) : Step unit :=
  require (negb (FinalizationIsConfirmed oldFinalization
                 || FinalizationIsRejected oldFinalization)) "already-finalized" ;;
  resolved ← notarization_transaction oldFinalization sourceTx ;
  let oldFinalization := resolved.1 in
  let notarizationTx := resolved.2 in
  require (n (output oldFinalization) <? vsize (vout notarizationTx)) "invalid-finalization" ;;
  o ← defined (at_index (vout notarizationTx) (n (output oldFinalization))) ;
  let pbn := TxDecode.CPBaaSNotarization_of_script VERSION_INVALID
               CCoinbaseCurrencyState_default FromVector (scriptPubKey o) in
  require (NotarizationIsValid pbn) "invalid-notarization" ;;
  let '(ok, cnd) := GetNotarizationData SystemID in
  require (ok && IsConfirmed cnd) "invalid-notarization" ;;
  foundFinalization ← finalization_outputs (output oldFinalization) (vout tx) false ;
  require foundFinalization "invalid-finalization-spend".

(** [ValidateFinalizeNotarization(cp, eval, tx, nIn, fulfilled)]: [Done] is
    the answer true, [Fail msg] is [eval->Error(msg)]. *)
Definition ValidateFinalizeNotarization (tx : CTransaction) (vin : list CUTXORef) (nIn : Z)
  : Step unit :=
  old ← GetOldFinalization vin nIn ;
  let oldFinalization := old.1 in
  let sourceTx := old.2 in
  require (FinalizationIsValid oldFinalization) "Invalid finalization output" ;;
  let curDef := GetCachedCurrency (of_currencyID oldFinalization) in
  require (cdValid curDef) "Invalid currency ID in finalization output" ;;
  let SystemID := GetID curDef in
  if notarizationProtocol curDef =? NOTARIZATION_AUTO then
    require PBAAS_TESTMODE "auto-notarization"
  else if notarizationProtocol curDef =? NOTARIZATION_NOTARY_CONFIRM then
    notary_confirm tx SystemID oldFinalization sourceTx
  else Done ().

(** *** The output that is spent *)

(** The output input [nIn] spends is found, and it is [o]. *)
Definition spends (vin : list CUTXORef) (nIn : Z) (o : CTxOut) : Prop :=
  exists prevout sourceTx,
    at_index vin nIn = Some prevout
    ∧ myGetTransaction (hash prevout) = Some sourceTx
    ∧ at_index (vout sourceTx) (n prevout) = Some o.

(** X25.  With a default-constructed finalization that is not valid, the
    spend of an output whose evaluation code is not [EVAL_IDENTITY_PRIMARY]
    is refused with the error of an invalid finalization output; so is, in
    particular, the spend of every finalize-notarization output, since
    [GetOldFinalization] decodes a finalization only out of an
    identity-primary output with more than one data item. *)
Theorem finalization_output_is_not_decoded tx vin nIn o :
  FinalizationIsValid CObjectFinalization_default = false ->
  spends vin nIn o ->
  (forall p, scriptPubKey o = ScriptCC p -> evalCode p <> EVAL_IDENTITY_PRIMARY) ->
  ValidateFinalizeNotarization tx vin nIn = Fail "Invalid finalization output".
Proof.
  intros Hdef (prevout & sourceTx & Hin & Htx & Ho) Hcode.
  unfold ValidateFinalizeNotarization, GetOldFinalization.
  rewrite Hin. cbn. rewrite Htx, Ho. cbn.
  destruct (scriptPubKey o) as [|p] eqn:Es; cbn.
  - rewrite Hdef. reflexivity.
  - rewrite (bool_decide_eq_false_2 _ (Hcode p eq_refl)).
    rewrite andb_false_r. cbn. rewrite Hdef. reflexivity.
Qed.

(** *** The outputs of the spending transaction *)

Lemma finalization_outputs_found oldOutput outs :
  finalization_outputs oldOutput outs true =
    if (TxDecode.count_outs (isFinalizationOf oldOutput) outs =? 0)%nat
    then Done true else Fail "duplicate-finalization".
Proof.
  induction outs as [|o rest IH]; [reflexivity|].
  cbn [finalization_outputs]. rewrite TxDecode.count_outs_cons.
  destruct (isFinalizationOf oldOutput o); [reflexivity | exact IH].
Qed.

Lemma finalization_outputs_one oldOutput outs :
  finalization_outputs oldOutput outs false = Done true ->
  TxDecode.count_outs (isFinalizationOf oldOutput) outs = 1%nat.
Proof.
  induction outs as [|o rest IH]; [discriminate|].
  cbn [finalization_outputs]. rewrite TxDecode.count_outs_cons.
  destruct (isFinalizationOf oldOutput o); [|exact IH].
  rewrite finalization_outputs_found.
  destruct (Nat.eqb_spec (TxDecode.count_outs (isFinalizationOf oldOutput) rest) 0);
    [intros _; congruence | discriminate].
Qed.

(** What the notary-confirm protocol has seen when it lets a spend pass. *)
Definition confirmable (tx : CTransaction) (SystemID : Z)
           (oldFinalization : CObjectFinalization) (sourceTx : CTransaction) : Prop :=
  FinalizationIsConfirmed oldFinalization = false
  ∧ FinalizationIsRejected oldFinalization = false
  ∧ exists resolved notarizationTx o,
      notarization_transaction oldFinalization sourceTx = Done (resolved, notarizationTx)
      ∧ at_index (vout notarizationTx) (n (output resolved)) = Some o
      ∧ NotarizationIsValid
          (TxDecode.CPBaaSNotarization_of_script VERSION_INVALID
             CCoinbaseCurrencyState_default FromVector (scriptPubKey o)) = true
      ∧ (GetNotarizationData SystemID).1 = true
      ∧ IsConfirmed (GetNotarizationData SystemID).2 = true
      ∧ TxDecode.count_outs (isFinalizationOf (output resolved)) (vout tx) = 1%nat.

Lemma notary_confirm_done tx SystemID oldFinalization sourceTx :
  notary_confirm tx SystemID oldFinalization sourceTx = Done () ->
  confirmable tx SystemID oldFinalization sourceTx.
Proof.
  unfold notary_confirm, confirmable.
  destruct (FinalizationIsConfirmed oldFinalization); cbn; [discriminate|].
  destruct (FinalizationIsRejected oldFinalization); cbn; [discriminate|].
  destruct (notarization_transaction oldFinalization sourceTx) as [[resolved ntx]|msg|];
    cbn; [|discriminate..].
  destruct (n (output resolved) <? vsize (vout ntx)); cbn; [|discriminate].
  destruct (at_index (vout ntx) (n (output resolved))) as [o|] eqn:Eo; cbn; [|discriminate].
  destruct (NotarizationIsValid _) eqn:Ev; cbn; [|discriminate].
  destruct (GetNotarizationData SystemID) as [ok cnd]. cbn [fst snd].
  destruct ok; cbn; [|discriminate].
  destruct (IsConfirmed cnd) eqn:Ecnd; cbn; [|discriminate].
  destruct (finalization_outputs (output resolved) (vout tx) false) as [found|msg|] eqn:Ef;
    cbn; [|discriminate..].
  destruct found; [|discriminate].
  intros _. apply finalization_outputs_one in Ef.
  split; [reflexivity|]. split; [reflexivity|].
  exists resolved, ntx, o.
  repeat split; try reflexivity; assumption.
Qed.

(** X26.  A spend the function accepts for a currency under the
    notary-confirm protocol spends a finalization that is valid and neither
    confirmed nor rejected, whose notarization transaction is found and
    holds a valid notarization at the referenced output, for a system whose
    notarization history has a confirmed entry; and the spending transaction
    holds exactly one output that is a valid finalize-notarization
    finalization of that same output: none and two or more are both
    refused. *)
Theorem ValidateFinalizeNotarization_one_finalization tx vin nIn :
  ValidateFinalizeNotarization tx vin nIn = Done () ->
  exists oldFinalization sourceTx,
    GetOldFinalization vin nIn = Done (oldFinalization, sourceTx)
    ∧ FinalizationIsValid oldFinalization = true
    ∧ cdValid (GetCachedCurrency (of_currencyID oldFinalization)) = true
    ∧ (notarizationProtocol (GetCachedCurrency (of_currencyID oldFinalization))
       <> NOTARIZATION_AUTO ->
       notarizationProtocol (GetCachedCurrency (of_currencyID oldFinalization))
       = NOTARIZATION_NOTARY_CONFIRM ->
       confirmable tx (GetID (GetCachedCurrency (of_currencyID oldFinalization)))
         oldFinalization sourceTx).
Proof.
  unfold ValidateFinalizeNotarization.
  destruct (GetOldFinalization vin nIn) as [[oldFinalization sourceTx]|msg|]; cbn;
    [|discriminate..].
  destruct (FinalizationIsValid oldFinalization) eqn:Ev; cbn; [|discriminate].
  destruct (cdValid (GetCachedCurrency (of_currencyID oldFinalization))) eqn:Ec; cbn;
    [|discriminate].
  intros H. exists oldFinalization, sourceTx.
  split; [reflexivity|]. split; [exact Ev|]. split; [exact Ec|].
  intros Hauto Hconfirm.
  destruct (Z.eqb_spec (notarizationProtocol (GetCachedCurrency (of_currencyID oldFinalization)))
              NOTARIZATION_AUTO) as [E|_]; [contradiction|].
  destruct (Z.eqb_spec (notarizationProtocol (GetCachedCurrency (of_currencyID oldFinalization)))
              NOTARIZATION_NOTARY_CONFIRM) as [_|E]; [|contradiction].
  apply notary_confirm_done. exact H.
Qed.

End Validate.

(** The scenario.  Transaction 8 carries a finalize-notarization output at
    index 2; transaction 30 carries, at index 0, an output of another
    evaluation code with two data items, which decodes to the pending
    finalization of currency 6 for output 0 of transaction 7; transaction 20
    spends it and carries one finalization.  Currency 6 is under the
    notary-confirm protocol, numbered 1, and the history of its system has a
    confirmed entry. *)
Definition identity_out : CTxOut :=
  {| scriptPubKey := ScriptCC {| ccValid := true; ccVersion := 3; evalCode := EVAL_OTHER;
                                 vData := [[1]; [2]] |};
     nValue := 0 |}.

Definition source_tx : CTransaction := {| GetHash := 30; vout := [identity_out] |}.

Definition spending_tx : CTransaction :=
  {| GetHash := 20; vout := [TxDecode.ccOut EVAL_FINALIZE_NOTARIZATION [2]] |}.

Definition pool (h : Z) : option CTransaction :=
  if h =? 8 then Some TxDecode.single_tx
  else if h =? 30 then Some source_tx
  else FinalizationOutput.myGetTransaction h.

Definition valid_finalization (f : CObjectFinalization) : bool := negb (of_version f =? 0).

Definition validate_in_scenario (tx : CTransaction) (vin : list CUTXORef) (nIn : Z)
  : Step unit :=
  ValidateFinalizeNotarization pool Evidence.stray_tx Evidence.empty_finalization
    (fun _ => Finalization.finalization6) valid_finalization of_confirmed (fun _ => false)
    (fun r => IsNull (hash r)) EVAL_OTHER 3 (fun _ => Scenario.currency6 [20]) 0 1 false
    0 TxDecode.plain_state TxDecode.height_of_data LastNotarization.valid_version
    (fun _ => (true, Accepted.history)) Accepted.IsConfirmed tx vin nIn.

Lemma finalization_output_is_not_decoded_witness :
  spends pool [{| hash := 8; n := 2 |}] 0 (TxDecode.ccOut EVAL_FINALIZE_NOTARIZATION [2])
  ∧ validate_in_scenario spending_tx [{| hash := 8; n := 2 |}] 0
    = Fail "Invalid finalization output".
Proof.
  assert (Hs : spends pool [{| hash := 8; n := 2 |}] 0
                 (TxDecode.ccOut EVAL_FINALIZE_NOTARIZATION [2])).
  { exists {| hash := 8; n := 2 |}, TxDecode.single_tx. repeat split. }
  split; [exact Hs|].
  unfold validate_in_scenario.
  apply (finalization_output_is_not_decoded pool) with
    (o := TxDecode.ccOut EVAL_FINALIZE_NOTARIZATION [2]); [reflexivity | exact Hs |].
  intros p [= <-]. discriminate.
Defined.

Lemma ValidateFinalizeNotarization_one_finalization_witness :
  validate_in_scenario spending_tx [{| hash := 30; n := 0 |}] 0 = Done ()
  ∧ exists oldFinalization sourceTx,
      GetOldFinalization pool Evidence.stray_tx Evidence.empty_finalization
        (fun _ => Finalization.finalization6) EVAL_OTHER 3 [{| hash := 30; n := 0 |}] 0
      = Done (oldFinalization, sourceTx)
      ∧ valid_finalization oldFinalization = true.
Proof.
  assert (H : validate_in_scenario spending_tx [{| hash := 30; n := 0 |}] 0 = Done ())
    by (vm_compute; reflexivity).
  split; [exact H|].
  unfold validate_in_scenario in H.
  apply ValidateFinalizeNotarization_one_finalization in H
    as (oldFinalization & sourceTx & Hold & Hvalid & _).
  exists oldFinalization, sourceTx. split; [exact Hold | exact Hvalid].
Defined.

(** A second finalization of the same output among the outputs of the
    spending transaction is refused, and so is none. *)
Example duplicate_finalization_refused :
  validate_in_scenario
    {| GetHash := 21; vout := vout spending_tx ++ vout spending_tx |}
    [{| hash := 30; n := 0 |}] 0
  = Fail "duplicate-finalization"
  ∧ validate_in_scenario {| GetHash := 22; vout := [] |} [{| hash := 30; n := 0 |}] 0
    = Fail "invalid-finalization-spend".
Proof. split; vm_compute; reflexivity. Qed.

End FinalizeSpend.

(** * Building an earned notarization *)

(** [CRPCChainData]: the notary chain and how to reach it; [rpcValid] is the
    value of [IsValid()]. *)
Record CRPCChainData := {
  rpcValid : bool;
  chainDefinition : CCurrencyDefinition;
  rpcHost : string
}.

(** What [CreateEarnedNotarization] reads in the reply of the notary chain to
    [getbestproofroot]: whether the result is null, [bestproofrootindex] as
    [uni_get_int] reads it with -1 for a missing one, [latestproofroot] as
    the constructor of [CProofRoot] decodes it, and the elements of
    [currencystates] as the constructor of [CCoinbaseCurrencyState] decodes
    them, [None] when the value is no array. *)
Record BestProofRoot := {
  replyIsNull : bool;
  bestproofrootindex : Z;
  latestproofroot : CProofRoot;
  currencystates : option (list CCoinbaseCurrencyState)
}.

Definition with_height (nz : CPBaaSNotarization) (h : Z) : CPBaaSNotarization :=
  {| nVersion := nVersion nz; flags := flags nz; currencyID := currencyID nz;
     notarizationHeight := h; currencyState := currencyState nz;
     prevNotarization := prevNotarization nz; hashPrevNotarization := hashPrevNotarization nz;
     prevHeight := prevHeight nz; currencyStates := currencyStates nz;
     proofRoots := proofRoots nz |}.

Definition with_currencyStates (nz : CPBaaSNotarization) (m : gmap Z CCoinbaseCurrencyState)
  : CPBaaSNotarization :=
  {| nVersion := nVersion nz; flags := flags nz; currencyID := currencyID nz;
     notarizationHeight := notarizationHeight nz; currencyState := currencyState nz;
     prevNotarization := prevNotarization nz; hashPrevNotarization := hashPrevNotarization nz;
     prevHeight := prevHeight nz; currencyStates := m; proofRoots := proofRoots nz |}.

(** The three assignments of lines 1151-1155. *)
Definition with_prior (nz : CPBaaSNotarization) (ref : CUTXORef) (h : uint256) (height : Z)
  : CPBaaSNotarization :=
  {| nVersion := nVersion nz; flags := flags nz; currencyID := currencyID nz;
     notarizationHeight := notarizationHeight nz; currencyState := currencyState nz;
     prevNotarization := ref; hashPrevNotarization := h; prevHeight := height;
     currencyStates := currencyStates nz; proofRoots := proofRoots nz |}.

Module Earned.
Section Create.

(** [CTransferDestination], which the function only stores. *)
Variable CTransferDestination : Type.
Variable VERUS_CHAINID : uint160.
(** The active chain under the first lock and under the second one, taken
    after the call to the notary chain has returned. *)
Variable chainBefore : ProofRoot.CChain.
Variable chainAfter : ProofRoot.CChain.
Variable MMR : Type.
Variable MMVRoot : MMR -> Z -> uint256.
Variable GetMMV : ProofRoot.CChain -> ProofRoot.MMView MMR.
(** [GetNotarizationData(systemID, cnd, &txes)]: the answer, [cnd] and [txes]. *)
Variable GetNotarizationData :
  Z -> bool * CChainNotarizationData * list (CTransaction * uint256).
(** The result of [RPCCallRoot("getbestproofroot", params)] for the proof
    roots and the [lastconfirmed] sent; a call that throws gives a null one. *)
Variable RPCCallRoot : list CProofRoot -> Z -> BestProofRoot.
(** [mapBlockIndex.find(hash)] and [chainActive.Contains]: the height of the
    block of that hash when the index has it and the active chain holds it. *)
Variable BlockInChain : uint256 -> option Z.
(** A positive [int] constant of the class. *)
Variable BLOCK_NOTARIZATION_MODULO : Z.
Variable ProofRootIsValid : CProofRoot -> bool.
Variable VERSION_CURRENT : Z.
Variable TYPE_PBAAS : Z.
(** [state.GetID()] of a currency state. *)
Variable StateCurrencyID : CCoinbaseCurrencyState -> uint160.
Variable GetCachedCurrency : Z -> CCurrencyDefinition.
Variable ThisChain : CCurrencyDefinition.
(** [def.IsGateway()], [def.gatewayConverterName],
    [CCurrencyDefinition::GetID(name, parent)] and the ID of
    [ConnectedChains.FirstNotaryChain().chainDefinition]. *)
Variable IsGateway : CCurrencyDefinition -> bool.
Variable gatewayConverterName : CCurrencyDefinition -> string.
Variable CurrencyID : string -> uint160 -> uint160.
Variable FirstNotaryChainID : uint160.
(** The hash writer of [CMMRNode] applied to a notarization. *)
Variable HashNotarization : CPBaaSNotarization -> uint256.
Variable NOTARIZATION_NOTARY_CHAINID : Z.
Variable FINALIZE_NOTARIZATION : Z.
Variable FINALIZATION_VERSION_CURRENT : Z.

Definition errorPrefix : string := "CreateEarnedNotarization: ".

(** Lines 990-998: the proof roots of the notary system in the history. *)
Definition known_roots (SystemID : Z) (cnd : CChainNotarizationData) : list CProofRoot :=
  omap (fun oneNot : CUTXORef * CPBaaSNotarization => proofRoots oneNot.2 !! SystemID)
       (vtx cnd).

(** Lines 1046-1047: the two notarization periods, both [int]; [height] is a
    [uint32_t]. *)
Definition blockPeriodNumber (height : Z) : Z :=
  ProofRoot.to_int32 (Z.quot (to_uint32 (height + 1)) BLOCK_NOTARIZATION_MODULO).

Definition priorBlockPeriod (priorHeight : Z) : Z :=
  ProofRoot.to_int32 (Z.quot priorHeight BLOCK_NOTARIZATION_MODULO).

(** What the first part hands on: the history, the reply of the notary
    chain and the entry of the history that the notary chain agrees with. *)
Record Agreed := {
  cnd : CChainNotarizationData;
  result : BestProofRoot;
  prior : CUTXORef * CPBaaSNotarization
}.

(** Lines 973-1052: everything before the notarization of the caller is
    touched. *)
Definition agree (externalSystem : CRPCChainData) : Step Agreed :=
  let SystemID := GetID (chainDefinition externalSystem) in
  let height := to_uint32 (ProofRoot.Height chainBefore) in
  require (negb (negb (rpcValid externalSystem) || bool_decide (rpcHost externalSystem = EmptyString)))
          "no-notary" ;;
  let '(ok, cnd, txes) := GetNotarizationData SystemID in
  require ok (errorPrefix +:+ "no prior notarization found") ;;
  let proofRootsSent := known_roots SystemID cnd in
  require (negb (vsize proofRootsSent =? 0)) (errorPrefix +:+ "no valid prior state root found") ;;
  let result := RPCCallRoot proofRootsSent (lastConfirmed cnd) in
  let notaryIdx := bestproofrootindex result in
  require (negb (replyIsNull result || (notaryIdx =? -1)))
          (if replyIsNull result then "no-notary" else "no-matching-proof-roots-found") ;;
  priorTx ← defined (at_index txes notaryIdx) ;
  prior ← defined (at_index (vtx cnd) notaryIdx) ;
  match BlockInChain priorTx.2 with
  | None => Fail (errorPrefix +:+ "prior notarization not in blockchain")
  | Some priorHeight =>
      require (negb (blockPeriodNumber height <=? priorBlockPeriod priorHeight)) "ineligible" ;;
      mret {| cnd := cnd; result := result; prior := prior |}
  end.

(** Lines 1083-1112: the currency states of the reply, kept when they are of
    a known currency of the notary system. *)
Fixpoint currency_state_loop (SystemID : Z) (states : list CCoinbaseCurrencyState)
         (notarization : CPBaaSNotarization) : Verdict * CPBaaSNotarization :=
  match states with
  | [] => (Valid, notarization)
  | oneCurState :: rest =>
      if negb (csValid oneCurState)
      then (Error (errorPrefix +:+ "invalid or missing currency state data from notary"),
            notarization)
      else
        let oneCurDef := GetCachedCurrency (StateCurrencyID oneCurState) in
        if negb (cdValid oneCurDef) then
          if GetID oneCurDef =? SystemID
          then (Error (errorPrefix +:+ "system currency invalid - possible corruption"),
                notarization)
          else currency_state_loop SystemID rest notarization
        else if systemID oneCurDef =? SystemID then
          let oneCurDefID := GetID oneCurDef in
          if currencyID notarization =? oneCurDefID
          then currency_state_loop SystemID rest (with_currencyState notarization oneCurState)
          else currency_state_loop SystemID rest
                 (with_currencyStates notarization
                    (<[oneCurDefID := oneCurState]> (currencyStates notarization)))
        else currency_state_loop SystemID rest notarization
  end.

(** Lines 1054-1112: the copy of the prior notarization takes the height,
    the latest proof root and the currency states of the reply.  Beside the
    verdict stands the notarization of the caller as the function leaves it. *)
Definition fill (SystemID height : Z) (priorNotarization : CPBaaSNotarization)
           (result : BestProofRoot) : Verdict * CPBaaSNotarization :=
  let notarization := with_height priorNotarization height in
  let latestProofRoot := latestproofroot result in
  if negb (ProofRootIsValid latestProofRoot) then (Error "no-latest-proof-root", notarization)
  else
    let notarization :=
      Accepted.with_proofRoots notarization
        (<[SystemID := latestProofRoot]> (proofRoots notarization)) in
    match currencystates result with
    | Some (oneCurState :: rest) =>
        if negb (height =? to_uint32 (ProofRoot.Height chainAfter))
        then (Error "stale-block", notarization)
        else currency_state_loop SystemID (oneCurState :: rest)
               (with_currencyStates notarization ∅)
    | _ => (Error (errorPrefix +:+ "invalid or missing currency state data from notary"),
            notarization)
    end.

(** Lines 1132-1140. *)
Definition gatewayConverterID (systemDef : CCurrencyDefinition) (SystemID thisChainID : Z)
  : uint160 :=
  if IsGateway systemDef && negb (bool_decide (gatewayConverterName systemDef = EmptyString))
  then CurrencyID (gatewayConverterName systemDef) thisChainID
  else if (SystemID =? FirstNotaryChainID)
          && negb (bool_decide (gatewayConverterName ThisChain = EmptyString))
  then CurrencyID (gatewayConverterName ThisChain) thisChainID
  else 0.

(** Lines 1141-1149: the last confirmed state of the gateway converter. *)
Definition add_gateway_state (gateway : uint160) (notarization : CPBaaSNotarization)
  : option CPBaaSNotarization :=
  if IsNull gateway then Some notarization
  else
    let '(ok, gatewayCND, _) := GetNotarizationData gateway in
    if ok && negb (vsize (vtx gatewayCND) =? 0) then
      confirmed ← at_index (vtx gatewayCND) (lastConfirmed gatewayCND) ;
      Some (with_currencyStates notarization
              (<[gateway := currencyState confirmed.2]> (currencyStates notarization)))
    else Some notarization.

(** Lines 1115-1155: the proof root of this chain, the gateway converter
    and the link to the prior notarization.  [None] is the dereference of a
    null block pointer or a read past the end of a vector. *)
Definition complete (systemDef : CCurrencyDefinition) (height : Z)
           (prior : CUTXORef * CPBaaSNotarization) (notarization : CPBaaSNotarization)
  : option CPBaaSNotarization :=
  curBlkIndex ← ProofRoot.block_at chainAfter (ProofRoot.to_int32 height) ;
  let mmv := GetMMV chainAfter in
  let mmv := if negb (to_uint32 (ProofRoot.Height chainAfter) =? height)
             then ProofRoot.resize MMR mmv height else mmv in
  let thisChainID := GetID ThisChain in
  let notarization :=
    Accepted.with_proofRoots notarization
      (<[thisChainID := ProofRoot.mkProofRoot VERSION_CURRENT TYPE_PBAAS thisChainID height
                          (ProofRoot.GetRoot MMR MMVRoot mmv)
                          (ProofRoot.GetBlockHash curBlkIndex)
                          (ProofRoot.CompactChainPower curBlkIndex)]>
         (proofRoots notarization)) in
  notarization ← add_gateway_state (gatewayConverterID systemDef (GetID systemDef) thisChainID)
                   notarization ;
  Some (with_prior notarization prior.1 (HashNotarization prior.2)
          (notarizationHeight prior.2)).

(** Lines 1157-1185: the earned notarization output and, unless the notary
    chain is addressed by its identity, the finalization output. *)
Definition emit (systemDef : CCurrencyDefinition) (height : Z)
           (notarization : CPBaaSNotarization) (txOutputs : list (ConditionScript * Z))
  : list (ConditionScript * Z) :=
  let dests :=
    if notarizationProtocol systemDef =? NOTARIZATION_NOTARY_CHAINID
    then [DestIdentity (GetID systemDef)]
    else [DestContractKey EVAL_EARNEDNOTARIZATION] in
  let txOutputs :=
    txOutputs ++ [(NotarizationScript EVAL_EARNEDNOTARIZATION dests 1 notarization, 0)] in
  if negb (notarizationProtocol systemDef =? NOTARIZATION_NOTARY_CHAINID) then
    let dests := [DestContractKey EVAL_FINALIZE_NOTARIZATION] in
    let fin := {| of_version := FINALIZATION_VERSION_CURRENT;
                  finalizationType := FINALIZE_NOTARIZATION;
                  of_confirmed := false;
                  of_currencyID := VERUS_CHAINID;
                  output := {| hash := 0; n := vsize txOutputs |};
                  evidenceInputs := []; evidenceOutputs := [];
                  minFinalizationHeight := to_uint32 (height + 15) |} in
    txOutputs ++ [(FinalizationScript EVAL_FINALIZE_NOTARIZATION dests 1 fin, 0)]
  else txOutputs.

(** What the caller sees: the error left in [state] ([None] when the
    function returns true), [txOutputs], and the notarization and its
    proposer after the call. *)
Record Returned := {
  error : option string;
  txOutputs : list (ConditionScript * Z);
  notarization : CPBaaSNotarization;
  proposer : CTransferDestination
}.

(** [CPBaaSNotarization::CreateEarnedNotarization].  The record of a
    notarization has no proposer, so the proposer of the notarization of the
    caller travels beside it.  [None] is undefined behaviour. *)
Definition CreateEarnedNotarization (externalSystem : CRPCChainData)
           (Proposer : CTransferDestination) (txOutputs0 : list (ConditionScript * Z))
           (notarization0 : CPBaaSNotarization) (proposer0 : CTransferDestination)
  : option Returned :=
  let systemDef := chainDefinition externalSystem in
  let SystemID := GetID systemDef in
  let height := to_uint32 (ProofRoot.Height chainBefore) in
  match agree externalSystem with
  | Undefined => None
  | Fail msg =>
      Some {| error := Some msg; txOutputs := txOutputs0;
              notarization := notarization0; proposer := proposer0 |}
  | Done a =>
      match fill SystemID height (prior a).2 (result a) with
      | (Error msg, notarization) =>
          Some {| error := Some msg; txOutputs := txOutputs0;
                  notarization := notarization; proposer := Proposer |}
      | (Valid, notarization) =>
          notarization ← complete systemDef height (prior a) notarization ;
          Some {| error := None; txOutputs := emit systemDef height notarization txOutputs0;
                  notarization := notarization; proposer := Proposer |}
      end
  end.

(** *** The first part *)

Lemma agree_done externalSystem a :
  agree externalSystem = Done a ->
  exists txes priorTx priorHeight,
    rpcValid externalSystem = true
    ∧ rpcHost externalSystem <> EmptyString
    ∧ GetNotarizationData (GetID (chainDefinition externalSystem)) = (true, cnd a, txes)
    ∧ known_roots (GetID (chainDefinition externalSystem)) (cnd a) <> []
    ∧ result a = RPCCallRoot (known_roots (GetID (chainDefinition externalSystem)) (cnd a))
                   (lastConfirmed (cnd a))
    ∧ replyIsNull (result a) = false
    ∧ bestproofrootindex (result a) <> -1
    ∧ at_index txes (bestproofrootindex (result a)) = Some priorTx
    ∧ at_index (vtx (cnd a)) (bestproofrootindex (result a)) = Some (prior a)
    ∧ BlockInChain priorTx.2 = Some priorHeight
    ∧ priorBlockPeriod priorHeight
      < blockPeriodNumber (to_uint32 (ProofRoot.Height chainBefore)).
Proof.
  unfold agree.
  destruct (rpcValid externalSystem) eqn:Ev; cbn; [|discriminate].
  destruct (bool_decide (rpcHost externalSystem = EmptyString)) eqn:Eh; cbn; [discriminate|].
  apply bool_decide_eq_false in Eh.
  destruct (GetNotarizationData _) as [[ok history] txes] eqn:Eg.
  destruct ok; cbn; [|discriminate].
  destruct (vsize (known_roots _ history) =? 0) eqn:Ek; cbn; [discriminate|].
  set (reply := RPCCallRoot _ _).
  destruct (replyIsNull reply) eqn:En; cbn; [discriminate|].
  destruct (bestproofrootindex reply =? -1) eqn:Ei; cbn; [discriminate|].
  destruct (at_index txes _) as [priorTx|] eqn:Et; cbn; [|discriminate].
  destruct (at_index (vtx history) _) as [p|] eqn:Ep; cbn; [|discriminate].
  destruct (BlockInChain priorTx.2) as [priorHeight|] eqn:Eb; [|discriminate].
  destruct (blockPeriodNumber _ <=? priorBlockPeriod priorHeight) eqn:El; cbn; [discriminate|].
  intros [= <-]. cbn. exists txes, priorTx, priorHeight.
  split; [reflexivity|]. split; [exact Eh|]. split; [reflexivity|].
  split; [intros E; rewrite E in Ek; discriminate|].
  split; [reflexivity|]. split; [exact En|].
  split; [apply Z.eqb_neq; exact Ei|].
  split; [exact Et|]. split; [exact Ep|]. split; [exact Eb|].
  apply Z.leb_gt. exact El.
Qed.

(** No error of the first part is the one of a chain that moved on. *)
Lemma agree_fail externalSystem msg :
  agree externalSystem = Fail msg -> msg <> "stale-block".
Proof.
  unfold agree.
  destruct (negb (negb (rpcValid externalSystem)
                  || bool_decide (rpcHost externalSystem = EmptyString))); cbn;
    [|intros [= <-]; discriminate].
  destruct (GetNotarizationData _) as [[ok history] txes].
  destruct ok; cbn; [|intros [= <-]; discriminate].
  destruct (vsize (known_roots _ history) =? 0); cbn; [intros [= <-]; discriminate|].
  set (reply := RPCCallRoot _ _).
  destruct (replyIsNull reply); cbn; [intros [= <-]; discriminate|].
  destruct (bestproofrootindex reply =? -1); cbn; [intros [= <-]; discriminate|].
  destruct (at_index txes _) as [priorTx|]; cbn; [|discriminate].
  destruct (at_index (vtx history) _) as [p|]; cbn; [|discriminate].
  destruct (BlockInChain priorTx.2) as [priorHeight|]; [|intros [= <-]; discriminate].
  destruct (blockPeriodNumber _ <=? priorBlockPeriod priorHeight); cbn;
    [intros [= <-]; discriminate | discriminate].
Qed.

(** *** The currency states of the reply *)

(** A state the loop stores under [id]: a valid state of a known currency
    of the notary system whose ID is [id]. *)
Definition kept_state (SystemID id : Z) (st : CCoinbaseCurrencyState) : Prop :=
  csValid st = true
  ∧ cdValid (GetCachedCurrency (StateCurrencyID st)) = true
  ∧ systemID (GetCachedCurrency (StateCurrencyID st)) = SystemID
  ∧ GetID (GetCachedCurrency (StateCurrencyID st)) = id.

Lemma currency_state_loop_valid SystemID states : forall nz nz',
  currency_state_loop SystemID states nz = (Valid, nz') ->
  currencyID nz' = currencyID nz
  ∧ notarizationHeight nz' = notarizationHeight nz
  ∧ proofRoots nz' = proofRoots nz
  ∧ forall id st, currencyStates nz' !! id = Some st ->
      currencyStates nz !! id = Some st
      ∨ (st ∈ states ∧ kept_state SystemID id st ∧ id <> currencyID nz).
Proof.
  induction states as [|oneCurState rest IH]; intros nz nz'; cbn [currency_state_loop].
  - intros [= <-]. auto.
  - destruct (csValid oneCurState) eqn:Ev; cbn [negb]; [|discriminate].
    destruct (cdValid (GetCachedCurrency (StateCurrencyID oneCurState))) eqn:Ed; cbn [negb].
    + destruct (systemID (GetCachedCurrency (StateCurrencyID oneCurState)) =? SystemID) eqn:Es.
      * apply Z.eqb_eq in Es.
        destruct (currencyID nz =? GetID (GetCachedCurrency (StateCurrencyID oneCurState)))
          eqn:Ec; intros Hl; apply IH in Hl; destruct Hl as (Hc & Hh & Hr & Hs).
        -- repeat split; try assumption.
           intros id st Hst. destruct (Hs id st Hst) as [Hold | (Hin & Hk & Hne)].
           ++ left. exact Hold.
           ++ right. split; [right; exact Hin|]. split; [exact Hk | exact Hne].
        -- apply Z.eqb_neq in Ec. repeat split; try assumption.
           intros id st Hst. destruct (Hs id st Hst) as [Hold | (Hin & Hk & Hne)].
           ++ cbn in Hold.
              destruct (decide (GetID (GetCachedCurrency (StateCurrencyID oneCurState)) = id))
                as [Eid | Nid].
              ** subst id. rewrite lookup_insert_eq in Hold. injection Hold as <-.
                 right. split; [left|]. split; [|cbn in Hc; congruence].
                 repeat split; assumption.
              ** rewrite lookup_insert_ne in Hold by exact Nid. left. exact Hold.
           ++ right. split; [right; exact Hin|]. split; [exact Hk | exact Hne].
      * intros Hl. apply IH in Hl. destruct Hl as (Hc & Hh & Hr & Hs).
        repeat split; try assumption.
        intros id st Hst. destruct (Hs id st Hst) as [Hold | (Hin & Hk & Hne)].
        -- left. exact Hold.
        -- right. split; [right; exact Hin|]. split; [exact Hk | exact Hne].
    + destruct (GetID (GetCachedCurrency (StateCurrencyID oneCurState)) =? SystemID);
        [discriminate|].
      intros Hl. apply IH in Hl. destruct Hl as (Hc & Hh & Hr & Hs).
      repeat split; try assumption.
      intros id st Hst. destruct (Hs id st Hst) as [Hold | (Hin & Hk & Hne)].
      * left. exact Hold.
      * right. split; [right; exact Hin|]. split; [exact Hk | exact Hne].
Qed.

Lemma currency_state_loop_error SystemID states : forall nz msg nz',
  currency_state_loop SystemID states nz = (Error msg, nz') -> msg <> "stale-block".
Proof.
  induction states as [|oneCurState rest IH]; intros nz msg nz'; cbn [currency_state_loop].
  - discriminate.
  - destruct (negb (csValid oneCurState)); [intros [= <- _]; discriminate|].
    destruct (negb (cdValid (GetCachedCurrency (StateCurrencyID oneCurState)))).
    + destruct (GetID (GetCachedCurrency (StateCurrencyID oneCurState)) =? SystemID);
        [intros [= <- _]; discriminate | apply IH].
    + destruct (systemID (GetCachedCurrency (StateCurrencyID oneCurState)) =? SystemID);
        [|apply IH].
      destruct (currencyID nz =? GetID (GetCachedCurrency (StateCurrencyID oneCurState)));
        apply IH.
Qed.

(** The copy of the prior notarization as the loop over the currency states
    finds it. *)
Definition refreshed (SystemID height : Z) (priorNotarization : CPBaaSNotarization)
           (latestProofRoot : CProofRoot) : CPBaaSNotarization :=
  Accepted.with_proofRoots (with_height priorNotarization height)
    (<[SystemID := latestProofRoot]> (proofRoots priorNotarization)).

Lemma fill_valid SystemID height priorNotarization reply nz :
  fill SystemID height priorNotarization reply = (Valid, nz) ->
  ProofRootIsValid (latestproofroot reply) = true
  ∧ height = to_uint32 (ProofRoot.Height chainAfter)
  ∧ exists states,
      currencystates reply = Some states
      ∧ states <> []
      ∧ currency_state_loop SystemID states
          (with_currencyStates
             (refreshed SystemID height priorNotarization (latestproofroot reply)) ∅)
        = (Valid, nz).
Proof.
  unfold fill, refreshed.
  destruct (ProofRootIsValid (latestproofroot reply)); cbn [negb]; [|discriminate].
  destruct (currencystates reply) as [[|oneCurState rest]|]; [discriminate| |discriminate].
  destruct (Z.eqb_spec height (to_uint32 (ProofRoot.Height chainAfter))) as [Eh|];
    cbn [negb]; [|discriminate].
  intros Hl. split; [reflexivity|]. split; [exact Eh|].
  exists (oneCurState :: rest). split; [reflexivity|]. split; [discriminate | exact Hl].
Qed.

Lemma fill_stale SystemID height priorNotarization reply nz :
  fill SystemID height priorNotarization reply = (Error "stale-block", nz) ->
  ProofRootIsValid (latestproofroot reply) = true
  ∧ height <> to_uint32 (ProofRoot.Height chainAfter)
  ∧ nz = refreshed SystemID height priorNotarization (latestproofroot reply).
Proof.
  unfold fill, refreshed.
  destruct (ProofRootIsValid (latestproofroot reply)); cbn [negb]; [|discriminate].
  destruct (currencystates reply) as [[|oneCurState rest]|];
    [intros [= Hm _]; cbv in Hm; discriminate| |intros [= Hm _]; cbv in Hm; discriminate].
  destruct (Z.eqb_spec height (to_uint32 (ProofRoot.Height chainAfter))) as [Eh|Nh];
    cbn [negb].
  - intros Hl. apply currency_state_loop_error in Hl. contradiction.
  - intros [= <-]. split; [reflexivity|]. split; [exact Nh | reflexivity].
Qed.

(** *** The last part *)

Lemma add_gateway_state_some gateway nz nz' :
  add_gateway_state gateway nz = Some nz' ->
  currencyID nz' = currencyID nz
  ∧ notarizationHeight nz' = notarizationHeight nz
  ∧ proofRoots nz' = proofRoots nz
  ∧ forall id st, currencyStates nz' !! id = Some st ->
      id = gateway ∨ currencyStates nz !! id = Some st.
Proof.
  unfold add_gateway_state.
  destruct (IsNull gateway); [intros [= <-]; auto|].
  destruct (GetNotarizationData gateway) as [[ok gatewayCND] txes].
  destruct (ok && negb (vsize (vtx gatewayCND) =? 0)); [|intros [= <-]; auto].
  destruct (at_index (vtx gatewayCND) (lastConfirmed gatewayCND)) as [confirmed|];
    cbn; [|discriminate].
  intros [= <-]. cbn. repeat split.
  intros id st Hst. destruct (decide (gateway = id)) as [E|N]; [left; congruence|].
  rewrite lookup_insert_ne in Hst by exact N. right. exact Hst.
Qed.

Lemma complete_some systemDef height prior nz nz' :
  complete systemDef height prior nz = Some nz' ->
  exists curBlkIndex,
    ProofRoot.block_at chainAfter (ProofRoot.to_int32 height) = Some curBlkIndex
    ∧ prevNotarization nz' = prior.1
    ∧ hashPrevNotarization nz' = HashNotarization prior.2
    ∧ prevHeight nz' = notarizationHeight prior.2
    ∧ currencyID nz' = currencyID nz
    ∧ notarizationHeight nz' = notarizationHeight nz
    ∧ proofRoots nz'
      = <[GetID ThisChain :=
            ProofRoot.mkProofRoot VERSION_CURRENT TYPE_PBAAS (GetID ThisChain) height
              (ProofRoot.GetRoot MMR MMVRoot
                 (if negb (to_uint32 (ProofRoot.Height chainAfter) =? height)
                  then ProofRoot.resize MMR (GetMMV chainAfter) height
                  else GetMMV chainAfter))
              (ProofRoot.GetBlockHash curBlkIndex)
              (ProofRoot.CompactChainPower curBlkIndex)]> (proofRoots nz)
    ∧ forall id st, currencyStates nz' !! id = Some st ->
        id = gatewayConverterID systemDef (GetID systemDef) (GetID ThisChain)
        ∨ currencyStates nz !! id = Some st.
Proof.
  unfold complete.
  destruct (ProofRoot.block_at chainAfter (ProofRoot.to_int32 height)) as [blk|];
    cbn [mbind option_bind]; [|discriminate].
  destruct (add_gateway_state _ _) as [nz1|] eqn:Eg; cbn [mbind option_bind]; [|discriminate].
  intros [= <-]. apply add_gateway_state_some in Eg.
  destruct Eg as (Hc & Hh & Hr & Hs). exists blk. cbn.
  split; [reflexivity|]. split; [reflexivity|]. split; [reflexivity|]. split; [reflexivity|].
  split; [exact Hc|]. split; [exact Hh|]. split; [exact Hr | exact Hs].
Qed.

(** What a call that returns true went through. *)
Lemma CreateEarnedNotarization_true externalSystem Proposer txOutputs0 notarization0
      proposer0 r :
  CreateEarnedNotarization externalSystem Proposer txOutputs0 notarization0 proposer0
  = Some r ->
  error r = None ->
  exists a nz,
    agree externalSystem = Done a
    ∧ fill (GetID (chainDefinition externalSystem))
           (to_uint32 (ProofRoot.Height chainBefore)) (prior a).2 (result a) = (Valid, nz)
    ∧ complete (chainDefinition externalSystem) (to_uint32 (ProofRoot.Height chainBefore))
               (prior a) nz = Some (notarization r)
    ∧ txOutputs r = emit (chainDefinition externalSystem)
                      (to_uint32 (ProofRoot.Height chainBefore)) (notarization r) txOutputs0
    ∧ proposer r = Proposer.
Proof.
  unfold CreateEarnedNotarization.
  destruct (agree externalSystem) as [a|msg|] eqn:Ea; [|intros [= <-]; discriminate|discriminate].
  destruct (fill _ _ _ _) as [[|msg] nz] eqn:Ef; [|intros [= <-]; discriminate].
  destruct (complete _ _ _ nz) as [nz'|] eqn:Ec; cbn [mbind option_bind]; [|discriminate].
  intros [= <-] _. exists a, nz. cbn. auto.
Qed.

(** X27.  [CreateEarnedNotarization] returns true only for a notary chain
    that is valid and reachable, whose history is found and holds a proof
    root of it, when the notary chain answered with the index of an entry
    of that history whose transaction is in a block of the active chain of
    an earlier notarization period than the next block, with a valid latest
    proof root, and the active chain stands where it stood before the
    call. *)
Theorem CreateEarnedNotarization_only_when_eligible externalSystem Proposer txOutputs0
        notarization0 proposer0 r :
  CreateEarnedNotarization externalSystem Proposer txOutputs0 notarization0 proposer0
  = Some r ->
  error r = None ->
  let SystemID := GetID (chainDefinition externalSystem) in
  exists history txes reply priorTx priorHeight,
    rpcValid externalSystem = true
    ∧ rpcHost externalSystem <> EmptyString
    ∧ GetNotarizationData SystemID = (true, history, txes)
    ∧ known_roots SystemID history <> []
    ∧ reply = RPCCallRoot (known_roots SystemID history) (lastConfirmed history)
    ∧ replyIsNull reply = false
    ∧ bestproofrootindex reply <> -1
    ∧ at_index txes (bestproofrootindex reply) = Some priorTx
    ∧ BlockInChain priorTx.2 = Some priorHeight
    ∧ priorBlockPeriod priorHeight
      < blockPeriodNumber (to_uint32 (ProofRoot.Height chainBefore))
    ∧ ProofRootIsValid (latestproofroot reply) = true
    ∧ to_uint32 (ProofRoot.Height chainAfter) = to_uint32 (ProofRoot.Height chainBefore).
Proof.
  intros Hrun Hok SystemID.
  destruct (CreateEarnedNotarization_true _ _ _ _ _ _ Hrun Hok)
    as (a & nz & Ha & Hf & _).
  apply agree_done in Ha.
  destruct Ha as (txes & priorTx & priorHeight & Hv & Hh & Hg & Hk & Hr & Hn & Hi & Ht
                  & _ & Hb & Hp).
  apply fill_valid in Hf. destruct Hf as (Hroot & Hsame & _).
  exists (cnd a), txes, (result a), priorTx, priorHeight.
  split; [exact Hv|]. split; [exact Hh|]. split; [exact Hg|]. split; [exact Hk|].
  split; [exact Hr|]. split; [exact Hn|]. split; [exact Hi|]. split; [exact Ht|].
  split; [exact Hb|]. split; [exact Hp|]. split; [exact Hroot|].
  symmetry. exact Hsame.
Qed.

(** X28.  When [CreateEarnedNotarization] returns true, the notarization of
    the caller is for the currency of the entry of the history that the
    notary chain agreed with, at the height of the active chain, with the
    given proposer; it names that entry as its previous notarization by
    output, hash and height; its proof root of this chain is at that height,
    with the root of the whole range and the hash and power of the block at
    that height; unless the notary system is this chain, its proof root of
    the notary system is the latest one of the reply.  [txOutputs] has
    grown by the earned notarization output carrying that notarization,
    followed, unless the notary chain is addressed by its identity, by an
    unconfirmed finalization whose output index is its own place in
    [txOutputs] and whose minimum height is 15 above. *)
Theorem CreateEarnedNotarization_result externalSystem Proposer txOutputs0 notarization0
        proposer0 r :
  CreateEarnedNotarization externalSystem Proposer txOutputs0 notarization0 proposer0
  = Some r ->
  error r = None ->
  let systemDef := chainDefinition externalSystem in
  let height := to_uint32 (ProofRoot.Height chainBefore) in
  let history := (GetNotarizationData (GetID systemDef)).1.2 in
  let reply := RPCCallRoot (known_roots (GetID systemDef) history) (lastConfirmed history) in
  let byIdentity := notarizationProtocol systemDef =? NOTARIZATION_NOTARY_CHAINID in
  exists prior blk,
    at_index (vtx history) (bestproofrootindex reply) = Some prior
    ∧ ProofRoot.block_at chainAfter (ProofRoot.to_int32 height) = Some blk
    ∧ proposer r = Proposer
    ∧ currencyID (notarization r) = currencyID prior.2
    ∧ notarizationHeight (notarization r) = height
    ∧ prevNotarization (notarization r) = prior.1
    ∧ hashPrevNotarization (notarization r) = HashNotarization prior.2
    ∧ prevHeight (notarization r) = notarizationHeight prior.2
    ∧ proofRoots (notarization r) !! GetID ThisChain
      = Some (ProofRoot.mkProofRoot VERSION_CURRENT TYPE_PBAAS (GetID ThisChain) height
                (ProofRoot.GetRoot MMR MMVRoot (GetMMV chainAfter))
                (ProofRoot.GetBlockHash blk) (ProofRoot.CompactChainPower blk))
    ∧ (GetID systemDef <> GetID ThisChain ->
       proofRoots (notarization r) !! GetID systemDef = Some (latestproofroot reply))
    ∧ txOutputs r
      = txOutputs0
        ++ (NotarizationScript EVAL_EARNEDNOTARIZATION
              (if byIdentity then [DestIdentity (GetID systemDef)]
               else [DestContractKey EVAL_EARNEDNOTARIZATION]) 1 (notarization r), 0)
        :: (if byIdentity then []
            else [(FinalizationScript EVAL_FINALIZE_NOTARIZATION
                     [DestContractKey EVAL_FINALIZE_NOTARIZATION] 1
                     {| of_version := FINALIZATION_VERSION_CURRENT;
                        finalizationType := FINALIZE_NOTARIZATION;
                        of_confirmed := false;
                        of_currencyID := VERUS_CHAINID;
                        output := {| hash := 0; n := vsize txOutputs0 + 1 |};
                        evidenceInputs := []; evidenceOutputs := [];
                        minFinalizationHeight := to_uint32 (height + 15) |}, 0)]).
Proof.
  intros Hrun Hok systemDef height history reply byIdentity.
  destruct (CreateEarnedNotarization_true _ _ _ _ _ _ Hrun Hok)
    as (a & nz & Ha & Hf & Hc & Ht & Hp).
  apply agree_done in Ha.
  destruct Ha as (txes & priorTx & priorHeight & _ & _ & Hg & _ & Hr & _ & _ & _
                  & Hprior & _ & _).
  assert (Hhist : history = cnd a) by (subst history systemDef; rewrite Hg; reflexivity).
  assert (Hreply : reply = result a)
    by (subst reply; rewrite Hhist; symmetry; exact Hr).
  apply fill_valid in Hf. destruct Hf as (_ & Hsame & states & _ & _ & Hl).
  apply currency_state_loop_valid in Hl. destruct Hl as (Hlc & Hlh & Hlr & _).
  apply complete_some in Hc.
  destruct Hc as (blk & Hb & Hprev & Hhash & Hph & Hcc & Hch & Hroots & _).
  fold systemDef height in Hsame, Hb, Hroots, Ht.
  exists (prior a), blk.
  split; [rewrite Hhist, Hreply; exact Hprior|].
  split; [exact Hb|]. split; [exact Hp|].
  split; [rewrite Hcc, Hlc; reflexivity|].
  split; [rewrite Hch, Hlh; reflexivity|].
  split; [exact Hprev|]. split; [exact Hhash|]. split; [exact Hph|].
  split.
  { rewrite Hroots, lookup_insert_eq. rewrite <- Hsame, Z.eqb_refl. reflexivity. }
  split.
  { intros Hne. rewrite Hroots, lookup_insert_ne by congruence.
    rewrite Hlr. cbn. rewrite lookup_insert_eq, Hreply. reflexivity. }
  rewrite Ht. unfold emit. fold byIdentity.
  destruct byIdentity; cbn [negb].
  - reflexivity.
  - rewrite <- app_assoc. cbn [app]. unfold vsize. rewrite length_app. cbn [length].
    replace (Z.of_nat (length txOutputs0 + 1)) with (Z.of_nat (length txOutputs0) + 1) by lia.
    reflexivity.
Qed.

(** X29.  When [CreateEarnedNotarization] returns true, no currency state of
    the prior notarization is left in the map of currency states: every
    entry is either the one of the gateway converter or a valid state of the
    reply, for a known currency of the notary system other than the
    currency of the notarization, stored under the ID of that currency. *)
Theorem CreateEarnedNotarization_currency_states externalSystem Proposer txOutputs0
        notarization0 proposer0 r :
  CreateEarnedNotarization externalSystem Proposer txOutputs0 notarization0 proposer0
  = Some r ->
  error r = None ->
  let systemDef := chainDefinition externalSystem in
  let history := (GetNotarizationData (GetID systemDef)).1.2 in
  let reply := RPCCallRoot (known_roots (GetID systemDef) history) (lastConfirmed history) in
  forall id st,
    currencyStates (notarization r) !! id = Some st ->
    id = gatewayConverterID systemDef (GetID systemDef) (GetID ThisChain)
    ∨ (exists states,
         currencystates reply = Some states
         ∧ st ∈ states
         ∧ kept_state (GetID systemDef) id st
         ∧ id <> currencyID (notarization r)).
Proof.
  intros Hrun Hok systemDef history reply id st Hst.
  destruct (CreateEarnedNotarization_true _ _ _ _ _ _ Hrun Hok)
    as (a & nz & Ha & Hf & Hc & _ & _).
  apply agree_done in Ha.
  destruct Ha as (txes & _ & _ & _ & _ & Hg & _ & Hr & _).
  assert (Hhist : history = cnd a) by (subst history systemDef; rewrite Hg; reflexivity).
  assert (Hreply : reply = result a)
    by (subst reply; rewrite Hhist; symmetry; exact Hr).
  apply fill_valid in Hf. destruct Hf as (_ & _ & states & Hstates & _ & Hl).
  apply currency_state_loop_valid in Hl. destruct Hl as (Hlc & _ & _ & Hls).
  apply complete_some in Hc.
  destruct Hc as (_ & _ & _ & _ & _ & Hcc & _ & _ & Hcs).
  destruct (Hcs id st Hst) as [Hgw | Hin]; [left; exact Hgw|].
  destruct (Hls id st Hin) as [Hold | (Hmem & Hk & Hne)].
  - cbn in Hold. rewrite lookup_empty in Hold. discriminate.
  - right. exists states. rewrite Hreply.
    split; [exact Hstates|]. split; [exact Hmem|]. split; [exact Hk|].
    rewrite Hcc, Hlc. exact Hne.
Qed.

(** X30.  When the active chain has moved on during the call to the notary
    chain, [CreateEarnedNotarization] reports a stale block and leaves
    [txOutputs] as they were, but the notarization of the caller is no
    longer what it was: it is the copy of the prior notarization at the
    height the chain had before the call, with the given proposer and the
    latest proof root of the reply. *)
Theorem CreateEarnedNotarization_stale_block externalSystem Proposer txOutputs0
        notarization0 proposer0 r :
  CreateEarnedNotarization externalSystem Proposer txOutputs0 notarization0 proposer0
  = Some r ->
  error r = Some "stale-block" ->
  let systemDef := chainDefinition externalSystem in
  let height := to_uint32 (ProofRoot.Height chainBefore) in
  let history := (GetNotarizationData (GetID systemDef)).1.2 in
  let reply := RPCCallRoot (known_roots (GetID systemDef) history) (lastConfirmed history) in
  exists prior,
    at_index (vtx history) (bestproofrootindex reply) = Some prior
    ∧ to_uint32 (ProofRoot.Height chainAfter) <> height
    ∧ txOutputs r = txOutputs0
    ∧ proposer r = Proposer
    ∧ notarization r = refreshed (GetID systemDef) height prior.2 (latestproofroot reply).
Proof.
  intros Hrun Herr systemDef height history reply.
  unfold CreateEarnedNotarization in Hrun.
  destruct (agree externalSystem) as [a|msg|] eqn:Ea.
  - destruct (fill _ _ _ _) as [[|msg] nz] eqn:Ef.
    + destruct (complete _ _ _ nz); cbn [mbind option_bind] in Hrun; [|discriminate].
      injection Hrun as <-. discriminate.
    + injection Hrun as <-. cbn in Herr. injection Herr as ->.
      apply fill_stale in Ef. destruct Ef as (_ & Hne & ->).
      apply agree_done in Ea.
      destruct Ea as (txes & _ & _ & _ & _ & Hg & _ & Hr & _ & _ & _ & Hprior & _).
      assert (Hhist : history = cnd a) by (subst history systemDef; rewrite Hg; reflexivity).
      assert (Hreply : reply = result a)
        by (subst reply; rewrite Hhist; symmetry; exact Hr).
      exists (prior a). rewrite Hhist, Hreply. cbn.
      split; [exact Hprior|].
      split; [intros E; apply Hne; symmetry; exact E|]. auto.
  - injection Hrun as <-. cbn in Herr. injection Herr as ->.
    apply agree_fail in Ea. contradiction.
  - discriminate.
Qed.

End Create.

(** *** A notary chain that answers

    This chain is system 1 and stands at height 100, the notary chain is
    system 5 and a notarization period has 10 blocks.  The history of system
    5 has one notarization, in the block with hash 1090 at height 90.
    Currency 7 is a token of system 5.  The notary chain agrees with entry 0
    of the history and sends the states of currencies 5, 6, 7 and 9, of
    which 6 belongs to another system and 9 is unknown. *)

Definition notary : CRPCChainData :=
  {| rpcValid := true; chainDefinition := Scenario.currency5; rpcHost := "notary" |}.

Definition agreed_tx : CTransaction := {| GetHash := 2; vout := [] |}.

Definition history : CChainNotarizationData :=
  {| cnd_version := 1;
     vtx := [ ({| hash := 2; n := 0 |}, Accepted.earned 90) ];
     forks := [[0]]; lastConfirmed := 0; bestChain := 0 |}.

Definition GetNotarizationData (id : Z)
  : bool * CChainNotarizationData * list (CTransaction * uint256) :=
  if id =? 5 then (true, history, [(agreed_tx, 1090)])
  else (false, Accepted.no_history, []).

(** The state of currency [id]; the ID is what [csRest] holds. *)
Definition state_of (id : Z) : CCoinbaseCurrencyState :=
  {| csValid := true;
     csFlags := {| csPrelaunch := false; csLaunchClear := false; csRefunding := false;
                   csLaunchConfirmed := true; csLaunchCompleteMarker := true |};
     supply := 1000 + id; reserves := []; conversionPrice := []; viaConversionPrice := [];
     csRest := id |}.

Definition reply : BestProofRoot :=
  {| replyIsNull := false; bestproofrootindex := 0;
     latestproofroot := Accepted.root_at 5 60;
     currencystates := Some [state_of 5; state_of 6; state_of 7; state_of 9] |}.

Definition token7 : CCurrencyDefinition :=
  {| cdValid := true; GetID := 7; cdName := "seven"; systemID := 5; launchSystemID := 5;
     startBlock := 0; notarizationProtocol := 1;
     notaries := []; minNotariesConfirm := 0;
     currencies := []; minPreconvert := []; maxPreconvert := []; contributions := [];
     IsFractional := false |}.

Definition GetCachedCurrency (id : Z) : CCurrencyDefinition :=
  if id =? 7 then token7 else Accepted.GetCachedCurrency id.

Definition BlockInChain (h : uint256) : option Z := if h =? 1090 then Some 90 else None.

(** The chain one block later. *)
Definition chain101 : ProofRoot.CChain :=
  {| ProofRoot.vChain := Accepted.block <$> seqZ 0 102 |}.

(** The call of proposer 77 with no outputs yet, on a chain that is
    [chainAfter] when the notary chain has answered. *)
Definition run (chainAfter : ProofRoot.CChain) : option (Returned Z) :=
  CreateEarnedNotarization Z 1 Accepted.chain100 chainAfter unit (fun _ sz => 5000 + sz)
    Accepted.GetMMV GetNotarizationData (fun _ _ => reply) BlockInChain 10
    (fun r => negb (pr_version r =? 0)) 1 1 csRest GetCachedCurrency Accepted.currency1
    (fun _ => false) (fun _ => EmptyString) (fun _ parent => parent) 5
    (fun nz => notarizationHeight nz + 1) 2 1 1
    notary 77 [] (Accepted.notarization_with 0 ∅) 0.

Lemma run_returns_true :
  exists r, run Accepted.chain100 = Some r ∧ error Z r = None.
Proof.
  destruct (run Accepted.chain100) as [r|] eqn:Er; [|vm_compute in Er; discriminate].
  exists r. split; [reflexivity|].
  vm_compute in Er. injection Er as <-. reflexivity.
Defined.

Lemma CreateEarnedNotarization_only_when_eligible_witness :
  exists r priorHeight,
    run Accepted.chain100 = Some r
    ∧ error Z r = None
    ∧ BlockInChain 1090 = Some priorHeight
    ∧ priorBlockPeriod 10 priorHeight < blockPeriodNumber 10 100.
Proof.
  destruct run_returns_true as (r & Er & Hok).
  exists r. unfold run in Er.
  pose proof Er as Hx. apply CreateEarnedNotarization_only_when_eligible in Hx; [|exact Hok].
  cbv zeta in Hx.
  destruct Hx
    as (h & txes & rep & priorTx & priorHeight & _ & _ & Hg & _ & Hrep & _ & _ & Ht & Hb
        & Hp & _).
  exists priorHeight.
  injection Hg as <- <-. subst rep. cbn in Ht. injection Ht as <-.
  split; [exact Er|]. split; [exact Hok|]. split; [exact Hb | exact Hp].
Defined.

Lemma CreateEarnedNotarization_result_witness :
  exists r,
    run Accepted.chain100 = Some r
    ∧ error Z r = None
    ∧ notarizationHeight (notarization Z r) = 100
    ∧ prevNotarization (notarization Z r) = {| hash := 2; n := 0 |}
    ∧ proofRoots (notarization Z r) !! 5 = Some (Accepted.root_at 5 60)
    ∧ length (txOutputs Z r) = 2%nat.
Proof.
  destruct run_returns_true as (r & Er & Hok).
  exists r. unfold run in Er.
  pose proof Er as Hx. apply CreateEarnedNotarization_result in Hx; [|exact Hok].
  cbv zeta in Hx.
  destruct Hx
    as (prior & blk & Hprior & _ & _ & _ & Hh & Hprev & _ & _ & _ & Hroot & Hout).
  cbn in Hprior. injection Hprior as <-.
  split; [exact Er|]. split; [exact Hok|].
  split; [rewrite Hh; vm_compute; reflexivity|].
  split; [exact Hprev|].
  split; [apply Hroot; cbn; lia|].
  rewrite Hout. reflexivity.
Defined.

Lemma CreateEarnedNotarization_currency_states_witness :
  exists r,
    run Accepted.chain100 = Some r
    ∧ error Z r = None
    ∧ currencyStates (notarization Z r) !! 7 = Some (state_of 7)
    ∧ currencyStates (notarization Z r) !! 6 = None.
Proof.
  destruct run_returns_true as (r & Er & Hok).
  exists r. split; [exact Er|]. split; [exact Hok|].
  split; [vm_compute in Er; injection Er as <-; vm_compute; reflexivity|].
  destruct (currencyStates (notarization Z r) !! 6) as [st|] eqn:E6; [|reflexivity].
  exfalso. unfold run in Er.
  pose proof Er as Hx.
  apply CreateEarnedNotarization_currency_states with (id := 6) (st := st) in Hx;
    [|exact Hok|exact E6].
  destruct Hx
    as [Hgw | (states & Hs & Hin & (_ & _ & Hsys & Hid) & _)].
  - vm_compute in Hgw. discriminate.
  - cbn in Hs. injection Hs as <-.
    repeat (apply elem_of_cons in Hin; destruct Hin as [-> | Hin];
            [vm_compute in Hid; vm_compute in Hsys; congruence|]).
    apply elem_of_nil in Hin. contradiction.
Defined.

Lemma CreateEarnedNotarization_stale_block_witness :
  exists r,
    run chain101 = Some r
    ∧ error Z r = Some "stale-block"
    ∧ txOutputs Z r = []
    ∧ notarizationHeight (notarization Z r) = 100
    ∧ notarization Z r <> Accepted.notarization_with 0 ∅.
Proof.
  destruct (run chain101) as [r|] eqn:Er; [|vm_compute in Er; discriminate].
  assert (Herr : error Z r = Some "stale-block")
    by (vm_compute in Er; injection Er as <-; reflexivity).
  exists r. split; [reflexivity|]. split; [exact Herr|].
  unfold run in Er.
  pose proof Er as Hx. apply CreateEarnedNotarization_stale_block in Hx; [|exact Herr].
  cbv zeta in Hx.
  destruct Hx
    as (prior & Hprior & _ & Hout & _ & Hnz).
  cbn in Hprior. injection Hprior as <-.
  split; [exact Hout|].
  rewrite Hnz. split; [vm_compute; reflexivity|].
  intros E. apply (f_equal notarizationHeight) in E. vm_compute in E. discriminate.
Defined.

End Earned.
